(** * ct_classifier: the training script [train.py] and [util.py]

    A shallow embedding of the epoch orchestrator, the two epoch runners,
    the checkpoint store and the seeding utility, together with the
    properties the design document states about them.

    Conventions.
    - Python [int] is [Z]; Python [float] is idealised as [Q] (exact
      rationals), the one partial operation, true division, raising
      [ZeroDivisionError] as in Python.
    - Python [dict] objects live in a heap and are passed by reference.
    - Every call into the tensor runtime (torch) is recorded in a call log,
      next to the value it computes; the network, the loss and the gradient
      computations themselves are fields of an abstract [Runtime]. *)

From Stdlib Require Import ZArith QArith String Ascii.
From Stdlib Require Import Decimal DecimalString DecimalPos DecimalZ.
From stdpp Require Import gmap strings list fin_maps.

Open Scope string_scope.
Open Scope Z_scope.

(** ** Python strings: [str.replace], [int(str)], f-string of an [int] *)

Module PyStr.

(** [s.startswith(p)] *)
Fixpoint startswith (p s : string) {struct p} : bool :=
  match p with
  | EmptyString => true
  | String a p' =>
      match s with
      | EmptyString => false
      | String b s' => Ascii.eqb a b && startswith p' s'
      end
  end.

(** [s.replace(old, new)] for a non-empty [old]: scan from the left and
    replace every non-overlapping occurrence.  [skip] counts the characters
    of an occurrence still to be dropped. *)
Fixpoint replace_from (old new : string) (skip : nat) (s : string) : string :=
  match s with
  | EmptyString => EmptyString
  | String c s' =>
      match skip with
      | S k => replace_from old new k s'
      | O =>
          if startswith old s
          then new ++ replace_from old new (String.length old - 1) s'
          else String c (replace_from old new 0 s')
      end
  end.

Definition replace (old new s : string) : string := replace_from old new 0 s.

(** [f'{n}'] for an integer. *)
Definition str_of_int (n : Z) : string := NilZero.string_of_int (Z.to_int n).

(** [int(s)] on a decimal literal with an optional minus sign; [None] is
    Python's [ValueError].  (Surrounding blanks, a plus sign and digit
    separators, which Python also accepts, are not part of this model.) *)
Definition int_of_str (s : string) : option Z :=
  Z.of_int <$> NilZero.int_of_string s.

Fixpoint endswith_from (suffix s : string) : bool :=
  match s with
  | EmptyString => String.eqb suffix EmptyString
  | String _ s' => String.eqb suffix s || endswith_from suffix s'
  end.

Definition endswith (suffix s : string) : bool := endswith_from suffix s.

Fixpoint all_chars (P : ascii -> bool) (s : string) : bool :=
  match s with
  | EmptyString => true
  | String c s' => P c && all_chars P s'
  end.

(** The characters of a decimal literal. *)
Definition numeric (c : ascii) : bool :=
  match c with
  | "0" | "1" | "2" | "3" | "4" | "5" | "6" | "7" | "8" | "9" | "-" => true
  | _ => false
  end%char.

Fixpoint contains_char (c : ascii) (s : string) : bool :=
  match s with
  | EmptyString => false
  | String d s' => Ascii.eqb c d || contains_char c s'
  end.

End PyStr.

(** ** Python values, exceptions and the tensor runtime *)

(** State of a [GradScaler] as [state_dict()] returns it. *)
Record ScalerSD := {
  sd_scale : Q;
  sd_growth_factor : Q;
  sd_backoff_factor : Q;
  sd_growth_interval : Z;
  sd_growth_tracker : Z
}.

(** Values stored in the dictionaries of the program: the YAML scalars of
    the configuration, the float statistics, and the three state
    dictionaries a checkpoint bundles.  [P] are model parameters, [O] the
    optimizer's internal state.  A disabled scaler has an empty state
    dictionary ([VScalerState None]). *)
Inductive value (P O : Type) : Type :=
  | VNone
  | VBool (b : bool)
  | VInt (n : Z)
  | VFloat (q : Q)
  | VStr (s : string)
  | VModelState (p : P)
  | VOptimState (lr wd : value P O) (st : O)
  | VScalerState (sd : option ScalerSD).

Arguments VNone {P O}.
Arguments VBool {P O} b.
Arguments VInt {P O} n.
Arguments VFloat {P O} q.
Arguments VStr {P O} s.
Arguments VModelState {P O} p.
Arguments VOptimState {P O} lr wd st.
Arguments VScalerState {P O} sd.

Inductive exn :=
  | KeyError (k : string)
  | ZeroDivisionError
  | ValueError
  | TypeError
  | FileNotFoundError (path : string)
  | RuntimeError.

(** The context of a [torch.autocast(device_type=..., dtype=float16,
    enabled=...)] block. *)
Record Autocast (P O : Type) := {
  ac_device_type : value P O;
  ac_enabled : value P O
}.
Arguments ac_device_type {P O} _.
Arguments ac_enabled {P O} _.

(** What the script takes from torch, from [model.py] and from
    [dataset.py], none of which is part of the sources: they are taken as
    parameters.  The network, the loss and their gradients are opaque; a
    forward pass depends on the module's mode and on the autocast context
    it runs in ([None]: outside any autocast block). *)
Record Runtime := {
  Params : Type;
  OptState : Type;
  Grads : Type;
  Data : Type;
  (* CustomResNet18(num_classes) *)
  new_model : value Params OptState -> Params;
  (* load_state_dict: [None] when the saved state does not fit the model *)
  load_params : Params -> Params -> option Params;
  new_optim_state : OptState;
  (* DataLoader(CTDataset(cfg, split), batch_size, shuffle=True, num_workers) *)
  make_loader :
    gmap string (value Params OptState) -> string ->
    value Params OptState -> value Params OptState -> list (Data * list Z);
  forward :
    bool -> option (Autocast Params OptState) -> Params -> Data -> list (list Q);
  cross_entropy :
    option (Autocast Params OptState) -> list (list Q) -> list Z -> Q;
  (* gradient of [factor * loss] with respect to the parameters *)
  backward :
    bool -> option (Autocast Params OptState) -> Q -> Params -> Data -> list Z -> Grads;
  (* accumulation into the parameters' gradient slots *)
  accumulate : option Grads -> Grads -> Grads;
  unscale : Q -> Grads -> Grads;
  has_inf_or_nan : Grads -> bool;
  (* SGD(lr, weight_decay).step() on parameters with these gradient slots *)
  sgd_step :
    value Params OptState -> value Params OptState ->
    Params -> OptState -> option Grads -> Params * OptState
}.

(** Calls into the runtime, in the order the script makes them. *)
Inductive call (P O : Type) :=
  | CModelTo (device : value P O)
  | CModelTrain
  | CModelEval
  | CNoGradEnter
  | CNoGradExit
  | CTensorTo (device : value P O)
  | CAutocastEnter (ac : Autocast P O)
  | CAutocastExit
  | CForward
  | CCrossEntropy
  | CScaleLoss
  | CBackward
  | CScalerStep
  | COptimizerStep
  | CScalerUpdate
  | CZeroGrad
  | CArgmax
  | CTorchSave (path : string)
  | CTorchLoad (path : string).

Arguments CModelTo {P O} device.
Arguments CModelTrain {P O}.
Arguments CModelEval {P O}.
Arguments CNoGradEnter {P O}.
Arguments CNoGradExit {P O}.
Arguments CTensorTo {P O} device.
Arguments CAutocastEnter {P O} ac.
Arguments CAutocastExit {P O}.
Arguments CForward {P O}.
Arguments CCrossEntropy {P O}.
Arguments CScaleLoss {P O}.
Arguments CBackward {P O}.
Arguments CScalerStep {P O}.
Arguments COptimizerStep {P O}.
Arguments CScalerUpdate {P O}.
Arguments CZeroGrad {P O}.
Arguments CArgmax {P O}.
Arguments CTorchSave {P O} path.
Arguments CTorchLoad {P O} path.

(** Files: a pickled dictionary ([torch.save]) or a YAML document. *)
Inductive file (P O : Type) :=
  | FPickle (d : gmap string (value P O))
  | FYaml (d : gmap string (value P O)).
Arguments FPickle {P O} d.
Arguments FYaml {P O} d.

(** A reference to a Python [dict] object. *)
Definition loc := positive.

(** The process state: the dictionary heap, the file system, whether CUDA
    is available, the seeds of the three random generators, the two cuDNN
    flags, and the log of runtime calls. *)
Record World (P O : Type) := {
  heap : gmap loc (gmap string (value P O));
  fs : gmap string (file P O);
  cuda_is_available : bool;
  random_seed : option (value P O);
  torch_seed : option (value P O);
  torch_cuda_seed : option (value P O);
  cudnn_benchmark : bool;
  cudnn_deterministic : bool;
  calls : list (call P O)
}.
Arguments heap {P O} _.
Arguments fs {P O} _.
Arguments cuda_is_available {P O} _.
Arguments random_seed {P O} _.
Arguments torch_seed {P O} _.
Arguments torch_cuda_seed {P O} _.
Arguments cudnn_benchmark {P O} _.
Arguments cudnn_deterministic {P O} _.
Arguments calls {P O} _.

(** ** The monad of the script: state and exceptions *)

Inductive outcome (A : Type) :=
  | Ok (a : A)
  | Raise (e : exn)
  | OutOfFuel.
Arguments Ok {A} a.
Arguments Raise {A} e.
Arguments OutOfFuel {A}.

Definition M (S A : Type) : Type := S -> outcome A * S.

Definition ret {S A} (a : A) : M S A := fun w => (Ok a, w).

Definition bind {S A B} (m : M S A) (k : A -> M S B) : M S B :=
  fun w =>
    match m w with
    | (Ok a, w') => k a w'
    | (Raise e, w') => (Raise e, w')
    | (OutOfFuel, w') => (OutOfFuel, w')
    end.

Definition raise {S A} (e : exn) : M S A := fun w => (Raise e, w).

Definition out_of_fuel {S A} : M S A := fun w => (OutOfFuel, w).

#[global] Instance M_ret {S} : MRet (M S) := fun A a => ret a.
#[global] Instance M_bind {S} : MBind (M S) := fun A B k m => bind m k.

Definition gets {S A} (f : S -> A) : M S A := fun w => (Ok (f w), w).
Definition modify {S} (f : S -> S) : M S unit := fun w => (Ok tt, f w).

(** Python's [/] on a float and an [int]. *)
Definition truediv {S} (x : Q) (n : Z) : M S Q :=
  if n =? 0 then raise ZeroDivisionError else ret (x / inject_Z n)%Q.

(** ** The program *)

Section Program.

Context (RT : Runtime).

Abbreviation val := (value (Params RT) (OptState RT)).
Abbreviation dict := (gmap string (value (Params RT) (OptState RT))).
Abbreviation world := (World (Params RT) (OptState RT)).
Abbreviation autocast := (Autocast (Params RT) (OptState RT)).
Abbreviation batch := (Data RT * list Z)%type.
Abbreviation Py := (M (World (Params RT) (OptState RT))).

(** *** World updates *)

Definition set_heap (h : gmap loc dict) (w : world) : world :=
  {| heap := h; fs := fs w; cuda_is_available := cuda_is_available w;
     random_seed := random_seed w; torch_seed := torch_seed w;
     torch_cuda_seed := torch_cuda_seed w;
     cudnn_benchmark := cudnn_benchmark w;
     cudnn_deterministic := cudnn_deterministic w; calls := calls w |}.

Definition set_fs (f : gmap string (file (Params RT) (OptState RT))) (w : world) : world :=
  {| heap := heap w; fs := f; cuda_is_available := cuda_is_available w;
     random_seed := random_seed w; torch_seed := torch_seed w;
     torch_cuda_seed := torch_cuda_seed w;
     cudnn_benchmark := cudnn_benchmark w;
     cudnn_deterministic := cudnn_deterministic w; calls := calls w |}.

Definition set_calls (c : list (call (Params RT) (OptState RT))) (w : world) : world :=
  {| heap := heap w; fs := fs w; cuda_is_available := cuda_is_available w;
     random_seed := random_seed w; torch_seed := torch_seed w;
     torch_cuda_seed := torch_cuda_seed w;
     cudnn_benchmark := cudnn_benchmark w;
     cudnn_deterministic := cudnn_deterministic w; calls := c |}.

(** *** Dictionaries, by reference *)

(** [d[k]]; a reference the program holds always points to a dictionary. *)
Definition dict_getitem (d : loc) (k : string) : Py val :=
  fun w =>
    match heap w !! d ≫= (.!! k) with
    | Some v => (Ok v, w)
    | None => (Raise (KeyError k), w)
    end.

(** [d.get(k, default)] *)
Definition dict_get (d : loc) (k : string) (default : val) : Py val :=
  fun w =>
    match heap w !! d ≫= (.!! k) with
    | Some v => (Ok v, w)
    | None => (Ok default, w)
    end.

(** [d[k] = v] *)
Definition dict_setitem (d : loc) (k : string) (v : val) : Py unit :=
  modify (fun w => set_heap (<[d := <[k := v]> (default ∅ (heap w !! d))]> (heap w)) w).

(** A dictionary display [{...}]: a new object. *)
Definition new_dict (content : dict) : Py loc :=
  fun w =>
    let l := fresh (dom (heap w)) in
    (Ok l, set_heap (<[l := content]> (heap w)) w).

(** The current content of a dictionary object (for serialisation). *)
Definition dict_snapshot (d : loc) : Py dict :=
  gets (fun w => default ∅ (heap w !! d)).

Definition log (c : call (Params RT) (OptState RT)) : Py unit :=
  modify (fun w => set_calls (calls w ++ [c]) w).

(** Truth value of an object, as [if x:] takes it. *)
Definition truthy (v : val) : bool :=
  match v with
  | VNone => false
  | VBool b => b
  | VInt n => negb (n =? 0)
  | VFloat q => negb (Qeq_bool q 0)
  | VStr s => negb (String.eqb s "")
  | _ => true
  end.

(** [v != 'cpu'] and the like: comparison of any object with a string. *)
Definition ne_str (v : val) (s : string) : bool :=
  match v with
  | VStr s' => negb (String.eqb s' s)
  | _ => true
  end.

(** [n < v] for an [int] [n]. *)
Definition int_lt (n : Z) (v : val) : Py bool :=
  match v with
  | VInt m => ret (n <? m)
  | VBool b => ret (n <? (if b then 1 else 0))
  | VFloat q => ret (negb (Qle_bool q (inject_Z n)))
  | _ => raise TypeError
  end.

(** *** util.py *)

(** [init_seed(seed)] *)
Definition init_seed (seed : val) : Py unit :=
  match seed with
  | VNone => ret tt
  | _ =>
      modify (fun w =>
        {| heap := heap w; fs := fs w;
           cuda_is_available := cuda_is_available w;
           random_seed := Some seed;            (* random.seed(seed) *)
           torch_seed := Some seed;             (* torch.manual_seed(seed) *)
           torch_cuda_seed := Some seed;        (* torch.cuda.manual_seed(seed) *)
           cudnn_benchmark := true;             (* cudnn.benchmark = True *)
           cudnn_deterministic := true;         (* cudnn.deterministic = True *)
           calls := calls w |})
  end.

(** *** torch objects *)

Record Model := {
  m_params : Params RT;
  m_grad : option (Grads RT);
  m_training : bool;
  m_device : option val
}.

Record Optimizer := {
  o_lr : val;
  o_weight_decay : val;
  o_state : OptState RT
}.

(** Modelled from the spec: [torch.cuda.amp.GradScaler] is library code,
    not part of the sources.  The scale factor, [step] and [update] follow
    section 4.4 of the design (steps 3 to 5) and the comments at lines
    163-173 of [train.py]; the [enabled] switch is the argument of the
    constructor call at line 58: a disabled scaler leaves losses and
    gradients alone, [step] then simply invokes the optimizer and [update]
    does nothing. *)
Record GradScaler := {
  gs_enabled : bool;
  gs_scale : Q;
  gs_growth_factor : Q;
  gs_backoff_factor : Q;
  gs_growth_interval : Z;
  gs_growth_tracker : Z
}.

(** Modelled from the spec: [GradScaler(enabled=e)] with the library's
    defaults (scale 2^16, growth 2, backoff 1/2, growth interval 2000); the
    library turns the scaler off when CUDA is not available. *)
Definition GradScaler_init (enabled : val) : Py GradScaler :=
  cuda ← gets cuda_is_available;
  mret {| gs_enabled := truthy enabled && cuda;
          gs_scale := 65536; gs_growth_factor := 2; gs_backoff_factor := 1 # 2;
          gs_growth_interval := 2000; gs_growth_tracker := 0 |}.

(** Modelled from the spec: the factor [scaler.scale(loss)] multiplies
    the loss by. *)
Definition scale_factor (s : GradScaler) : Q :=
  if gs_enabled s then gs_scale s else 1.

(** [optimizer.step()] *)
Definition optimizer_step (o : Optimizer) (m : Model) : Py (Optimizer * Model) :=
  log COptimizerStep;;
  let '(p, st) := sgd_step RT (o_lr o) (o_weight_decay o) (m_params m) (o_state o) (m_grad m) in
  mret ({| o_lr := o_lr o; o_weight_decay := o_weight_decay o; o_state := st |},
        {| m_params := p; m_grad := m_grad m; m_training := m_training m;
           m_device := m_device m |}).

(** Modelled from the spec: [scaler.step(optimizer)] "first unscales the
    gradients of the optimizer's assigned params; if these gradients do not
    contain infs or NaNs, optimizer.step() is then called, otherwise
    optimizer.step() is skipped" (lines 167-169).  Returns whether infs or
    NaNs were found. *)
Definition scaler_step (s : GradScaler) (o : Optimizer) (m : Model)
  : Py (bool * Optimizer * Model) :=
  log CScalerStep;;
  if gs_enabled s then
    (* unscale the gradients in place, then look for infs and NaNs *)
    let g := unscale RT (/ gs_scale s)%Q <$> m_grad m in
    let m1 := {| m_params := m_params m; m_grad := g;
                 m_training := m_training m; m_device := m_device m |} in
    let found_inf := from_option (has_inf_or_nan RT) false g in
    if found_inf then mret (true, o, m1)
    else '(o', m') ← optimizer_step o m1; mret (false, o', m')
  else
    '(o', m') ← optimizer_step o m; mret (false, o', m').

(** Modelled from the spec: [scaler.update()] shrinks the scale after an
    overflow and grows it after [growth_interval] steps without one. *)
Definition scaler_update (found_inf : bool) (s : GradScaler) : Py GradScaler :=
  log CScalerUpdate;;
  if gs_enabled s then
    if found_inf then
      mret {| gs_enabled := true;
              gs_scale := (gs_scale s * gs_backoff_factor s)%Q;
              gs_growth_factor := gs_growth_factor s;
              gs_backoff_factor := gs_backoff_factor s;
              gs_growth_interval := gs_growth_interval s;
              gs_growth_tracker := 0 |}
    else if gs_growth_tracker s + 1 =? gs_growth_interval s then
      mret {| gs_enabled := true;
              gs_scale := (gs_scale s * gs_growth_factor s)%Q;
              gs_growth_factor := gs_growth_factor s;
              gs_backoff_factor := gs_backoff_factor s;
              gs_growth_interval := gs_growth_interval s;
              gs_growth_tracker := 0 |}
    else
      mret {| gs_enabled := true;
              gs_scale := gs_scale s;
              gs_growth_factor := gs_growth_factor s;
              gs_backoff_factor := gs_backoff_factor s;
              gs_growth_interval := gs_growth_interval s;
              gs_growth_tracker := gs_growth_tracker s + 1 |}
  else mret s.

(** Modelled from the spec: [scaler.state_dict()] and
    [scaler.load_state_dict(sd)]; a disabled scaler has an empty state and
    loads nothing, an enabled one refuses an empty state. *)
Definition scaler_state_dict (s : GradScaler) : option ScalerSD :=
  if gs_enabled s then
    Some {| sd_scale := gs_scale s; sd_growth_factor := gs_growth_factor s;
            sd_backoff_factor := gs_backoff_factor s;
            sd_growth_interval := gs_growth_interval s;
            sd_growth_tracker := gs_growth_tracker s |}
  else None.

Definition scaler_load_state_dict (s : GradScaler) (v : val) : Py GradScaler :=
  if gs_enabled s then
    match v with
    | VScalerState (Some sd) =>
        mret {| gs_enabled := true; gs_scale := sd_scale sd;
                gs_growth_factor := sd_growth_factor sd;
                gs_backoff_factor := sd_backoff_factor sd;
                gs_growth_interval := sd_growth_interval sd;
                gs_growth_tracker := sd_growth_tracker sd |}
    | _ => raise RuntimeError
    end
  else mret s.

(** [optimizer.zero_grad()] *)
Definition zero_grad (m : Model) : Py Model :=
  log CZeroGrad;;
  mret {| m_params := m_params m; m_grad := None;
          m_training := m_training m; m_device := m_device m |}.

(** [model.to(device)], [model.train()], [model.eval()] *)
Definition model_to (device : val) (m : Model) : Py Model :=
  log (CModelTo device);;
  mret {| m_params := m_params m; m_grad := m_grad m;
          m_training := m_training m; m_device := Some device |}.

Definition model_set_mode (training : bool) (m : Model) : Py Model :=
  log (if training then CModelTrain else CModelEval);;
  mret {| m_params := m_params m; m_grad := m_grad m;
          m_training := training; m_device := m_device m |}.

(** [torch.argmax(row)]: the first index holding the largest score. *)
Fixpoint argmax_from (best_i : Z) (best : Q) (i : Z) (row : list Q) : Z :=
  match row with
  | [] => best_i
  | x :: r =>
      if Qle_bool x best then argmax_from best_i best (i + 1) r
      else argmax_from i x (i + 1) r
  end.

Definition argmax (row : list Q) : Z :=
  match row with
  | [] => 0
  | x :: r => argmax_from 0 x 1 r
  end.

(** [torch.mean((pred_label == labels).float())] for predictions and
    labels of one length.  (On an empty batch the runtime yields NaN; a
    loader never produces one.) *)
Definition overall_accuracy (prediction : list (list Q)) (labels : list Z) : Q :=
  let hits := zip_with (fun row y => bool_decide (argmax row = y)) prediction labels in
  (inject_Z (Z.of_nat (length (filter (fun h => h = true) hits)))
   / inject_Z (Z.of_nat (length hits)))%Q.

(** *** train.py: the epoch runners *)

(** The body of the [for] loop of [train], lines 145-201, for one batch;
    timing and the progress bar, which only print, are left out.  Returns
    the batch's loss and accuracy with the updated objects. *)
Definition train_batch (cfg : loc) (device : val) (b : batch)
    (model : Model) (optimizer : Optimizer) (scaler : GradScaler)
  : Py (Q * Q * Model * Optimizer * GradScaler) :=
  let '(data, labels) := b in
  (* data, labels = data.to(device), labels.to(device) *)
  log (CTensorTo device);;
  log (CTensorTo device);;
  (* with torch.autocast(device_type=device, ..., enabled=cfg.get('use_amp', False)) *)
  use_amp ← dict_get cfg "use_amp" (VBool false);
  let ac := {| ac_device_type := device; ac_enabled := use_amp |} in
  log (CAutocastEnter ac);;
  log CForward;;
  let prediction := forward RT (m_training model) (Some ac) (m_params model) data in
  log CCrossEntropy;;
  let loss := cross_entropy RT (Some ac) prediction labels in
  log CAutocastExit;;
  (* scaler.scale(loss).backward() *)
  log CScaleLoss;;
  log CBackward;;
  let g := backward RT (m_training model) (Some ac) (scale_factor scaler)
             (m_params model) data labels in
  let model1 := {| m_params := m_params model;
                   m_grad := Some (accumulate RT (m_grad model) g);
                   m_training := m_training model;
                   m_device := m_device model |} in
  (* scaler.step(optimizer); scaler.update(); optimizer.zero_grad() *)
  '(found_inf, optimizer', model2) ← scaler_step scaler optimizer model1;
  scaler' ← scaler_update found_inf scaler;
  model3 ← zero_grad model2;
  (* statistics *)
  log CArgmax;;
  let oa := overall_accuracy prediction labels in
  mret (loss, oa, model3, optimizer', scaler').

Fixpoint train_loop (cfg : loc) (device : val) (dataLoader : list batch)
    (model : Model) (optimizer : Optimizer) (scaler : GradScaler)
    (loss_total oa_total : Q)
  : Py (Q * Q * Model * Optimizer * GradScaler) :=
  match dataLoader with
  | [] => mret (loss_total, oa_total, model, optimizer, scaler)
  | b :: rest =>
      '(loss, oa, model', optimizer', scaler') ←
        train_batch cfg device b model optimizer scaler;
      train_loop cfg device rest model' optimizer' scaler'
        (loss_total + loss)%Q (oa_total + oa)%Q
  end.

(** [train(cfg, dataLoader, model, optimizer, scaler)] *)
Definition train (cfg : loc) (dataLoader : list batch)
    (model : Model) (optimizer : Optimizer) (scaler : GradScaler)
  : Py (Q * Q * Model * Optimizer * GradScaler) :=
  device ← dict_getitem cfg "device";
  model ← model_to device model;
  model ← model_set_mode true model;
  '(loss_total, oa_total, model, optimizer, scaler) ←
    train_loop cfg device dataLoader model optimizer scaler 0 0;
  (* end of epoch; finalize *)
  loss_total ← truediv loss_total (Z.of_nat (length dataLoader));
  oa_total ← truediv oa_total (Z.of_nat (length dataLoader));
  mret (loss_total, oa_total, model, optimizer, scaler).

(** The body of the [for] loop of [validate], lines 247-287. *)
Definition validate_batch (cfg : loc) (device : val) (b : batch) (model : Model)
  : Py (Q * Q) :=
  let '(data, labels) := b in
  log (CTensorTo device);;
  log (CTensorTo device);;
  (* with torch.autocast(device_type='cuda', ..., enabled=cfg.get('use_amp', False)) *)
  use_amp ← dict_get cfg "use_amp" (VBool false);
  let ac := {| ac_device_type := VStr "cuda"; ac_enabled := use_amp |} in
  log (CAutocastEnter ac);;
  log CForward;;
  let prediction := forward RT (m_training model) (Some ac) (m_params model) data in
  log CAutocastExit;;
  (* the loss is computed after the autocast block *)
  log CCrossEntropy;;
  let loss := cross_entropy RT None prediction labels in
  log CArgmax;;
  let oa := overall_accuracy prediction labels in
  mret (loss, oa).

Fixpoint validate_loop (cfg : loc) (device : val) (dataLoader : list batch)
    (model : Model) (loss_total oa_total : Q) : Py (Q * Q) :=
  match dataLoader with
  | [] => mret (loss_total, oa_total)
  | b :: rest =>
      '(loss, oa) ← validate_batch cfg device b model;
      validate_loop cfg device rest model (loss_total + loss)%Q (oa_total + oa)%Q
  end.

(** [validate(cfg, dataLoader, model)]; the model object it leaves behind
    is returned with the pair of means. *)
Definition validate (cfg : loc) (dataLoader : list batch) (model : Model)
  : Py (Q * Q * Model) :=
  device ← dict_getitem cfg "device";
  model ← model_to device model;
  model ← model_set_mode false model;
  log CNoGradEnter;;
  '(loss_total, oa_total) ← validate_loop cfg device dataLoader model 0 0;
  log CNoGradExit;;
  loss_total ← truediv loss_total (Z.of_nat (length dataLoader));
  oa_total ← truediv oa_total (Z.of_nat (length dataLoader));
  mret (loss_total, oa_total, model).

(** *** train.py: data loaders and the checkpoint store *)

(** [create_dataloader(cfg, split)] *)
Definition create_dataloader (cfg : loc) (split : string) : Py (list batch) :=
  content ← dict_snapshot cfg;
  batch_size ← dict_getitem cfg "batch_size";
  num_workers ← dict_getitem cfg "num_workers";
  mret (make_loader RT content split batch_size num_workers).

(** [setup_optimizer(cfg, model)] *)
Definition setup_optimizer (cfg : loc) : Py Optimizer :=
  lr ← dict_getitem cfg "learning_rate";
  wd ← dict_getitem cfg "weight_decay";
  mret {| o_lr := lr; o_weight_decay := wd; o_state := new_optim_state RT |}.

(** The path [f'model_states/{epoch}.pt'] of a checkpoint. *)
Definition checkpoint_path (epoch : Z) : string :=
  "model_states/" ++ PyStr.str_of_int epoch ++ ".pt".

(** Whether a path matches the pattern ['model_states/*.pt']: a file
    directly under [model_states] whose name ends in [.pt] and does not
    start with a dot. *)
Definition matches_pattern (path : string) : bool :=
  let name := String.substring 13 (String.length path - 13) path in
  PyStr.startswith "model_states/" path
  && PyStr.endswith ".pt" name
  && negb (PyStr.startswith "." name)
  && negb (PyStr.contains_char "/" name).

(** [glob.glob('model_states/*.pt')] *)
Definition glob_model_states : Py (list string) :=
  gets (fun w => List.filter matches_pattern (map fst (map_to_list (fs w)))).

(** [[int(m.replace('model_states/','').replace('.pt','')) for m in model_states]] *)
Fixpoint model_epochs_of (model_states : list string) : Py (list Z) :=
  match model_states with
  | [] => mret []
  | m :: rest =>
      match PyStr.int_of_str (PyStr.replace ".pt" "" (PyStr.replace "model_states/" "" m)) with
      | None => raise ValueError
      | Some e => es ← model_epochs_of rest; mret (e :: es)
      end
  end.

(** [max(l)] *)
Definition py_max (l : list Z) : Py Z :=
  match l with
  | [] => raise ValueError
  | x :: r => mret (fold_left Z.max r x)
  end.

(** [torch.load(open(path, 'rb'), map_location='cpu')] *)
Definition torch_load (path : string) : Py dict :=
  log (CTorchLoad path);;
  f ← gets (fun w => fs w !! path);
  match f with
  | None => raise (FileNotFoundError path)
  | Some (FPickle d) => mret d
  | Some (FYaml _) => raise RuntimeError
  end.

(** [torch.save(obj, open(path, 'wb'))] of a dictionary object *)
Definition torch_save (obj : loc) (path : string) : Py unit :=
  log (CTorchSave path);;
  content ← dict_snapshot obj;
  modify (fun w => set_fs (<[path := FPickle content]> (fs w)) w).

(** [state[k]] on the dictionary [torch.load] returned *)
Definition state_getitem (state : dict) (k : string) : Py val :=
  match state !! k with
  | Some v => mret v
  | None => raise (KeyError k)
  end.

Definition model_load_state_dict (m : Model) (v : val) : Py Model :=
  match v with
  | VModelState p =>
      match load_params RT (m_params m) p with
      | Some p' => mret {| m_params := p'; m_grad := m_grad m;
                           m_training := m_training m; m_device := m_device m |}
      | None => raise RuntimeError
      end
  | _ => raise TypeError
  end.

Definition optim_load_state_dict (o : Optimizer) (v : val) : Py Optimizer :=
  match v with
  | VOptimState lr wd st => mret {| o_lr := lr; o_weight_decay := wd; o_state := st |}
  | _ => raise TypeError
  end.

(** [load_model_optim_scaler(cfg)] *)
Definition load_model_optim_scaler (cfg : loc)
  : Py (Model * Optimizer * GradScaler * Z) :=
  num_classes ← dict_getitem cfg "num_classes";
  let model_instance :=
    {| m_params := new_model RT num_classes; m_grad := None;
       m_training := true; m_device := None |} in
  (* load latest model state *)
  model_states ← glob_model_states;
  optim ← setup_optimizer cfg;
  use_amp ← dict_get cfg "use_amp" (VBool false);
  scaler ← GradScaler_init use_amp;
  if negb (length model_states =? 0)%nat then
    (* at least one save state found; get latest *)
    model_epochs ← model_epochs_of model_states;
    start_epoch ← py_max model_epochs;
    state ← torch_load (checkpoint_path start_epoch);
    sm ← state_getitem state "model";
    model_instance ← model_load_state_dict model_instance sm;
    so ← state_getitem state "optim";
    optim ← optim_load_state_dict optim so;
    ss ← state_getitem state "scaler";
    scaler ← scaler_load_state_dict scaler ss;
    mret (model_instance, optim, scaler, start_epoch)
  else
    (* no save state found; start anew *)
    mret (model_instance, optim, scaler, 0).

(** [save_model(cfg, epoch, model, optim, scaler, stats)]; files are
    named by their path, so [os.makedirs] has nothing to do. *)
Definition save_model (cfg : loc) (epoch : Z) (model : Model) (optim : Optimizer)
    (scaler : GradScaler) (stats : loc) : Py unit :=
  (* get model parameters and add to stats... *)
  dict_setitem stats "model" (VModelState (m_params model));;
  dict_setitem stats "optim"
    (VOptimState (o_lr optim) (o_weight_decay optim) (o_state optim));;
  dict_setitem stats "scaler" (VScalerState (scaler_state_dict scaler));;
  (* ...and save *)
  torch_save stats (checkpoint_path epoch);;
  (* also save config file if not present *)
  let cfpath := "model_states/config.yaml" in
  present ← gets (fun w => bool_decide (is_Some (fs w !! cfpath)));
  if negb present then
    content ← dict_snapshot cfg;
    modify (fun w => set_fs (<[cfpath := FYaml content]> (fs w)) w)
  else mret tt.

(** *** train.py: the orchestrator *)

(** The [while] loop of [main], lines 333-347.  [fuel] bounds the number
    of iterations of the model; the loop test itself needs none. *)
Fixpoint epoch_loop (fuel : nat) (cfg : loc) (dl_train dl_val : list batch)
    (numEpochs : val) (model : Model) (optim : Optimizer) (scaler : GradScaler)
    (current_epoch : Z) : Py (Model * Optimizer * GradScaler * Z) :=
  continue ← int_lt current_epoch numEpochs;
  if continue : bool then
    match fuel with
    | O => out_of_fuel
    | S fuel' =>
        let current_epoch := current_epoch + 1 in
        '(loss_train, oa_train, model, optim, scaler) ←
          train cfg dl_train model optim scaler;
        '(loss_val, oa_val, model) ← validate cfg dl_val model;
        (* combine stats and save *)
        stats ← new_dict (<["loss_train" := VFloat loss_train]>
                         (<["loss_val" := VFloat loss_val]>
                         (<["oa_train" := VFloat oa_train]>
                         (<["oa_val" := VFloat oa_val]> ∅))));
        save_model cfg current_epoch model optim scaler stats;;
        epoch_loop fuel' cfg dl_train dl_val numEpochs model optim scaler current_epoch
    end
  else mret (model, optim, scaler, current_epoch).

(** [yaml.safe_load(open(path, 'r'))]: a new dictionary object *)
Definition yaml_safe_load (path : string) : Py loc :=
  f ← gets (fun w => fs w !! path);
  match f with
  | None => raise (FileNotFoundError path)
  | Some (FYaml d) => new_dict d
  | Some (FPickle _) => raise ValueError
  end.

(** [main()], with the path [--config] gives; returns the configuration
    object and what the loop leaves behind.  The [print] calls are left
    out. *)
Definition main (fuel : nat) (config : string)
  : Py (loc * (Model * Optimizer * GradScaler * Z)) :=
  (* load config *)
  cfg ← yaml_safe_load config;
  (* init random number generator seed (set at the start) *)
  seed ← dict_get cfg "seed" VNone;
  init_seed seed;;
  (* check if GPU is available *)
  device ← dict_getitem cfg "device";
  cuda ← gets cuda_is_available;
  (if ne_str device "cpu" && negb cuda
   then dict_setitem cfg "device" (VStr "cpu")
   else mret tt);;
  (* initialize data loaders for training and validation set *)
  dl_train ← create_dataloader cfg "train";
  dl_val ← create_dataloader cfg "val";
  (* initialize model *)
  '(model, optim, scaler, current_epoch) ← load_model_optim_scaler cfg;
  numEpochs ← dict_getitem cfg "num_epochs";
  r ← epoch_loop fuel cfg dl_train dl_val numEpochs model optim scaler current_epoch;
  mret (cfg, r).

End Program.

Arguments m_params {RT} _.
Arguments m_grad {RT} _.
Arguments m_training {RT} _.
Arguments m_device {RT} _.
Arguments o_lr {RT} _.
Arguments o_weight_decay {RT} _.
Arguments o_state {RT} _.

(** ** A small runtime to run the script on

    One scalar parameter; a datum carries the class scores the network
    gives it and the gradient its loss induces ([None]: an infinite or NaN
    gradient, which also makes a parameter NaN when a step applies it).
    The loss counts the misclassified rows. *)

Module Toy.

Definition lift2 (f : Q -> Q -> Q) (x y : option Q) : option Q :=
  match x, y with
  | Some a, Some b => Some (f a b)
  | _, _ => None
  end.

Definition misses (prediction : list (list Q)) (labels : list Z) : Q :=
  inject_Z (Z.of_nat (length (filter (fun h => h = false)
    (zip_with (fun row y => bool_decide (argmax row = y)) prediction labels)))).

Definition rt : Runtime := {|
  Params := option Q;
  OptState := unit;
  Grads := option Q;
  Data := list (list Q) * option Q;
  new_model := fun _ => Some 0%Q;
  load_params := fun _ saved => Some saved;
  new_optim_state := tt;
  make_loader := fun _ split _ _ =>
    if String.eqb split "train"
    then [([[1; 0]; [0; 1]]%Q, Some (1 # 4)%Q, [0; 1]);
          ([[1; 0]; [1; 0]]%Q, Some (1 # 2)%Q, [0; 1])]
    else [([[0; 1]; [0; 1]]%Q, Some 0%Q, [1; 1])];
  forward := fun _ _ _ d => fst d;
  cross_entropy := fun _ prediction labels => misses prediction labels;
  backward := fun _ _ factor _ d _ => lift2 Qmult (Some factor) (snd d);
  accumulate := fun slot g =>
    match slot with None => g | Some old => lift2 Qplus old g end;
  unscale := fun k g => lift2 Qmult (Some k) g;
  has_inf_or_nan := fun g => match g with None => true | Some _ => false end;
  sgd_step := fun lr _ p st slot =>
    match lr, slot with
    | VFloat lr, Some g => (lift2 (fun p g => p - lr * g)%Q p g, st)
    | _, _ => (p, st)
    end
|}.

Definition cfg_content (device : string) (num_epochs : Z)
  : gmap string (value (Params rt) (OptState rt)) :=
  <["batch_size" := VInt 2]> (<["num_workers" := VInt 0]>
  (<["learning_rate" := VFloat (1 # 10)]> (<["weight_decay" := VFloat 0]>
  (<["num_classes" := VInt 2]> (<["num_epochs" := VInt num_epochs]>
  (<["device" := VStr device]> ∅)))))).

Definition world0 (files : gmap string (file (Params rt) (OptState rt))) (cuda : bool)
  : World (Params rt) (OptState rt) :=
  {| heap := ∅; fs := files; cuda_is_available := cuda;
     random_seed := None; torch_seed := None; torch_cuda_seed := None;
     cudnn_benchmark := false; cudnn_deterministic := false; calls := [] |}.

Definition model0 : Model rt := Build_Model rt (Some 0%Q) None true None.

Definition optim0 : Optimizer rt :=
  Build_Optimizer rt (VFloat (1 # 10)) (VFloat 0) tt.

(** The scaler of a run without [use_amp], and an enabled one. *)
Definition scaler_off : GradScaler :=
  {| gs_enabled := false; gs_scale := 65536; gs_growth_factor := 2;
     gs_backoff_factor := 1 # 2; gs_growth_interval := 2000;
     gs_growth_tracker := 0 |}.

Definition scaler_on : GradScaler :=
  {| gs_enabled := true; gs_scale := 65536; gs_growth_factor := 2;
     gs_backoff_factor := 1 # 2; gs_growth_interval := 2000;
     gs_growth_tracker := 0 |}.

(** The configuration object. *)
Definition cfg : loc := 1%positive.

(** A world in which the configuration has been loaded. *)
Definition world1 (content : gmap string (value (Params rt) (OptState rt)))
    (files : gmap string (file (Params rt) (OptState rt))) (cuda : bool)
  : World (Params rt) (OptState rt) :=
  {| heap := {[cfg := content]}; fs := files; cuda_is_available := cuda;
     random_seed := None; torch_seed := None; torch_cuda_seed := None;
     cudnn_benchmark := false; cudnn_deterministic := false; calls := [] |}.

(** Two samples, both classified rightly; two samples, one of them
    classified wrongly; a batch whose gradient is not finite. *)
Definition batch_right : Data rt * list Z :=
  ([[1; 0]; [0; 1]]%Q, Some (1 # 4)%Q, [0; 1]).

Definition batch_half : Data rt * list Z :=
  ([[1; 0]; [1; 0]]%Q, Some (1 # 2)%Q, [0; 1]).

Definition batch_inf : Data rt * list Z :=
  ([[1; 0]; [0; 1]]%Q, None, [0; 1]).

(** Four batches with accuracies 1, 1/2, 1/2 and 1. *)
Definition four_batches : list (Data rt * list Z) :=
  [batch_right; batch_half; batch_half; batch_right].

(** A checkpoint bundle, and a store holding the checkpoints 3, 7 and 5
    next to the configuration snapshot. *)
Definition bundle (p : Q) : gmap string (value (Params rt) (OptState rt)) :=
  <["model" := VModelState (Some p)]>
  (<["optim" := VOptimState (VFloat (1 # 10)) (VFloat 0) tt]>
  (<["scaler" := VScalerState None]>
  (<["loss_train" := VFloat 0]> ∅))).

Definition store_3_7_5 : gmap string (file (Params rt) (OptState rt)) :=
  <["model_states/3.pt" := FPickle (bundle 3)]>
  (<["model_states/7.pt" := FPickle (bundle 7)]>
  (<["model_states/5.pt" := FPickle (bundle 5)]>
  (<["model_states/config.yaml" := FYaml (cfg_content "cpu" 10)]> ∅))).

End Toy.

Open Scope list_scope.

(** ** Vocabulary of the properties *)

(** The calls that mark the three phases of an epoch: [model.train()],
    [model.eval()] and [torch.save]. *)
Definition epoch_mark {P O} (c : call P O) : bool :=
  match c with
  | CModelTrain | CModelEval | CTorchSave _ => true
  | _ => false
  end.

(** The calls of the gradient machinery, which only training makes. *)
Definition gradient_call {P O} (c : call P O) : bool :=
  match c with
  | CScaleLoss | CBackward | CScalerStep | COptimizerStep
  | CScalerUpdate | CZeroGrad => true
  | _ => false
  end.

(** The epoch numbers the loop goes through from [s] up to [n]. *)
Definition epoch_range (s n : Z) : list Z :=
  (fun i => s + 1 + Z.of_nat i) <$> seq 0 (Z.to_nat (n - s)).

(** The latest of a collection of checkpoint numbers, if there is any. *)
Definition latest_of (ids : list Z) : option Z :=
  match ids with
  | [] => None
  | x :: r => Some (fold_left Z.max r x)
  end.

(** The sum of a list of floats. *)
Definition Qsum (l : list Q) : Q := fold_right Qplus 0%Q l.

Section Vocabulary.

Context (RT : Runtime).

Abbreviation val := (value (Params RT) (OptState RT)).
Abbreviation dict := (gmap string (value (Params RT) (OptState RT))).
Abbreviation world := (World (Params RT) (OptState RT)).
Abbreviation Py := (M (World (Params RT) (OptState RT))).
Abbreviation callT := (call (Params RT) (OptState RT)).
Abbreviation batch := (Data RT * list Z)%type.

(** [m] returns normally, touches nothing but the call log, and the
    epoch-level calls it makes are [marks]. *)
Definition emits {A} (marks : list callT) (m : Py A) : Prop :=
  forall w, exists a cs,
    m w = (Ok a, set_calls RT (calls w ++ cs) w)
    /\ List.filter epoch_mark cs = marks.

(** [m] may raise, but touches nothing but the call log. *)
Definition only_logs {A} (m : Py A) : Prop :=
  forall w, exists cs, (m w).2 = set_calls RT (calls w ++ cs) w.

(** From [w] with some calls logged since, [m] returns [a] and logs the
    calls [cs]. *)
Definition runs {A} (w : world) (m : Py A) (a : A) (cs : list callT) : Prop :=
  forall cs0,
    m (set_calls RT (calls w ++ cs0) w)
    = (Ok a, set_calls RT (calls w ++ cs0 ++ cs) w).

(** [m] may raise and may touch anything but the dictionary heap. *)
Definition keeps_heap {A} (m : Py A) : Prop :=
  forall w, heap (m w).2 = heap w.

(** [m] may raise, but leaves the dictionary object [c] as it is. *)
Definition keeps_dict {A} (c : loc) (x : dict) (m : Py A) : Prop :=
  forall w, heap w !! c = Some x -> heap (m w).2 !! c = Some x.

(** The configuration after the device check of [main], lines 319-322. *)
Definition device_fallback (cuda : bool) (d : dict) : dict :=
  match d !! "device" with
  | Some device =>
      if ne_str RT device "cpu" && negb cuda then <["device" := VStr "cpu"]> d else d
  | None => d
  end.

(** A checkpoint file [load_model_optim_scaler] can resume from: a pickled
    bundle of a model state that fits the network for [num_classes], an
    optimizer state and a scaler state, the latter not empty when the
    scaler in use is enabled. *)
Definition loadable (num_classes : val) (enabled : bool)
    (f : option (file (Params RT) (OptState RT))) : Prop :=
  exists bundle p p' lr wd st sd,
    f = Some (FPickle bundle)
    /\ bundle !! "model" = Some (VModelState p)
    /\ load_params RT (new_model RT num_classes) p = Some p'
    /\ bundle !! "optim" = Some (VOptimState lr wd st)
    /\ bundle !! "scaler" = Some (VScalerState sd)
    /\ (enabled = true -> is_Some sd).

(** The gradient slots after the scaled backward pass of a batch. *)
Definition slot_gradient (device use_amp : val) (b : batch) (model : Model RT)
    (scaler : GradScaler) : Grads RT :=
  accumulate RT (m_grad model)
    (backward RT (m_training model)
       (Some {| ac_device_type := device; ac_enabled := use_amp |})
       (scale_factor scaler) (m_params model) b.1 b.2).

(** The gradient [scaler.step] inspects and hands to the optimizer: the
    slots, unscaled when the scaler is enabled. *)
Definition step_gradient (device use_amp : val) (b : batch) (model : Model RT)
    (scaler : GradScaler) : Grads RT :=
  if gs_enabled scaler
  then unscale RT (/ gs_scale scaler)%Q (slot_gradient device use_amp b model scaler)
  else slot_gradient device use_amp b model scaler.

(** The scaler after [update()]: back off on overflow, grow after
    [growth_interval] steps in a row without one. *)
Definition scaler_updated (found_inf : bool) (s : GradScaler) : GradScaler :=
  if gs_enabled s then
    if found_inf then
      {| gs_enabled := true;
         gs_scale := (gs_scale s * gs_backoff_factor s)%Q;
         gs_growth_factor := gs_growth_factor s;
         gs_backoff_factor := gs_backoff_factor s;
         gs_growth_interval := gs_growth_interval s;
         gs_growth_tracker := 0 |}
    else if gs_growth_tracker s + 1 =? gs_growth_interval s then
      {| gs_enabled := true;
         gs_scale := (gs_scale s * gs_growth_factor s)%Q;
         gs_growth_factor := gs_growth_factor s;
         gs_backoff_factor := gs_backoff_factor s;
         gs_growth_interval := gs_growth_interval s;
         gs_growth_tracker := 0 |}
    else
      {| gs_enabled := true;
         gs_scale := gs_scale s;
         gs_growth_factor := gs_growth_factor s;
         gs_backoff_factor := gs_backoff_factor s;
         gs_growth_interval := gs_growth_interval s;
         gs_growth_tracker := gs_growth_tracker s + 1 |}
  else s.

(** Whether the optimizer step of a batch is skipped: the scaler is
    enabled and finds an infinite or NaN gradient. *)
Definition step_skipped (device use_amp : val) (b : batch) (model : Model RT)
    (scaler : GradScaler) : bool :=
  gs_enabled scaler && has_inf_or_nan RT (step_gradient device use_amp b model scaler).

(** What one training batch computes: its loss and accuracy, and the
    model, the optimizer and the scaler it leaves. *)
Definition train_batch_result (device use_amp : val) (b : batch)
    (model : Model RT) (optimizer : Optimizer RT) (scaler : GradScaler)
  : Q * Q * Model RT * Optimizer RT * GradScaler :=
  let ac := {| ac_device_type := device; ac_enabled := use_amp |} in
  let prediction := forward RT (m_training model) (Some ac) (m_params model) b.1 in
  let skipped := step_skipped device use_amp b model scaler in
  let '(p, st) :=
    if skipped then (m_params model, o_state optimizer)
    else sgd_step RT (o_lr optimizer) (o_weight_decay optimizer) (m_params model)
           (o_state optimizer) (Some (step_gradient device use_amp b model scaler)) in
  (cross_entropy RT (Some ac) prediction b.2,
   overall_accuracy prediction b.2,
   {| m_params := p; m_grad := None; m_training := m_training model;
      m_device := m_device model |},
   {| o_lr := o_lr optimizer; o_weight_decay := o_weight_decay optimizer;
      o_state := st |},
   scaler_updated skipped scaler).

(** The runtime calls of one training batch, with or without the
    optimizer step, and of one validation batch. *)
Definition train_batch_calls (device use_amp : val) (stepped : bool) : list callT :=
  [CTensorTo device; CTensorTo device;
   CAutocastEnter {| ac_device_type := device; ac_enabled := use_amp |};
   CForward; CCrossEntropy; CAutocastExit;
   CScaleLoss; CBackward; CScalerStep]
  ++ (if stepped then [COptimizerStep] else [])
  ++ [CScalerUpdate; CZeroGrad; CArgmax].

Definition validate_batch_calls (device use_amp : val) : list callT :=
  [CTensorTo device; CTensorTo device;
   CAutocastEnter {| ac_device_type := VStr "cuda"; ac_enabled := use_amp |};
   CForward; CAutocastExit; CCrossEntropy; CArgmax].

(** The loss and the accuracy of one validation batch. *)
Definition validate_batch_values (use_amp : val) (model : Model RT) (b : batch)
  : Q * Q :=
  let prediction :=
    forward RT (m_training model)
      (Some {| ac_device_type := VStr "cuda"; ac_enabled := use_amp |})
      (m_params model) b.1 in
  (cross_entropy RT None prediction b.2, overall_accuracy prediction b.2).

(** The per-batch losses and accuracies of a training epoch, and the
    objects the epoch leaves. *)
Fixpoint train_values (device use_amp : val) (dl : list batch)
    (model : Model RT) (optimizer : Optimizer RT) (scaler : GradScaler)
  : list (Q * Q) :=
  match dl with
  | [] => []
  | b :: rest =>
      let '(loss, oa, model', optimizer', scaler') :=
        train_batch_result device use_amp b model optimizer scaler in
      (loss, oa) :: train_values device use_amp rest model' optimizer' scaler'
  end.

Fixpoint train_final (device use_amp : val) (dl : list batch)
    (model : Model RT) (optimizer : Optimizer RT) (scaler : GradScaler)
  : Model RT * Optimizer RT * GradScaler :=
  match dl with
  | [] => (model, optimizer, scaler)
  | b :: rest =>
      let '(loss, oa, model', optimizer', scaler') :=
        train_batch_result device use_amp b model optimizer scaler in
      train_final device use_amp rest model' optimizer' scaler'
  end.

(** A model object after [model.to(device)] and [model.train()] or
    [model.eval()]. *)
Definition model_in_mode (training : bool) (device : val) (model : Model RT)
  : Model RT :=
  {| m_params := m_params model; m_grad := m_grad model;
     m_training := training; m_device := Some device |}.

(** The epoch-level calls of the epoch numbered [e]. *)
Definition epoch_marks_of (e : Z) : list callT :=
  [CModelTrain; CModelEval; CTorchSave (checkpoint_path e)].

(** What [save_model] turns the caller's dictionary into. *)
Definition saved_stats (model : Model RT) (optim : Optimizer RT)
    (scaler : GradScaler) (stats : dict) : dict :=
  <["scaler" := VScalerState (scaler_state_dict scaler)]>
  (<["optim" := VOptimState (o_lr optim) (o_weight_decay optim) (o_state optim)]>
  (<["model" := VModelState (m_params model)]> stats)).

(** The dictionary display of [main], lines 341-346. *)
Definition epoch_stats (loss_train loss_val oa_train oa_val : Q) : dict :=
  <["loss_train" := VFloat loss_train]>
  (<["loss_val" := VFloat loss_val]>
  (<["oa_train" := VFloat oa_train]>
  (<["oa_val" := VFloat oa_val]> ∅))).

(** One epoch as the design states it: a training epoch, a validation
    epoch, then a checkpoint numbered [e]. *)
Definition one_epoch (cfg : loc) (dl_train dl_val : list batch) (e : Z)
    (model : Model RT) (optim : Optimizer RT) (scaler : GradScaler)
  : Py (Model RT * Optimizer RT * GradScaler) :=
  '(loss_train, oa_train, model, optim, scaler) ←
    train RT cfg dl_train model optim scaler;
  '(loss_val, oa_val, model) ← validate RT cfg dl_val model;
  stats ← new_dict RT (epoch_stats loss_train loss_val oa_train oa_val);
  save_model RT cfg e model optim scaler stats;;
  mret (model, optim, scaler).

(** The epochs of a list, one after the other. *)
Fixpoint run_epochs (cfg : loc) (dl_train dl_val : list batch) (epochs : list Z)
    (model : Model RT) (optim : Optimizer RT) (scaler : GradScaler)
  : Py (Model RT * Optimizer RT * GradScaler) :=
  match epochs with
  | [] => mret (model, optim, scaler)
  | e :: rest =>
      '(model, optim, scaler) ← one_epoch cfg dl_train dl_val e model optim scaler;
      run_epochs cfg dl_train dl_val rest model optim scaler
  end.

(** [cfg.get('use_amp', False)] in a given world. *)
Definition use_amp_of (cfg : loc) (w : world) : val :=
  default (VBool false) (heap w !! cfg ≫= (.!! "use_amp")).

End Vocabulary.

Arguments emits {RT A} marks m.
Arguments only_logs {RT A} m.
Arguments keeps_heap {RT A} m.
Arguments runs {RT A} w m a cs.
Arguments loadable {RT} num_classes enabled f.
Arguments step_skipped {RT} device use_amp b model scaler.
Arguments train_batch_result {RT} device use_amp b model optimizer scaler.
Arguments train_batch_calls {RT} device use_amp stepped.
Arguments validate_batch_calls {RT} device use_amp.
Arguments validate_batch_values {RT} use_amp model b.
Arguments train_values {RT} device use_amp dl model optimizer scaler.
Arguments train_final {RT} device use_amp dl model optimizer scaler.
Arguments model_in_mode {RT} training device model.
Arguments slot_gradient {RT} device use_amp b model scaler.
Arguments step_gradient {RT} device use_amp b model scaler.
Arguments keeps_dict {RT A} c x m.
Arguments device_fallback {RT} cuda d.
Arguments epoch_marks_of {RT} e.
Arguments saved_stats {RT} model optim scaler stats.
Arguments epoch_stats {RT} loss_train loss_val oa_train oa_val.
Arguments one_epoch {RT} cfg dl_train dl_val e model optim scaler.
Arguments run_epochs {RT} cfg dl_train dl_val epochs model optim scaler.
Arguments use_amp_of {RT} cfg w.

(** ** Vocabulary of the store and of the objects of a run *)

(** The path of the configuration snapshot [save_model] writes. *)
Definition config_snapshot_path : string := "model_states/config.yaml".

(** The keys [train.py] itself reads with [cfg[...]] before [main] looks
    at the checkpoint store, in the order it reads them: line 319, lines
    35 and 37 (through [create_dataloader]), line 47 and lines 106-107
    (through [setup_optimizer]). *)
Definition required_keys : list string :=
  ["device"; "batch_size"; "num_workers"; "num_classes"; "learning_rate";
   "weight_decay"].



(** Recognisers of the runtime calls the properties count. *)
Definition is_forward {P O} (c : call P O) : bool :=
  match c with CForward => true | _ => false end.

Definition is_backward {P O} (c : call P O) : bool :=
  match c with CBackward => true | _ => false end.

Definition is_scaler_step {P O} (c : call P O) : bool :=
  match c with CScalerStep => true | _ => false end.

Definition is_optimizer_step {P O} (c : call P O) : bool :=
  match c with COptimizerStep => true | _ => false end.

Definition is_zero_grad {P O} (c : call P O) : bool :=
  match c with CZeroGrad => true | _ => false end.

(** How many calls of a log a recogniser accepts. *)
Definition count_calls {P O} (p : call P O -> bool) (cs : list (call P O)) : nat :=
  length (List.filter p cs).

Section Vocabulary2.

Context (RT : Runtime).

Abbreviation val := (value (Params RT) (OptState RT)).
Abbreviation dict := (gmap string (value (Params RT) (OptState RT))).
Abbreviation world := (World (Params RT) (OptState RT)).
Abbreviation Py := (M (World (Params RT) (OptState RT))).
Abbreviation callT := (call (Params RT) (OptState RT)).
Abbreviation batch := (Data RT * list Z)%type.
Abbreviation files := (gmap string (file (Params RT) (OptState RT))).

(** The paths [glob.glob('model_states/*.pt')] finds in a store. *)
Definition glob_of (f : files) : list string :=
  List.filter matches_pattern (map fst (map_to_list f)).

(** The first of the required keys a configuration lacks. *)
Definition first_missing (d : dict) : option string :=
  List.find (fun k => bool_decide (d !! k = None)) required_keys.

(** The objects [load_model_optim_scaler] builds before it looks at the
    store: lines 47, 53 and 58. *)
Definition fresh_model (num_classes : val) : Model RT :=
  {| m_params := new_model RT num_classes; m_grad := None;
     m_training := true; m_device := None |}.

Definition fresh_optimizer (lr wd : val) : Optimizer RT :=
  {| o_lr := lr; o_weight_decay := wd; o_state := new_optim_state RT |}.

Definition fresh_scaler (enabled : bool) : GradScaler :=
  {| gs_enabled := enabled; gs_scale := 65536; gs_growth_factor := 2;
     gs_backoff_factor := 1 # 2; gs_growth_interval := 2000;
     gs_growth_tracker := 0 |}.

(** The scaler after [load_state_dict] of a saved state. *)
Definition restored_scaler (enabled : bool) (sd : option ScalerSD) : GradScaler :=
  match enabled, sd with
  | true, Some sd =>
      {| gs_enabled := true; gs_scale := sd_scale sd;
         gs_growth_factor := sd_growth_factor sd;
         gs_backoff_factor := sd_backoff_factor sd;
         gs_growth_interval := sd_growth_interval sd;
         gs_growth_tracker := sd_growth_tracker sd |}
  | _, _ => fresh_scaler enabled
  end.

(** Whether mixed precision is in force for a configuration object: the
    argument of the [GradScaler] constructor at line 58, on a machine with
    CUDA. *)
Definition amp_enabled (cfg : loc) (w : world) : bool :=
  truthy RT (use_amp_of cfg w) && cuda_is_available w.

(** The seeds last given to the random number generators, and the cuDNN
    switches. *)
Definition seed_state (w : world)
  : option val * option val * option val * bool * bool :=
  (random_seed w, torch_seed w, torch_cuda_seed w,
   cudnn_benchmark w, cudnn_deterministic w).

(** [m] may raise, but neither seeds a generator nor sets a cuDNN switch,
    and the CUDA device stays as it is. *)
Definition keeps_seeds {A} (m : Py A) : Prop :=
  forall w, seed_state (m w).2 = seed_state w
            /\ cuda_is_available (m w).2 = cuda_is_available w.

(** The runtime calls of the batches of a training epoch, and for each
    batch whether its optimizer step is skipped. *)
Fixpoint train_loop_calls (device use_amp : val) (dl : list batch)
    (model : Model RT) (optimizer : Optimizer RT) (scaler : GradScaler)
  : list callT :=
  match dl with
  | [] => []
  | b :: rest =>
      let '(loss, oa, model', optimizer', scaler') :=
        train_batch_result device use_amp b model optimizer scaler in
      train_batch_calls device use_amp
        (negb (step_skipped device use_amp b model scaler))
      ++ train_loop_calls device use_amp rest model' optimizer' scaler'
  end.

Fixpoint train_skips (device use_amp : val) (dl : list batch)
    (model : Model RT) (optimizer : Optimizer RT) (scaler : GradScaler)
  : list bool :=
  match dl with
  | [] => []
  | b :: rest =>
      let '(loss, oa, model', optimizer', scaler') :=
        train_batch_result device use_amp b model optimizer scaler in
      step_skipped device use_amp b model scaler
      :: train_skips device use_amp rest model' optimizer' scaler'
  end.

(** The process [w'] has what the process [w] had, but for the call log,
    the dictionaries, the checkpoints of the epochs after [s] and a
    configuration snapshot that was missing. *)
Definition keeps_store (s : Z) (w w' : world) : Prop :=
  (forall p, p <> config_snapshot_path ->
             (forall e, s < e -> p <> checkpoint_path e) ->
             fs w' !! p = fs w !! p)
  /\ (forall f, fs w !! config_snapshot_path = Some f ->
                fs w' !! config_snapshot_path = Some f)
  /\ seed_state w' = seed_state w
  /\ cuda_is_available w' = cuda_is_available w.

(** What [main] does once the configuration is in place and the loaders
    are built: lines 329-347. *)
Definition resume_and_loop (fuel : nat) (cfg : loc) (dl_train dl_val : list batch)
  : Py (loc * (Model RT * Optimizer RT * GradScaler * Z)) :=
  '(model, optim, scaler, current_epoch) ← load_model_optim_scaler RT cfg;
  numEpochs ← dict_getitem RT cfg "num_epochs";
  r ← epoch_loop RT fuel cfg dl_train dl_val numEpochs model optim scaler current_epoch;
  mret (cfg, r).

End Vocabulary2.

Arguments glob_of {RT} f.
Arguments first_missing {RT} d.
Arguments fresh_model {RT} num_classes.
Arguments fresh_optimizer {RT} lr wd.
Arguments amp_enabled {RT} cfg w.
Arguments seed_state {RT} w.
Arguments keeps_seeds {RT A} m.
Arguments train_loop_calls {RT} device use_amp dl model optimizer scaler.
Arguments train_skips {RT} device use_amp dl model optimizer scaler.
Arguments keeps_store {RT} s w w'.
Arguments resume_and_loop {RT} fuel cfg dl_train dl_val.

(** * Properties *)

(** ** Python strings *)

Example replace_prefix_ex :
  PyStr.replace "model_states/" "" "model_states/12.pt" = "12.pt".
Proof. reflexivity. Qed.

Example replace_suffix_ex : PyStr.replace ".pt" "" "12.pt" = "12".
Proof. reflexivity. Qed.

Example replace_all_ex : PyStr.replace "ab" "x" "abcabab" = "xcxx".
Proof. reflexivity. Qed.

Example int_of_str_ex : PyStr.int_of_str "007" = Some 7.
Proof. reflexivity. Qed.

Example int_of_str_bad : PyStr.int_of_str "best" = None.
Proof. reflexivity. Qed.


(** ** Checkpoint names *)

Section PyStrFacts.

Import PyStr.
Local Open Scope string_scope.

Lemma append_empty_r (s : string) : (s ++ "")%string = s.
Proof.
  induction s as [|c s IH]; [done|].
  change (String c (s ++ "")%string = String c s). by rewrite IH.
Qed.

Lemma all_chars_impl (P Q : ascii -> bool) s :
  (forall c, P c = true -> Q c = true) ->
  all_chars P s = true -> all_chars Q s = true.
Proof.
  intros HPQ. induction s; simpl; [done|].
  intros [? ?]%andb_true_iff. apply andb_true_iff; auto.
Qed.

Lemma uint_numeric d : all_chars numeric (NilEmpty.string_of_uint d) = true.
Proof. induction d; simpl; auto. Qed.

Lemma str_of_int_numeric n : all_chars numeric (str_of_int n) = true.
Proof.
  unfold str_of_int.
  destruct (Z.to_int n) as [d|d]; destruct d; simpl; auto using uint_numeric.
Qed.

Lemma numeric_differs c c0 :
  numeric c0 = false -> numeric c = true -> negb (Ascii.eqb c c0) = true.
Proof.
  intros H0 H. destruct (Ascii.eqb_spec c c0) as [->|]; [congruence|done].
Qed.

(** [int] reads back what the f-string printed. *)
Lemma int_of_str_of_int n : int_of_str (str_of_int n) = Some n.
Proof.
  unfold int_of_str, str_of_int.
  rewrite NilZero.isi.
  - simpl. by rewrite DecimalZ.of_to.
  - destruct n; simpl; try discriminate;
      intros [= H]; by apply Unsigned.to_uint_nonnil in H.
  - destruct n; simpl; try discriminate;
      intros [= H]; by apply Unsigned.to_uint_nonnil in H.
Qed.

(** No occurrence of [old] starts inside a run of characters that differ
    from its first character. *)
Lemma replace_from_skip_chars c0 old' new s t :
  all_chars (fun c => negb (Ascii.eqb c c0)) s = true ->
  replace_from (String c0 old') new 0 (s ++ t)
  = s ++ replace_from (String c0 old') new 0 t.
Proof.
  induction s as [|c s IH]; simpl; [done|].
  intros [Hc Hs]%andb_true_iff.
  rewrite Ascii.eqb_sym. destruct (Ascii.eqb c c0); [done|].
  simpl. by rewrite IH.
Qed.

Lemma epoch_of_checkpoint_path e :
  int_of_str (replace ".pt" "" (replace "model_states/" "" (checkpoint_path e)))
  = Some e.
Proof.
  unfold checkpoint_path, replace.
  assert (Hn := str_of_int_numeric e).
  change (replace_from "model_states/" "" 0 ("model_states/" ++ str_of_int e ++ ".pt"))
    with (replace_from "model_states/" "" 0 (str_of_int e ++ ".pt")).
  rewrite replace_from_skip_chars.
  2:{ eapply all_chars_impl; [|exact Hn]. intros c. by apply numeric_differs. }
  change (replace_from "model_states/" "" 0 ".pt") with ".pt".
  rewrite replace_from_skip_chars.
  2:{ eapply all_chars_impl; [|exact Hn]. intros c. by apply numeric_differs. }
  change (replace_from ".pt" "" 0 ".pt") with "".
  rewrite append_empty_r. apply int_of_str_of_int.
Qed.

Lemma substring_all (s : string) : String.substring 0 (String.length s) s = s.
Proof. induction s as [|c s IH]; simpl; [done|by rewrite IH]. Qed.

Lemma endswith_from_append suffix s : endswith_from suffix (s ++ suffix) = true.
Proof.
  induction s as [|c s IH].
  - change (endswith_from suffix suffix = true).
    destruct suffix; simpl; [done|]. by rewrite Ascii.eqb_refl, String.eqb_refl.
  - change (String.eqb suffix (String c (s ++ suffix))
            || endswith_from suffix (s ++ suffix) = true).
    rewrite IH. apply orb_true_r.
Qed.

Lemma contains_char_append c s t :
  all_chars (fun d => negb (Ascii.eqb c d)) s = true ->
  contains_char c (s ++ t) = contains_char c t.
Proof.
  induction s as [|d s IH]; [done|].
  change (negb (Ascii.eqb c d) && all_chars (fun d => negb (Ascii.eqb c d)) s = true
          -> Ascii.eqb c d || contains_char c (s ++ t) = contains_char c t).
  intros [Hd Hs]%andb_true_iff.
  apply negb_true_iff in Hd. rewrite Hd. simpl. by apply IH.
Qed.

Lemma endswith_from_append_pt s : endswith ".pt" (s ++ ".pt") = true.
Proof. apply endswith_from_append. Qed.

(** A printed integer has a first character, a digit or the minus sign. *)
Lemma str_of_int_head n :
  exists c s, str_of_int n = String c s /\ numeric c = true.
Proof.
  assert (Hn := str_of_int_numeric n).
  destruct (str_of_int n) as [|c s] eqn:E.
  - exfalso. unfold str_of_int in E.
    destruct (Z.to_int n) as [d|d] eqn:Ed; simpl in E; [|done].
    destruct n as [|p|p]; simpl in Ed; try done; injection Ed as <-.
    + done.
    + by destruct (Pos.to_uint p).
  - simpl in Hn. apply andb_true_iff in Hn as [Hc _]. eauto.
Qed.

(** Every checkpoint file is found by the glob pattern of the resume
    logic; the configuration snapshot next to them is not. *)
Lemma checkpoint_path_matches e : matches_pattern (checkpoint_path e) = true.
Proof.
  unfold matches_pattern, checkpoint_path.
  assert (Hn := str_of_int_numeric e).
  destruct (str_of_int_head e) as (c & s & E & Hc).
  set (name := str_of_int e ++ ".pt").
  change (String.substring 13 (String.length ("model_states/" ++ name) - 13)
            ("model_states/" ++ name))
    with (String.substring 0 (String.length name - 0) name).
  rewrite Nat.sub_0_r, substring_all.
  change (startswith "model_states/" ("model_states/" ++ name)) with true.
  subst name. rewrite endswith_from_append_pt.
  rewrite contains_char_append.
  2:{ eapply all_chars_impl; [|exact Hn]. intros d Hd.
      rewrite Ascii.eqb_sym. by apply numeric_differs. }
  rewrite E.
  change (startswith "." (String c s ++ ".pt")) with (Ascii.eqb "." c && true).
  replace (Ascii.eqb "." c) with false; [done|].
  symmetry. apply negb_true_iff. rewrite Ascii.eqb_sym. by apply numeric_differs.
Qed.


Example config_snapshot_not_globbed :
  matches_pattern "model_states/config.yaml" = false.
Proof. reflexivity. Qed.

End PyStrFacts.

(** ** Reasoning about runs of the script *)

Section Runs.

Context (RT : Runtime).

Abbreviation val := (value (Params RT) (OptState RT)).
Abbreviation dict := (gmap string (value (Params RT) (OptState RT))).
Abbreviation world := (World (Params RT) (OptState RT)).
Abbreviation Py := (M (World (Params RT) (OptState RT))).
Abbreviation callT := (call (Params RT) (OptState RT)).
Abbreviation batch := (Data RT * list Z)%type.
Abbreviation emits := (emits (RT:=RT)).
Abbreviation only_logs := (only_logs (RT:=RT)).
Abbreviation keeps_heap := (keeps_heap (RT:=RT)).
Abbreviation keeps_dict := (keeps_dict (RT:=RT)).

Lemma bind_eq {S A B} (m : M S A) (k : A -> M S B) (w : S) :
  (m ≫= k) w =
  match m w with
  | (Ok a, w') => k a w'
  | (Raise e, w') => (Raise e, w')
  | (OutOfFuel, w') => (OutOfFuel, w')
  end.
Proof. reflexivity. Qed.

Lemma ret_bind {S A B} (a : A) (k : A -> M S B) (w : S) : (mret a ≫= k) w = k a w.
Proof. reflexivity. Qed.

Lemma set_calls_nil (w : world) : set_calls RT (calls w ++ []) w = w.
Proof. destruct w; unfold set_calls; simpl. by rewrite app_nil_r. Qed.

Lemma set_calls_app (w : world) c1 c2 :
  set_calls RT (calls (set_calls RT (calls w ++ c1) w) ++ c2)
    (set_calls RT (calls w ++ c1) w)
  = set_calls RT (calls w ++ c1 ++ c2) w.
Proof. unfold set_calls; simpl. by rewrite app_assoc. Qed.

Lemma emits_only_logs {A} marks (m : Py A) : emits marks m -> only_logs m.
Proof. intros H w. destruct (H w) as (a & cs & E & _). exists cs. by rewrite E. Qed.

Lemma emits_ret {A} (a : A) : emits [] (mret a).
Proof. intros w. exists a, []. by rewrite set_calls_nil. Qed.

Lemma emits_bind {A B} l1 l2 (m : Py A) (k : A -> Py B) :
  emits l1 m -> (forall a, emits l2 (k a)) -> emits (l1 ++ l2) (m ≫= k).
Proof.
  intros Hm Hk w. destruct (Hm w) as (a & c1 & E1 & F1).
  destruct (Hk a (set_calls RT (calls w ++ c1) w)) as (b & c2 & E2 & F2).
  exists b, (c1 ++ c2). rewrite bind_eq, E1, E2, set_calls_app.
  split; [done|]. by rewrite List.filter_app, F1, F2.
Qed.

Lemma emits_bind_nil {A B} l (m : Py A) (k : A -> Py B) :
  emits [] m -> (forall a, emits l (k a)) -> emits l (m ≫= k).
Proof. intros. change l with ([] ++ l). by apply emits_bind. Qed.

Lemma emits_bind_mark {A B} c l (m : Py A) (k : A -> Py B) :
  emits [c] m -> (forall a, emits l (k a)) -> emits (c :: l) (m ≫= k).
Proof. intros. change (c :: l) with ([c] ++ l). by apply emits_bind. Qed.

Lemma emits_log c : emits (if epoch_mark c then [c] else []) (log RT c).
Proof.
  intros w. exists tt, [c]. split; [done|]. simpl. by destruct (epoch_mark c).
Qed.

Lemma emits_log_quiet c : epoch_mark c = false -> emits [] (log RT c).
Proof. intros H. generalize (emits_log c). by rewrite H. Qed.

Lemma emits_dict_get d k dflt : emits [] (dict_get RT d k dflt).
Proof.
  intros w. unfold dict_get.
  destruct (heap w !! d ≫= _) as [v|]; eexists _, []; by rewrite set_calls_nil.
Qed.

Lemma dict_getitem_run d k (w : world) (c : dict) v :
  heap w !! d = Some c -> c !! k = Some v -> dict_getitem RT d k w = (Ok v, w).
Proof. intros Hd Hk. unfold dict_getitem. rewrite Hd. simpl. by rewrite Hk. Qed.

Lemma dict_get_run d k dflt (w : world) :
  dict_get RT d k dflt w = (Ok (default dflt (heap w !! d ≫= (.!! k))), w).
Proof. unfold dict_get. by destruct (heap w !! d ≫= _). Qed.

Lemma emits_truediv x n : n <> 0 -> emits [] (truediv x n).
Proof.
  intros Hn. unfold truediv. destruct (Z.eqb_spec n 0); [done|]. apply emits_ret.
Qed.

Lemma only_logs_ret {A} (a : A) : only_logs (mret a : Py A).
Proof. eapply emits_only_logs, emits_ret. Qed.

Lemma only_logs_raise {A} e : only_logs (raise e : Py A).
Proof. intros w. exists []. by rewrite set_calls_nil. Qed.

Lemma only_logs_bind {A B} (m : Py A) (k : A -> Py B) :
  only_logs m -> (forall a, only_logs (k a)) -> only_logs (m ≫= k).
Proof.
  intros Hm Hk w. destruct (Hm w) as (c1 & E1). rewrite bind_eq.
  destruct (m w) as [[a|e|] w1]; simpl in E1; subst w1; simpl; eauto.
  destruct (Hk a (set_calls RT (calls w ++ c1) w)) as (c2 & E2).
  exists (c1 ++ c2). by rewrite E2, set_calls_app.
Qed.

Lemma only_logs_dict_getitem d k : only_logs (dict_getitem RT d k).
Proof.
  intros w. unfold dict_getitem.
  destruct (heap w !! d ≫= _) as [v|]; exists []; by rewrite set_calls_nil.
Qed.

Lemma only_logs_truediv x n : only_logs (truediv x n : Py Q).
Proof.
  unfold truediv. destruct (n =? 0); [apply only_logs_raise | apply only_logs_ret].
Qed.

(** What an only-logging run leaves alone. *)
Lemma only_logs_heap {A} (m : Py A) w : only_logs m -> heap (m w).2 = heap w.
Proof. intros H. destruct (H w) as (cs & ->). done. Qed.

Lemma only_logs_fs {A} (m : Py A) w : only_logs m -> fs (m w).2 = fs w.
Proof. intros H. destruct (H w) as (cs & ->). done. Qed.

Ltac emits_leaf :=
  first
    [ apply emits_ret
    | apply emits_dict_get
    | apply emits_log_quiet; reflexivity ].

Ltac emits_next := apply emits_bind_nil; [emits_leaf | intros].

Ltac emits_step := first [ emits_leaf | emits_next ].

(** *** The runtime objects *)

Lemma emits_optimizer_step o m : emits [] (optimizer_step RT o m).
Proof.
  unfold optimizer_step. apply emits_bind_nil; [emits_step|intros _].
  destruct (sgd_step _ _ _ _ _ _). apply emits_ret.
Qed.

Lemma emits_scaler_step s o m : emits [] (scaler_step RT s o m).
Proof.
  unfold scaler_step. apply emits_bind_nil; [emits_step|intros _].
  destruct (gs_enabled s); simpl.
  - destruct (from_option _ _ _); [apply emits_ret|].
    apply emits_bind_nil; [apply emits_optimizer_step|intros [? ?]; apply emits_ret].
  - apply emits_bind_nil; [apply emits_optimizer_step|intros [? ?]; apply emits_ret].
Qed.

Lemma emits_scaler_update f s : emits [] (scaler_update RT f s).
Proof.
  unfold scaler_update. apply emits_bind_nil; [emits_step|intros _].
  destruct (gs_enabled s), f; try destruct (_ =? _); apply emits_ret.
Qed.

Lemma emits_zero_grad m : emits [] (zero_grad RT m).
Proof. unfold zero_grad. repeat emits_step. Qed.

Lemma emits_model_to d m : emits [] (model_to RT d m).
Proof. unfold model_to. repeat emits_step. Qed.

Lemma emits_model_train m : emits [CModelTrain] (model_set_mode RT true m).
Proof.
  unfold model_set_mode. apply emits_bind_mark; [apply (emits_log CModelTrain)|].
  intros _. apply emits_ret.
Qed.

Lemma emits_model_eval m : emits [CModelEval] (model_set_mode RT false m).
Proof.
  unfold model_set_mode. apply emits_bind_mark; [apply (emits_log CModelEval)|].
  intros _. apply emits_ret.
Qed.

(** *** The epoch runners never fail inside their loops *)

Lemma emits_train_batch cfg device b model optimizer scaler :
  emits [] (train_batch RT cfg device b model optimizer scaler).
Proof.
  destruct b as [data labels]. unfold train_batch.
  do 9 emits_next.
  apply emits_bind_nil; [apply emits_scaler_step|intros [[f o'] m2]].
  apply emits_bind_nil; [apply emits_scaler_update|intros s'].
  apply emits_bind_nil; [apply emits_zero_grad|intros m3].
  repeat emits_step.
Qed.

Lemma emits_train_loop cfg device dl :
  forall model optimizer scaler l0 a0,
    emits [] (train_loop RT cfg device dl model optimizer scaler l0 a0).
Proof.
  induction dl as [|b rest IH]; intros; simpl; [apply emits_ret|].
  apply emits_bind_nil; [apply emits_train_batch|].
  intros [[[[l a] m'] o'] s']. apply IH.
Qed.

Lemma emits_validate_batch cfg device b model :
  emits [] (validate_batch RT cfg device b model).
Proof. destruct b as [data labels]. unfold validate_batch. repeat emits_step. Qed.

Lemma emits_validate_loop cfg device dl model :
  forall l0 a0, emits [] (validate_loop RT cfg device dl model l0 a0).
Proof.
  induction dl as [|b rest IH]; intros; simpl; [apply emits_ret|].
  apply emits_bind_nil; [apply emits_validate_batch|].
  intros [l a]. apply IH.
Qed.

Lemma only_logs_train cfg dl model optimizer scaler :
  only_logs (train RT cfg dl model optimizer scaler).
Proof.
  unfold train.
  apply only_logs_bind; [apply only_logs_dict_getitem|intros device].
  apply only_logs_bind; [eapply emits_only_logs, emits_model_to|intros m1].
  apply only_logs_bind; [eapply emits_only_logs, emits_model_train|intros m2].
  apply only_logs_bind; [eapply emits_only_logs, emits_train_loop|].
  intros [[[[l a] m'] o'] s'].
  apply only_logs_bind; [apply only_logs_truediv|intros l'].
  apply only_logs_bind; [apply only_logs_truediv|intros a'].
  apply only_logs_ret.
Qed.

Lemma only_logs_validate cfg dl model : only_logs (validate RT cfg dl model).
Proof.
  unfold validate.
  apply only_logs_bind; [apply only_logs_dict_getitem|intros device].
  apply only_logs_bind; [eapply emits_only_logs, emits_model_to|intros m1].
  apply only_logs_bind; [eapply emits_only_logs, emits_model_eval|intros m2].
  apply only_logs_bind; [eapply emits_only_logs, emits_log_quiet; reflexivity|intros _].
  apply only_logs_bind; [eapply emits_only_logs, emits_validate_loop|].
  intros [l a].
  apply only_logs_bind; [eapply emits_only_logs, emits_log_quiet; reflexivity|intros _].
  apply only_logs_bind; [apply only_logs_truediv|intros l'].
  apply only_logs_bind; [apply only_logs_truediv|intros a'].
  apply only_logs_ret.
Qed.

(** With a device configured and at least one batch, a training epoch
    returns, and [model.train()] is its one epoch-level call. *)
Lemma train_runs cfg dl model optimizer scaler (w : world) d dev :
  heap w !! cfg = Some d -> d !! "device" = Some dev -> dl <> [] ->
  exists r cs,
    train RT cfg dl model optimizer scaler w
    = (Ok r, set_calls RT (calls w ++ cs) w)
    /\ List.filter epoch_mark cs = [CModelTrain].
Proof.
  intros Hc Hd Hdl. unfold train. rewrite bind_eq. unfold dict_getitem.
  rewrite Hc. simpl. rewrite Hd.
  assert (Hlen : Z.of_nat (length dl) <> 0) by (destruct dl; simpl in *; [done|lia]).
  clear Hc. revert w. apply (emits_bind_nil [CModelTrain]); [apply emits_model_to|intros m1].
  apply emits_bind_mark; [apply emits_model_train|intros m2].
  apply emits_bind_nil; [apply emits_train_loop|intros [[[[l a] m'] o'] s']].
  apply emits_bind_nil; [by apply emits_truediv|intros l'].
  apply emits_bind_nil; [by apply emits_truediv|intros a'].
  apply emits_ret.
Qed.

Lemma validate_runs cfg dl model (w : world) d dev :
  heap w !! cfg = Some d -> d !! "device" = Some dev -> dl <> [] ->
  exists r cs,
    validate RT cfg dl model w = (Ok r, set_calls RT (calls w ++ cs) w)
    /\ List.filter epoch_mark cs = [CModelEval].
Proof.
  intros Hc Hd Hdl. unfold validate. rewrite bind_eq. unfold dict_getitem.
  rewrite Hc. simpl. rewrite Hd.
  assert (Hlen : Z.of_nat (length dl) <> 0) by (destruct dl; simpl in *; [done|lia]).
  clear Hc. revert w. apply (emits_bind_nil [CModelEval]); [apply emits_model_to|intros m1].
  apply emits_bind_mark; [apply emits_model_eval|intros m2].
  apply emits_bind_nil; [emits_step|intros _].
  apply emits_bind_nil; [apply emits_validate_loop|intros [l a]].
  apply emits_bind_nil; [emits_step|intros _].
  apply emits_bind_nil; [by apply emits_truediv|intros l'].
  apply emits_bind_nil; [by apply emits_truediv|intros a'].
  apply emits_ret.
Qed.

(** *** Checkpoints and the dictionary heap *)

Lemma save_model_effect cfg epoch model optim scaler stats (w : world) :
  exists w',
    save_model RT cfg epoch model optim scaler stats w = (Ok tt, w')
    /\ heap w'
       = <[stats := saved_stats model optim scaler (default ∅ (heap w !! stats))]> (heap w)
    /\ calls w' = calls w ++ [CTorchSave (checkpoint_path epoch)]
    /\ cuda_is_available w' = cuda_is_available w.
Proof.
  unfold save_model, dict_setitem, torch_save, log, modify, dict_snapshot, gets.
  rewrite !bind_eq. simpl.
  destruct (bool_decide _); simpl.
  all: eexists; split; [reflexivity|]; simpl.
  all: rewrite !lookup_insert_eq; simpl; rewrite !insert_insert_eq; done.
Qed.

Lemma new_dict_effect content (w : world) :
  new_dict RT content w
  = (Ok (fresh (dom (heap w))),
     set_heap RT (<[fresh (dom (heap w)) := content]> (heap w)) w).
Proof. reflexivity. Qed.

(** A new dictionary is no dictionary that exists already. *)
Lemma fresh_not_allocated (w : world) l (d : dict) :
  heap w !! l = Some d -> fresh (dom (heap w)) <> l.
Proof.
  intros H E. apply (is_fresh (dom (heap w))). rewrite E.
  apply elem_of_dom; eauto.
Qed.

Lemma checkpoint_path_not_config e : checkpoint_path e <> "model_states/config.yaml".
Proof.
  intros E. pose proof (checkpoint_path_matches e) as H.
  rewrite E in H. discriminate.
Qed.

(** The checkpoint file holds the dictionary as [save_model] left it. *)
Lemma save_model_file cfg epoch model optim scaler stats (w : world) :
  fs (save_model RT cfg epoch model optim scaler stats w).2 !! checkpoint_path epoch
  = Some (FPickle (saved_stats model optim scaler (default ∅ (heap w !! stats)))).
Proof.
  unfold save_model, dict_setitem, torch_save, log, modify, dict_snapshot, gets.
  rewrite !bind_eq. simpl.
  destruct (bool_decide _); simpl.
  - rewrite !lookup_insert_eq. simpl. by rewrite ?insert_insert_eq.
  - rewrite lookup_insert_ne by (intros E; by apply (checkpoint_path_not_config epoch)).
    rewrite !lookup_insert_eq. simpl. by rewrite ?insert_insert_eq.
Qed.

(** A saved checkpoint is among the files the resume logic globs. *)
Lemma saved_checkpoint_globbed cfg epoch model optim scaler stats (w : world) :
  In (checkpoint_path epoch)
    (List.filter matches_pattern
       (map fst (map_to_list
          (fs (save_model RT cfg epoch model optim scaler stats w).2)))).
Proof.
  apply List.filter_In. split; [|apply checkpoint_path_matches].
  apply in_map_iff. eexists (_, _). split; [reflexivity|].
  apply list_elem_of_In, elem_of_map_to_list, save_model_file.
Qed.

(** *** The epoch loop *)

Lemma epoch_range_done s n : n <= s -> epoch_range s n = [].
Proof. intros. unfold epoch_range. by replace (Z.to_nat (n - s)) with O by lia. Qed.

Lemma epoch_range_step s n :
  s < n -> epoch_range s n = (s + 1) :: epoch_range (s + 1) n.
Proof.
  intros. unfold epoch_range.
  replace (Z.to_nat (n - s)) with (S (Z.to_nat (n - (s + 1)))) by lia.
  simpl. f_equal; [lia|]. rewrite <- seq_shift, <- list_fmap_compose.
  apply list_fmap_ext. intros _ i _. simpl. lia.
Qed.

Lemma epoch_range_length s n :
  length (epoch_range s n) = Z.to_nat (Z.max 0 (n - s)).
Proof. unfold epoch_range. rewrite length_fmap, length_seq. lia. Qed.

(** At or past the last epoch the loop returns at once, whatever the
    configuration and the loaders. *)
Lemma epoch_loop_done fuel cfg dl_train dl_val n model optim scaler s (w : world) :
  n <= s ->
  epoch_loop RT fuel cfg dl_train dl_val (VInt n) model optim scaler s w
  = (Ok (model, optim, scaler, s), w).
Proof.
  intros. destruct fuel; simpl; rewrite bind_eq; simpl;
    (replace (s <? n) with false by (symmetry; apply Z.ltb_ge; lia)); done.
Qed.

(** With a device configured and non-empty loaders, the loop runs the
    epochs [s+1 .. n], each one [model.train()], [model.eval()] and a
    [torch.save] of the checkpoint with the epoch's number. *)
Lemma epoch_loop_runs cfg dl_train dl_val d dev n :
  d !! "device" = Some dev -> dl_train <> [] -> dl_val <> [] ->
  forall j k s model optim scaler (w : world),
    j = Z.to_nat (n - s) ->
    heap w !! cfg = Some d ->
    exists model' optim' scaler' w',
      epoch_loop RT (j + k) cfg dl_train dl_val (VInt n) model optim scaler s w
      = (Ok (model', optim', scaler', Z.max s n), w')
      /\ heap w' !! cfg = Some d
      /\ List.filter epoch_mark (calls w')
         = List.filter epoch_mark (calls w)
           ++ concat (epoch_marks_of <$> epoch_range s n).
Proof.
  intros Hd Ht Hv. induction j as [|j IH]; intros k s model optim scaler w Hj Hc.
  - assert (n <= s) by lia.
    exists model, optim, scaler, w.
    rewrite epoch_range_done by done. simpl. rewrite app_nil_r.
    replace (Z.max s n) with s by lia.
    split; [|done]. by apply epoch_loop_done.
  - assert (s < n) by lia.
    simpl. rewrite bind_eq. simpl.
    replace (s <? n) with true by (symmetry; apply Z.ltb_lt; lia).
    rewrite bind_eq.
    destruct (train_runs cfg dl_train model optim scaler w d dev Hc Hd Ht)
      as ([[[[lt at_] m1] o1] s1] & c1 & E1 & F1).
    rewrite E1. rewrite bind_eq.
    set (w1 := set_calls RT (calls w ++ c1) w).
    destruct (validate_runs cfg dl_val m1 w1 d dev Hc Hd Hv)
      as ([[lv av] m2] & c2 & E2 & F2).
    rewrite E2. rewrite bind_eq.
    set (w2 := set_calls RT (calls w1 ++ c2) w1).
    rewrite new_dict_effect. rewrite bind_eq.
    set (stats := fresh (dom (heap w2))).
    set (w3 := set_heap RT _ w2).
    destruct (save_model_effect cfg (s + 1) m2 o1 s1 stats w3)
      as (w4 & E4 & H4 & C4 & _).
    rewrite E4.
    assert (Hne : stats <> cfg) by (by apply (fresh_not_allocated w2 cfg d)).
    destruct (IH k (s + 1) m2 o1 s1 w4) as (m' & o' & s' & w' & E & Hc' & F).
    { lia. }
    { rewrite H4. rewrite lookup_insert_ne by done.
      subst w3. simpl. by rewrite lookup_insert_ne. }
    exists m', o', s', w'. rewrite E.
    replace (Z.max (s + 1) n) with (Z.max s n) by lia.
    split; [done|]. split; [done|].
    rewrite F, C4. subst w3 w2 w1. simpl.
    rewrite (epoch_range_step s n) by done. simpl.
    rewrite !List.filter_app, F1, F2. simpl.
    by rewrite <- !app_assoc.
Qed.

(** The [while] loop is the sequence of the epochs [s+1 .. n], also when
    one of them raises. *)
Lemma epoch_loop_refines cfg dl_train dl_val n :
  forall j k s model optim scaler (w : world),
    j = Z.to_nat (n - s) ->
    epoch_loop RT (j + k) cfg dl_train dl_val (VInt n) model optim scaler s w
    = (run_epochs cfg dl_train dl_val (epoch_range s n) model optim scaler
       ≫= fun '(model', optim', scaler') =>
            mret (model', optim', scaler', Z.max s n)) w.
Proof.
  induction j as [|j IH]; intros k s model optim scaler w Hj.
  - assert (n <= s) by lia.
    rewrite epoch_loop_done, epoch_range_done by done. simpl.
    rewrite bind_eq. simpl. by replace (Z.max s n) with s by lia.
  - assert (s < n) by lia.
    rewrite (epoch_range_step s n) by done.
    simpl. rewrite !bind_eq. simpl.
    replace (s <? n) with true by (symmetry; apply Z.ltb_lt; lia).
    unfold one_epoch. rewrite !bind_eq.
    destruct (train RT cfg dl_train model optim scaler w)
      as [[[[[[lt at_] m1] o1] s1]|e|] w1]; [|done|done].
    rewrite !bind_eq.
    destruct (validate RT cfg dl_val m1 w1) as [[[[lv av] m2]|e|] w2]; [|done|done].
    unfold epoch_stats. repeat rewrite ?bind_eq, ?new_dict_effect.
    match goal with
    | |- context [save_model RT cfg (s + 1) m2 o1 s1 ?st ?w3] =>
        destruct (save_model_effect cfg (s + 1) m2 o1 s1 st w3) as (w4 & E4 & _)
    end.
    rewrite E4. simpl.
    rewrite (IH k (s + 1)) by lia. rewrite bind_eq.
    by replace (Z.max (s + 1) n) with (Z.max s n) by lia.
Qed.

(** *** The configuration object *)

Lemma keeps_heap_only_logs {A} (m : Py A) : only_logs m -> keeps_heap m.
Proof. intros H w. by apply only_logs_heap. Qed.

Lemma keeps_heap_ret {A} (a : A) : keeps_heap (mret a : Py A).
Proof. by intros w. Qed.

Lemma keeps_heap_raise {A} e : keeps_heap (raise e : Py A).
Proof. by intros w. Qed.

Lemma keeps_heap_gets {A} (f : world -> A) : keeps_heap (gets f).
Proof. by intros w. Qed.

Lemma keeps_heap_log c : keeps_heap (log RT c).
Proof. by intros w. Qed.

Lemma keeps_heap_bind {A B} (m : Py A) (k : A -> Py B) :
  keeps_heap m -> (forall a, keeps_heap (k a)) -> keeps_heap (m ≫= k).
Proof.
  intros Hm Hk w. rewrite bind_eq. specialize (Hm w).
  destruct (m w) as [[a|e|] w1]; simpl in *; [|done|done].
  by rewrite Hk.
Qed.

Lemma keeps_heap_dict_get d k dflt : keeps_heap (dict_get RT d k dflt).
Proof. eapply keeps_heap_only_logs, emits_only_logs, emits_dict_get. Qed.

Lemma keeps_heap_dict_getitem d k : keeps_heap (dict_getitem RT d k).
Proof. apply keeps_heap_only_logs, only_logs_dict_getitem. Qed.

Lemma keeps_heap_init_seed seed : keeps_heap (init_seed RT seed).
Proof. intros w. by destruct seed. Qed.

Ltac keeps_step :=
  first
    [ apply keeps_heap_ret
    | apply keeps_heap_raise
    | apply keeps_heap_gets
    | apply keeps_heap_log
    | apply keeps_heap_dict_get
    | apply keeps_heap_dict_getitem
    | apply keeps_heap_bind; [| intros ]
    | match goal with
      | |- keeps_heap (match ?x with _ => _ end) => destruct x
      | |- keeps_heap (let '(_, _) := ?x in _) => destruct x
      end ].

Lemma keeps_heap_create_dataloader cfg split :
  keeps_heap (create_dataloader RT cfg split).
Proof. unfold create_dataloader, dict_snapshot. repeat keeps_step. Qed.

Lemma keeps_heap_model_epochs_of l : keeps_heap (model_epochs_of RT l).
Proof. induction l as [|m rest IH]; simpl; repeat keeps_step. apply IH. Qed.

Lemma keeps_heap_load cfg : keeps_heap (load_model_optim_scaler RT cfg).
Proof.
  unfold load_model_optim_scaler, glob_model_states, setup_optimizer,
    GradScaler_init.
  do 5 (apply keeps_heap_bind; [repeat keeps_step|intros]).
  destruct (negb _); [|apply keeps_heap_ret].
  apply keeps_heap_bind; [apply keeps_heap_model_epochs_of|intros].
  unfold py_max, torch_load, state_getitem, model_load_state_dict,
    optim_load_state_dict, scaler_load_state_dict.
  repeat keeps_step.
Qed.

Lemma int_lt_cases s v (w : world) :
  (exists b, int_lt RT s v w = (Ok b, w)) \/ int_lt RT s v w = (Raise TypeError, w).
Proof. destruct v; simpl; eauto. Qed.

(** The loop leaves an existing dictionary as it is: the one dictionary
    [save_model] writes to is the new [stats] of the iteration. *)
Lemma epoch_loop_keeps_dict cfg dl_train dl_val numEpochs (x : dict) :
  forall fuel model optim scaler s (w : world),
    heap w !! cfg = Some x ->
    heap (epoch_loop RT fuel cfg dl_train dl_val numEpochs model optim scaler s w).2
      !! cfg = Some x.
Proof.
  induction fuel as [|fuel IH]; intros model optim scaler s w Hc.
  - simpl. rewrite bind_eq.
    destruct (int_lt_cases s numEpochs w) as [[c ->]| ->]; [|done].
    by destruct c.
  - simpl. rewrite bind_eq.
    destruct (int_lt_cases s numEpochs w) as [[c ->]| ->]; [|done].
    destruct c; [|done].
    rewrite bind_eq.
    pose proof (only_logs_heap _ w (only_logs_train cfg dl_train model optim scaler)) as H1.
    destruct (train RT cfg dl_train model optim scaler w)
      as [[[[[[lt at_] m1] o1] s1]|e|] w1]; simpl in H1;
      [|simpl; by rewrite H1|simpl; by rewrite H1].
    rewrite bind_eq.
    pose proof (only_logs_heap _ w1 (only_logs_validate cfg dl_val m1)) as H2.
    destruct (validate RT cfg dl_val m1 w1) as [[[[lv av] m2]|e|] w2]; simpl in H2;
      [|simpl; by rewrite H2, H1|simpl; by rewrite H2, H1].
    rewrite bind_eq, new_dict_effect, bind_eq.
    match goal with
    | |- context [save_model RT cfg (s + 1) m2 o1 s1 ?st ?w3] =>
        destruct (save_model_effect cfg (s + 1) m2 o1 s1 st w3) as (w4 & E4 & H4 & _)
    end.
    rewrite E4. apply IH.
    assert (Hc2 : heap w2 !! cfg = Some x) by (by rewrite H2, H1).
    rewrite H4. simpl.
    rewrite !lookup_insert_ne by (by apply (fresh_not_allocated w2 cfg x)).
    done.
Qed.

Lemma keeps_dict_heap {A} c x (m : Py A) : keeps_heap m -> keeps_dict c x m.
Proof. intros H w Hc. by rewrite H. Qed.

Lemma keeps_dict_bind {A B} c x (m : Py A) (k : A -> Py B) :
  keeps_dict c x m -> (forall a, keeps_dict c x (k a)) -> keeps_dict c x (m ≫= k).
Proof.
  intros Hm Hk w Hc. rewrite bind_eq. specialize (Hm w Hc).
  destruct (m w) as [[a|e|] w1]; simpl in *; [|done|done].
  by apply Hk.
Qed.

Lemma init_seed_effect seed (w : world) :
  exists w',
    init_seed RT seed w = (Ok tt, w')
    /\ heap w' = heap w /\ fs w' = fs w
    /\ cuda_is_available w' = cuda_is_available w /\ calls w' = calls w.
Proof. destruct seed; simpl; eauto 10. Qed.

(** After the device check nothing in [main] writes to the configuration. *)
Lemma main_tail_keeps_cfg fuel cfg (x : dict) :
  keeps_dict cfg x
    (dl_train ← create_dataloader RT cfg "train";
     dl_val ← create_dataloader RT cfg "val";
     '(model, optim, scaler, current_epoch) ← load_model_optim_scaler RT cfg;
     numEpochs ← dict_getitem RT cfg "num_epochs";
     r ← epoch_loop RT fuel cfg dl_train dl_val numEpochs model optim scaler
           current_epoch;
     mret (cfg, r)).
Proof.
  apply keeps_dict_bind;
    [apply keeps_dict_heap, keeps_heap_create_dataloader|intros dl_train].
  apply keeps_dict_bind;
    [apply keeps_dict_heap, keeps_heap_create_dataloader|intros dl_val].
  apply keeps_dict_bind;
    [apply keeps_dict_heap, keeps_heap_load|intros [[[model optim] scaler] e]].
  apply keeps_dict_bind;
    [apply keeps_dict_heap, keeps_heap_dict_getitem|intros numEpochs].
  apply keeps_dict_bind;
    [intros w Hc; by apply epoch_loop_keeps_dict|intros r].
  apply keeps_dict_heap, keeps_heap_ret.
Qed.

(** The configuration object [main] leaves behind is the loaded one, up to
    the device fallback. *)
Lemma main_cfg_after fuel config (w : world) (d : dict) :
  fs w !! config = Some (FYaml d) ->
  heap (main RT fuel config w).2 !! fresh (dom (heap w))
  = Some (device_fallback (cuda_is_available w) d).
Proof.
  intros Hf. unfold main. rewrite bind_eq.
  unfold yaml_safe_load. rewrite bind_eq. simpl. rewrite Hf.
  rewrite new_dict_effect.
  set (cfg := fresh (dom (heap w))). set (w1 := set_heap RT _ w).
  assert (H1 : heap w1 !! cfg = Some d) by (subst w1; simpl; apply lookup_insert_eq).
  rewrite bind_eq.
  rewrite (dict_get_run cfg "seed"). set (seed := default _ _).
  rewrite bind_eq.
  destruct (init_seed_effect seed w1) as (w2 & -> & H2 & _ & C2 & _).
  rewrite bind_eq. unfold dict_getitem at 1. rewrite H2, H1. simpl.
  unfold device_fallback.
  destruct (d !! "device") as [device|] eqn:Hd; [|simpl; by rewrite H2].
  rewrite bind_eq. simpl. rewrite C2.
  change (cuda_is_available w1) with (cuda_is_available w).
  rewrite bind_eq.
  destruct (ne_str RT device "cpu" && negb (cuda_is_available w)).
  - unfold dict_setitem, modify. apply main_tail_keeps_cfg. simpl.
    rewrite lookup_insert_eq, H2, H1. done.
  - apply main_tail_keeps_cfg. simpl. by rewrite H2.
Qed.

(** *** Resuming from the latest checkpoint *)

Lemma fold_left_max_ge (l : list Z) x : x <= fold_left Z.max l x.
Proof.
  revert x. induction l as [|y l IH]; intros x; simpl; [lia|].
  etrans; [|apply IH]. lia.
Qed.

Lemma fold_left_max_bound (l : list Z) x y :
  y ∈ l -> y <= fold_left Z.max l x.
Proof.
  revert x. induction l as [|z l IH]; intros x Hy; simpl.
  - by apply elem_of_nil in Hy.
  - apply elem_of_cons in Hy as [->|Hy]; [|by apply IH].
    etrans; [|apply fold_left_max_ge]. lia.
Qed.

Lemma fold_left_max_elem (l : list Z) x :
  fold_left Z.max l x = x \/ fold_left Z.max l x ∈ l.
Proof.
  revert x. induction l as [|z l IH]; intros x; simpl; [by left|].
  destruct (IH (Z.max x z)) as [E|E].
  - rewrite E. destruct (Z.max_spec x z) as [[_ ->]|[_ ->]];
      [right; apply elem_of_cons; by left|by left].
  - right. apply elem_of_cons. by right.
Qed.

(** [latest_of] is the maximum: a member that bounds every member. *)
Lemma latest_of_spec ids e :
  latest_of ids = Some e -> e ∈ ids /\ forall x, x ∈ ids -> x <= e.
Proof.
  destruct ids as [|x r]; simpl; [done|]. intros [= <-]. split.
  - destruct (fold_left_max_elem r x) as [->|H]; apply elem_of_cons; auto.
  - intros y [->|Hy]%elem_of_cons;
      [apply fold_left_max_ge|by apply fold_left_max_bound].
Qed.

Lemma model_epochs_of_paths ids (w : world) :
  model_epochs_of RT (map checkpoint_path ids) w = (Ok ids, w).
Proof.
  induction ids as [|e ids IH]; simpl; [done|].
  rewrite epoch_of_checkpoint_path, bind_eq, IH. done.
Qed.

Lemma load_resumes cfg (w : world) c nc lr wd ids :
  heap w !! cfg = Some c ->
  c !! "num_classes" = Some nc ->
  c !! "learning_rate" = Some lr ->
  c !! "weight_decay" = Some wd ->
  List.filter matches_pattern (map fst (map_to_list (fs w)))
  = map checkpoint_path ids ->
  (forall e, latest_of ids = Some e ->
     loadable nc (truthy RT (use_amp_of cfg w) && cuda_is_available w)
       (fs w !! checkpoint_path e)) ->
  exists model optim scaler w',
    load_model_optim_scaler RT cfg w
    = (Ok (model, optim, scaler, default 0 (latest_of ids)), w').
Proof.
  intros Hc Hnc Hlr Hwd Hglob Hload.
  unfold load_model_optim_scaler. rewrite bind_eq.
  rewrite (dict_getitem_run _ _ _ _ _ Hc Hnc).
  rewrite bind_eq. unfold glob_model_states, gets. rewrite Hglob.
  rewrite bind_eq. unfold setup_optimizer. rewrite bind_eq.
  rewrite (dict_getitem_run _ _ _ _ _ Hc Hlr), bind_eq.
  rewrite (dict_getitem_run _ _ _ _ _ Hc Hwd). simpl.
  rewrite bind_eq, dict_get_run.
  rewrite bind_eq. unfold GradScaler_init. rewrite bind_eq. simpl.
  fold (use_amp_of cfg w).
  destruct ids as [|x r]; [simpl; eauto|].
  change ((length (map checkpoint_path (x :: r)) =? 0)%nat) with false.
  cbv [negb]. cbv beta iota.
  rewrite bind_eq, model_epochs_of_paths. rewrite bind_eq. simpl.
  destruct (Hload _ eq_refl)
    as (b & p & p' & lr' & wd' & st & sd & Hf & Hm & Hp & Ho & Hs & Hsd).
  rewrite bind_eq. unfold torch_load, log, modify, gets. rewrite !bind_eq. simpl.
  rewrite Hf. simpl.
  unfold state_getitem. rewrite Hm, Ho, Hs.
  rewrite bind_eq. simpl. rewrite Hp.
  rewrite !bind_eq. simpl.
  rewrite !bind_eq. simpl.
  unfold scaler_load_state_dict. simpl. fold (use_amp_of cfg w).
  rewrite !ret_bind.
  destruct (truthy RT (use_amp_of cfg w) && cuda_is_available w) eqn:En.
  - destruct (Hsd eq_refl) as [sd' ->]. rewrite ret_bind. eauto.
  - rewrite ret_bind. eauto.
Qed.

(** *** One batch *)

Lemma runs_ret {A} (w : world) (a : A) : runs w (mret a) a [].
Proof. intros cs0. by rewrite app_nil_r. Qed.

Lemma runs_bind {A B} (w : world) (m : Py A) (k : A -> Py B) a b c1 c2 :
  runs w m a c1 -> runs w (k a) b c2 -> runs w (m ≫= k) b (c1 ++ c2).
Proof.
  intros Hm Hk cs0. rewrite bind_eq, Hm, Hk. by rewrite <- app_assoc.
Qed.

Lemma runs_log (w : world) c : runs w (log RT c) tt [c].
Proof. intros cs0. unfold log, modify. by rewrite set_calls_app. Qed.

Lemma runs_dict_get (w : world) d k dflt :
  runs w (dict_get RT d k dflt) (default dflt (heap w !! d ≫= (.!! k))) [].
Proof. intros cs0. rewrite dict_get_run. by rewrite app_nil_r. Qed.

Lemma runs_start {A} (w : world) (m : Py A) a cs :
  runs w m a cs -> m w = (Ok a, set_calls RT (calls w ++ cs) w).
Proof.
  intros H. specialize (H []). by rewrite set_calls_nil in H.
Qed.

Lemma runs_log_bind {B} (w : world) c (k : unit -> Py B) b cs :
  runs w (k tt) b cs -> runs w (log RT c ≫= k) b (c :: cs).
Proof. intros H. apply (runs_bind w _ _ tt b [c] cs); [apply runs_log|done]. Qed.

Lemma runs_get_bind {B} (w : world) d key dflt (k : val -> Py B) b cs :
  runs w (k (default dflt (heap w !! d ≫= (.!! key)))) b cs ->
  runs w (dict_get RT d key dflt ≫= k) b cs.
Proof. intros H. eapply (runs_bind w _ _ _ b [] cs); [apply runs_dict_get|done]. Qed.

Lemma runs_ret_bind {A B} (w : world) (a : A) (k : A -> Py B) b cs :
  runs w (k a) b cs -> runs w (mret a ≫= k) b cs.
Proof. intros H. apply (runs_bind w _ _ a b [] cs); [apply runs_ret|done]. Qed.

Lemma runs_assoc {A B C} (w : world) (m : Py A) (f : A -> Py B) (g : B -> Py C) c cs :
  runs w (m ≫= fun a => f a ≫= g) c cs -> runs w ((m ≫= f) ≫= g) c cs.
Proof.
  intros H cs0. rewrite <- (H cs0). rewrite !bind_eq.
  by destruct (m _) as [[a|e|] w1].
Qed.

Ltac runs_go :=
  repeat match goal with
    | |- runs _ (mret _) _ _ => apply runs_ret
    | |- runs _ (log _ _ ≫= _) _ _ => apply runs_log_bind
    | |- runs _ (dict_get _ _ _ _ ≫= _) _ _ => apply runs_get_bind
    | |- runs _ (mret _ ≫= _) _ _ => apply runs_ret_bind
    | |- runs _ ((_ ≫= _) ≫= _) _ _ => apply runs_assoc
    end.

Lemma train_batch_run cfg device b model optimizer scaler (w : world) :
  let ua := use_amp_of cfg w in
  train_batch RT cfg device b model optimizer scaler w
  = (Ok (train_batch_result device ua b model optimizer scaler),
     set_calls RT
       (calls w ++ train_batch_calls device ua
                     (negb (step_skipped device ua b model scaler))) w).
Proof.
  intros ua. apply runs_start.
  destruct b as [data labels]. destruct optimizer as [lr wd ost].
  unfold train_batch_result, train_batch_calls, step_skipped, step_gradient,
    slot_gradient, train_batch, scaler_step, scaler_update, scaler_updated,
    zero_grad, optimizer_step.
  simpl.
  do 9 first [ apply runs_log_bind | apply runs_get_bind ].
  apply runs_assoc, runs_log_bind. fold (use_amp_of cfg w). fold ua.
  set (gr := accumulate RT _ _).
  destruct (gs_enabled scaler) eqn:En; simpl;
    [destruct (has_inf_or_nan RT _) eqn:Hinf; simpl|].
  all: try destruct (sgd_step RT _ _ _ _ _) as [p st]; simpl.
  all: try destruct (_ =? _).
  all: runs_go.
Qed.

Lemma validate_batch_run cfg device b model (w : world) :
  let ua := use_amp_of cfg w in
  validate_batch RT cfg device b model w
  = (Ok (validate_batch_values ua model b),
     set_calls RT (calls w ++ validate_batch_calls device ua) w).
Proof.
  intros ua. apply runs_start.
  destruct b as [data labels].
  unfold validate_batch, validate_batch_values, validate_batch_calls. simpl.
  runs_go.
Qed.

(** *** The loops of the epoch runners *)

Lemma use_amp_of_set_calls cfg cs (w : world) :
  use_amp_of cfg (set_calls RT cs w) = use_amp_of cfg w.
Proof. reflexivity. Qed.

Lemma train_loop_run cfg device dl :
  forall model optimizer scaler l0 a0 (w : world),
    let ua := use_amp_of cfg w in
    let vs := train_values device ua dl model optimizer scaler in
    exists cs,
      train_loop RT cfg device dl model optimizer scaler l0 a0 w
      = (Ok (fold_left Qplus (map fst vs) l0, fold_left Qplus (map snd vs) a0,
             (train_final device ua dl model optimizer scaler).1.1,
             (train_final device ua dl model optimizer scaler).1.2,
             (train_final device ua dl model optimizer scaler).2),
         set_calls RT (calls w ++ cs) w).
Proof.
  induction dl as [|b rest IH]; intros model optimizer scaler l0 a0 w; simpl.
  - exists []. by rewrite set_calls_nil.
  - rewrite bind_eq, train_batch_run.
    destruct (train_batch_result _ _ _ _ _ _) as [[[[l a] m'] o'] s'].
    destruct (IH m' o' s' (l0 + l)%Q (a0 + a)%Q
                (set_calls RT (calls w ++ train_batch_calls device (use_amp_of cfg w)
                   (negb (step_skipped device (use_amp_of cfg w) b model scaler))) w))
      as (cs & E).
    rewrite E, use_amp_of_set_calls, set_calls_app. simpl. eexists. reflexivity.
Qed.

Lemma validate_loop_run cfg device dl model :
  forall l0 a0 (w : world),
    let vs := map (validate_batch_values (use_amp_of cfg w) model) dl in
    exists cs,
      validate_loop RT cfg device dl model l0 a0 w
      = (Ok (fold_left Qplus (map fst vs) l0, fold_left Qplus (map snd vs) a0),
         set_calls RT (calls w ++ cs) w).
Proof.
  induction dl as [|b rest IH]; intros l0 a0 w; simpl.
  - exists []. by rewrite set_calls_nil.
  - rewrite bind_eq, validate_batch_run. simpl.
    match goal with
    | |- context [validate_loop RT cfg device rest model ?l ?a ?w1] =>
        destruct (IH l a w1) as (cs & E)
    end.
    rewrite E, use_amp_of_set_calls, set_calls_app. eexists. reflexivity.
Qed.

Lemma fold_left_Qplus (l : list Q) (x : Q) : (fold_left Qplus l x == x + Qsum l)%Q.
Proof.
  revert x. induction l as [|y l IH]; intros x; simpl.
  - unfold Qsum. simpl. ring.
  - rewrite IH. unfold Qsum. simpl. ring.
Qed.

(** *** The epoch runners, in closed form *)

Lemma truediv_run x n (w : world) :
  truediv x n w
  = (if n =? 0 then Raise ZeroDivisionError else Ok (x / inject_Z n)%Q, w).
Proof. unfold truediv. by destruct (n =? 0). Qed.

Lemma validate_run cfg dl model (w : world) (d : dict) dev :
  heap w !! cfg = Some d -> d !! "device" = Some dev ->
  let model' := model_in_mode false dev model in
  let vs := map (validate_batch_values (use_amp_of cfg w) model') dl in
  let n := Z.of_nat (length dl) in
  exists cs,
    validate RT cfg dl model w
    = (match dl with
       | [] => Raise ZeroDivisionError
       | _ => Ok ((fold_left Qplus (map fst vs) 0 / inject_Z n)%Q,
                  (fold_left Qplus (map snd vs) 0 / inject_Z n)%Q, model')
       end,
       set_calls RT (calls w ++ cs) w).
Proof.
  intros Hc Hd. simpl. unfold validate.
  rewrite bind_eq, (dict_getitem_run _ _ _ _ _ Hc Hd).
  unfold model_to, model_set_mode, log, modify.
  repeat (rewrite ?bind_eq; simpl).
  match goal with
  | |- context [validate_loop RT cfg dev dl ?m 0%Q 0%Q ?w1] =>
      destruct (validate_loop_run cfg dev dl m 0%Q 0%Q w1) as (cs & E)
  end.
  simpl in E. rewrite E. clear E. simpl.
  repeat (rewrite ?bind_eq, ?truediv_run; simpl).
  destruct dl as [|b rest].
  - simpl. eexists. unfold set_calls; simpl. rewrite <- !app_assoc. reflexivity.
  - change (Z.of_nat (length (b :: rest)) =? 0) with false. cbv beta iota.
    repeat (rewrite ?bind_eq, ?ret_bind; simpl).
    eexists. unfold set_calls; simpl. rewrite <- !app_assoc. reflexivity.
Qed.

Lemma train_run cfg dl model optimizer scaler (w : world) (d : dict) dev :
  heap w !! cfg = Some d -> d !! "device" = Some dev ->
  let ua := use_amp_of cfg w in
  let model' := model_in_mode true dev model in
  let vs := train_values dev ua dl model' optimizer scaler in
  let final := train_final dev ua dl model' optimizer scaler in
  let n := Z.of_nat (length dl) in
  exists cs,
    train RT cfg dl model optimizer scaler w
    = (match dl with
       | [] => Raise ZeroDivisionError
       | _ => Ok ((fold_left Qplus (map fst vs) 0 / inject_Z n)%Q,
                  (fold_left Qplus (map snd vs) 0 / inject_Z n)%Q,
                  final.1.1, final.1.2, final.2)
       end,
       set_calls RT (calls w ++ cs) w).
Proof.
  intros Hc Hd. simpl. unfold train.
  rewrite bind_eq, (dict_getitem_run _ _ _ _ _ Hc Hd).
  unfold model_to, model_set_mode, log, modify.
  repeat (rewrite ?bind_eq; simpl).
  match goal with
  | |- context [train_loop RT cfg dev dl ?m ?o ?s 0%Q 0%Q ?w1] =>
      destruct (train_loop_run cfg dev dl m o s 0%Q 0%Q w1) as (cs & E)
  end.
  simpl in E. rewrite E. clear E. simpl.
  repeat (rewrite ?bind_eq, ?truediv_run; simpl).
  destruct dl as [|b rest].
  - simpl. eexists. unfold set_calls; simpl. rewrite <- !app_assoc. reflexivity.
  - change (Z.of_nat (length (b :: rest)) =? 0) with false. cbv beta iota.
    repeat (rewrite ?bind_eq, ?ret_bind; simpl).
    eexists. unfold set_calls; simpl. rewrite <- !app_assoc. reflexivity.
Qed.

End Runs.

(** * The properties of the design document *)

(** ** The epoch orchestrator *)

(** C1. From a starting epoch [s] (0 on a fresh start, the latest
    checkpoint number on a resume) the main loop repeats while
    [current_epoch < num_epochs]; each iteration increments
    [current_epoch], runs one training epoch, one validation epoch and
    saves the checkpoint numbered [current_epoch].  The loop is the
    sequence of the epochs [s+1, ..., num_epochs], of which there are
    [max 0 (num_epochs - s)]; when every epoch runs through (a device is
    configured and both loaders hold a batch) the log shows, per epoch,
    [model.train()], [model.eval()] and [torch.save] of the checkpoint
    with the epoch's number, and the loop ends at [max s num_epochs].
    When [s >= num_epochs] the loop performs no epoch and returns with
    the process state untouched. *)
Theorem epoch_loop_iterations (RT : Runtime) cfg dl_train dl_val n s k
    model optim scaler (w : World (Params RT) (OptState RT)) :
  epoch_loop RT (Z.to_nat (n - s) + k) cfg dl_train dl_val (VInt n)
    model optim scaler s w
  = (run_epochs cfg dl_train dl_val (epoch_range s n) model optim scaler
     ≫= fun '(model', optim', scaler') =>
          mret (model', optim', scaler', Z.max s n)) w
  /\ length (epoch_range s n) = Z.to_nat (Z.max 0 (n - s))
  /\ epoch_range s n
     = (fun i => s + 1 + Z.of_nat i) <$> seq 0 (Z.to_nat (Z.max 0 (n - s)))
  /\ (forall d dev,
        heap w !! cfg = Some d -> d !! "device" = Some dev ->
        dl_train <> [] -> dl_val <> [] ->
        exists model' optim' scaler' w',
          epoch_loop RT (Z.to_nat (n - s) + k) cfg dl_train dl_val (VInt n)
            model optim scaler s w
          = (Ok (model', optim', scaler', Z.max s n), w')
          /\ List.filter epoch_mark (calls w')
             = List.filter epoch_mark (calls w)
               ++ concat (epoch_marks_of <$> epoch_range s n))
  /\ (n <= s ->
      forall fuel,
        epoch_loop RT fuel cfg dl_train dl_val (VInt n) model optim scaler s w
        = (Ok (model, optim, scaler, s), w)).
Proof.
  split; [by apply epoch_loop_refines|].
  split; [apply epoch_range_length|].
  split.
  { unfold epoch_range. do 2 f_equal. lia. }
  split.
  - intros d dev Hc Hd Ht Hv.
    destruct (epoch_loop_runs RT cfg dl_train dl_val d dev n Hd Ht Hv
                (Z.to_nat (n - s)) k s model optim scaler w eq_refl Hc)
      as (m' & o' & s' & w' & E & _ & F).
    by exists m', o', s', w'.
  - intros Hn fuel. by apply epoch_loop_done.
Qed.

Lemma epoch_loop_iterations_witness :
  exists model' optim' scaler' w',
    epoch_loop Toy.rt 2 Toy.cfg Toy.four_batches [Toy.batch_right] (VInt 2)
      Toy.model0 Toy.optim0 Toy.scaler_off 0
      (Toy.world1 (Toy.cfg_content "cpu" 2) ∅ false)
    = (Ok (model', optim', scaler', 2), w')
    /\ List.filter epoch_mark (calls w')
       = [CModelTrain; CModelEval; CTorchSave "model_states/1.pt";
          CModelTrain; CModelEval; CTorchSave "model_states/2.pt"].
Proof.
  destruct (epoch_loop_iterations Toy.rt Toy.cfg Toy.four_batches
              [Toy.batch_right] 2 0 0 Toy.model0 Toy.optim0 Toy.scaler_off
              (Toy.world1 (Toy.cfg_content "cpu" 2) ∅ false))
    as (_ & _ & _ & H & _).
  apply (H (Toy.cfg_content "cpu" 2) (VStr "cpu")).
  - reflexivity.
  - reflexivity.
  - discriminate.
  - discriminate.
Defined.

(** ** The checkpoint store *)

(** C2. Over a store whose checkpoint files are those of the numbers
    [ids], in any order and with gaps, the resume logic of
    [load_model_optim_scaler] starts from the maximum of [ids] (a member
    of [ids] that bounds every member), and from epoch 0 when there is no
    checkpoint.  The latest checkpoint has to be one the script can load,
    and the configuration has to hold the keys read before. *)
Theorem load_latest_checkpoint (RT : Runtime) cfg
    (w : World (Params RT) (OptState RT)) c nc lr wd ids :
  heap w !! cfg = Some c ->
  c !! "num_classes" = Some nc ->
  c !! "learning_rate" = Some lr ->
  c !! "weight_decay" = Some wd ->
  List.filter matches_pattern (map fst (map_to_list (fs w)))
  = map checkpoint_path ids ->
  (forall e, latest_of ids = Some e ->
     loadable nc (truthy RT (use_amp_of cfg w) && cuda_is_available w)
       (fs w !! checkpoint_path e)) ->
  exists model optim scaler w' start,
    load_model_optim_scaler RT cfg w = (Ok (model, optim, scaler, start), w')
    /\ start = default 0 (latest_of ids)
    /\ match ids with
       | [] => start = 0
       | _ => start ∈ ids /\ forall e, e ∈ ids -> e <= start
       end.
Proof.
  intros Hc Hnc Hlr Hwd Hglob Hload.
  destruct (load_resumes RT cfg w c nc lr wd ids Hc Hnc Hlr Hwd Hglob Hload)
    as (m & o & s & w' & E).
  exists m, o, s, w', (default 0 (latest_of ids)).
  split; [done|]. split; [done|].
  destruct ids as [|x r]; [done|].
  by apply latest_of_spec.
Qed.

Lemma load_latest_checkpoint_witness :
  exists model optim scaler w' start,
    load_model_optim_scaler Toy.rt Toy.cfg
      (Toy.world1 (Toy.cfg_content "cpu" 10) Toy.store_3_7_5 false)
    = (Ok (model, optim, scaler, start), w')
    /\ start = 7
    /\ (start ∈ [7; 3; 5] /\ forall e, e ∈ [7; 3; 5] -> e <= start).
Proof.
  apply (load_latest_checkpoint Toy.rt Toy.cfg
           (Toy.world1 (Toy.cfg_content "cpu" 10) Toy.store_3_7_5 false)
           (Toy.cfg_content "cpu" 10) (VInt 2) (VFloat (1 # 10)) (VFloat 0)
           [7; 3; 5]).
  - reflexivity.
  - reflexivity.
  - reflexivity.
  - reflexivity.
  - reflexivity.
  - intros e [= <-].
    exists (Toy.bundle 7), (Some 7%Q), (Some 7%Q), (VFloat (1 # 10)), (VFloat 0), tt, None.
    repeat split; try (vm_compute; reflexivity).
    vm_compute. discriminate.
Defined.

(** ** The training epoch runner *)

(** C3, as the code has it.  The step-skipping mechanism belongs to the
    gradient scaler, and the scaler is enabled only under mixed precision
    ([GradScaler(enabled=cfg.get('use_amp', False))]).  For a batch run
    with an enabled scaler whose scale factor is positive and whose
    backoff factor is below one: when the unscaled gradient holds an inf
    or a NaN, the optimizer step is not made, the parameters and the
    optimizer state are those before the batch, and the scale factor
    strictly decreases; otherwise the optimizer step is applied to the
    gradient.  With a disabled scaler the step is applied to whatever
    gradient the batch has, and the scaler is left as it is. *)
Theorem train_batch_overflow_skips (RT : Runtime) cfg device b model optimizer
    scaler (w : World (Params RT) (OptState RT)) :
  (0 < gs_scale scaler)%Q ->
  (gs_backoff_factor scaler < 1)%Q ->
  let ua := use_amp_of cfg w in
  let g := step_gradient device ua b model scaler in
  exists loss oa model' optimizer' scaler' cs,
    train_batch RT cfg device b model optimizer scaler w
    = (Ok (loss, oa, model', optimizer', scaler'), set_calls RT (calls w ++ cs) w)
    /\ if gs_enabled scaler then
         if has_inf_or_nan RT g then
           m_params model' = m_params model
           /\ o_state optimizer' = o_state optimizer
           /\ (COptimizerStep ∉ cs)
           /\ (gs_scale scaler' < gs_scale scaler)%Q
         else
           (m_params model', o_state optimizer')
           = sgd_step RT (o_lr optimizer) (o_weight_decay optimizer)
               (m_params model) (o_state optimizer) (Some g)
           /\ COptimizerStep ∈ cs
       else
         (m_params model', o_state optimizer')
         = sgd_step RT (o_lr optimizer) (o_weight_decay optimizer)
             (m_params model) (o_state optimizer) (Some g)
         /\ COptimizerStep ∈ cs
         /\ scaler' = scaler.
Proof.
  intros Hscale Hback ua g.
  rewrite train_batch_run. fold ua.
  unfold train_batch_result, step_skipped. fold g.
  unfold train_batch_calls, scaler_updated.
  destruct (gs_enabled scaler) eqn:En; simpl.
  - destruct (has_inf_or_nan RT g) eqn:Hinf; simpl.
    + do 6 eexists. split; [reflexivity|]. simpl.
      split; [done|]. split; [done|]. split.
      * repeat (apply not_elem_of_cons; split; [discriminate|]).
        apply not_elem_of_nil.
      * rewrite <- (Qmult_1_r (gs_scale scaler)) at 2.
        by apply Qmult_lt_l.
    + destruct (sgd_step RT _ _ _ _ _) as [p st] eqn:Es.
      do 6 eexists. split; [reflexivity|]. simpl.
      split; [done|].
      repeat first [ apply list_elem_of_here | apply list_elem_of_further ].
  - destruct (sgd_step RT _ _ _ _ _) as [p st] eqn:Es.
    do 6 eexists. split; [reflexivity|]. simpl.
    split; [done|]. split; [|done].
    repeat first [ apply list_elem_of_here | apply list_elem_of_further ].
Qed.

Lemma train_batch_overflow_skips_witness :
  exists loss oa model' optimizer' scaler' cs,
    train_batch Toy.rt Toy.cfg (VStr "cpu") Toy.batch_inf Toy.model0 Toy.optim0
      Toy.scaler_on (Toy.world1 (Toy.cfg_content "cpu" 2) ∅ true)
    = (Ok (loss, oa, model', optimizer', scaler'),
       set_calls Toy.rt cs (Toy.world1 (Toy.cfg_content "cpu" 2) ∅ true))
    /\ (m_params model' = Some 0%Q
        /\ o_state optimizer' = tt
        /\ (COptimizerStep ∉ cs)
        /\ (gs_scale scaler' < 65536)%Q).
Proof.
  apply (train_batch_overflow_skips Toy.rt Toy.cfg (VStr "cpu") Toy.batch_inf
           Toy.model0 Toy.optim0 Toy.scaler_on
           (Toy.world1 (Toy.cfg_content "cpu" 2) ∅ true)).
  - reflexivity.
  - reflexivity.
Defined.

(** The claim of C3 without the condition on the scaler fails: a
    configuration without [use_amp] gives a disabled scaler (here on a
    machine with CUDA), and on a batch whose gradient is not finite the
    optimizer step is made all the same: the parameter becomes NaN and the
    scale factor stays 65536. *)
Lemma overflow_without_amp_steps :
  let w := Toy.world1 (Toy.cfg_content "cuda" 2) ∅ true in
  let r := train_batch Toy.rt Toy.cfg (VStr "cuda") Toy.batch_inf Toy.model0
             Toy.optim0 Toy.scaler_off w in
  (use_amp_of Toy.cfg w = VBool false
   /\ GradScaler_init Toy.rt (use_amp_of Toy.cfg w) w = (Ok Toy.scaler_off, w))
  /\ has_inf_or_nan Toy.rt
       (step_gradient (VStr "cuda") (VBool false) Toy.batch_inf Toy.model0
          Toy.scaler_off) = true
  /\ r.1 = Ok (0%Q, (2 # 2)%Q, Build_Model Toy.rt None None true None,
              Toy.optim0, Toy.scaler_off)
  /\ (None : option Q) <> m_params Toy.model0
  /\ calls r.2
     = [CTensorTo (VStr "cuda"); CTensorTo (VStr "cuda");
        CAutocastEnter {| ac_device_type := VStr "cuda"; ac_enabled := VBool false |};
        CForward; CCrossEntropy; CAutocastExit; CScaleLoss; CBackward;
        CScalerStep; COptimizerStep; CScalerUpdate; CZeroGrad; CArgmax]
  /\ ~ (gs_scale Toy.scaler_off < gs_scale Toy.scaler_off)%Q.
Proof.
  split; [split; reflexivity|]. split; [reflexivity|].
  split; [reflexivity|]. split; [discriminate|]. split; [reflexivity|].
  apply Qlt_irrefl.
Qed.

(** C4, as the code has it.  Neither runner guards the division by the
    batch count: given an empty batch sequence (and a configured device)
    both raise Python's generic [ZeroDivisionError] at the mean
    computation, after touching nothing but the call log. *)
Theorem empty_loader_raises_zero_division (RT : Runtime) cfg model optimizer
    scaler (w : World (Params RT) (OptState RT)) d dev :
  heap w !! cfg = Some d ->
  d !! "device" = Some dev ->
  (exists cs,
     train RT cfg [] model optimizer scaler w
     = (Raise ZeroDivisionError, set_calls RT (calls w ++ cs) w))
  /\ (exists cs,
        validate RT cfg [] model w
        = (Raise ZeroDivisionError, set_calls RT (calls w ++ cs) w)).
Proof.
  intros Hc Hd. split.
  - destruct (train_run RT cfg [] model optimizer scaler w d dev Hc Hd) as (cs & E).
    by exists cs.
  - destruct (validate_run RT cfg [] model w d dev Hc Hd) as (cs & E).
    by exists cs.
Qed.

Lemma empty_loader_raises_zero_division_witness :
  (exists cs,
     train Toy.rt Toy.cfg [] Toy.model0 Toy.optim0 Toy.scaler_off
       (Toy.world1 (Toy.cfg_content "cpu" 2) ∅ false)
     = (Raise ZeroDivisionError,
        set_calls Toy.rt cs (Toy.world1 (Toy.cfg_content "cpu" 2) ∅ false)))
  /\ (exists cs,
        validate Toy.rt Toy.cfg [] Toy.model0
          (Toy.world1 (Toy.cfg_content "cpu" 2) ∅ false)
        = (Raise ZeroDivisionError,
           set_calls Toy.rt cs (Toy.world1 (Toy.cfg_content "cpu" 2) ∅ false))).
Proof.
  apply (empty_loader_raises_zero_division Toy.rt Toy.cfg Toy.model0 Toy.optim0
           Toy.scaler_off (Toy.world1 (Toy.cfg_content "cpu" 2) ∅ false)
           (Toy.cfg_content "cpu" 2) (VStr "cpu")).
  - reflexivity.
  - reflexivity.
Defined.

(** The claim of C4 fails: on an empty loader the error either runner
    raises is no distinct empty-input error, it is the division's own
    [ZeroDivisionError]. *)
Lemma empty_loader_error_not_distinct :
  let w := Toy.world1 (Toy.cfg_content "cpu" 2) ∅ false in
  ~ (exists e, e <> ZeroDivisionError
       /\ (train Toy.rt Toy.cfg [] Toy.model0 Toy.optim0 Toy.scaler_off w).1
          = Raise e)
  /\ ~ (exists e, e <> ZeroDivisionError
          /\ (validate Toy.rt Toy.cfg [] Toy.model0 w).1 = Raise e).
Proof.
  intros w.
  assert (Et : (train Toy.rt Toy.cfg [] Toy.model0 Toy.optim0 Toy.scaler_off w).1
               = Raise ZeroDivisionError) by reflexivity.
  assert (Ev : (validate Toy.rt Toy.cfg [] Toy.model0 w).1
               = Raise ZeroDivisionError) by reflexivity.
  split; intros (e & Hne & E).
  - rewrite Et in E. by injection E as <-.
  - rewrite Ev in E. by injection E as <-.
Qed.

(** ** The seeding utility *)

(** C5, as the code has it.  With a seed, [init_seed] seeds the host
    generator, the torch generator and the accelerator generator with it
    and sets both cuDNN flags: [deterministic] to [True] and [benchmark]
    to [True], so kernel auto-tuning is switched on, not off.  Nothing
    else of the process state changes.  Without a seed the call changes
    nothing at all. *)
Theorem init_seed_sets_seeds_and_flags (RT : Runtime) seed
    (w : World (Params RT) (OptState RT)) :
  exists w',
    init_seed RT seed w = (Ok tt, w')
    /\ match seed with
       | VNone => w' = w
       | _ =>
           random_seed w' = Some seed
           /\ torch_seed w' = Some seed
           /\ torch_cuda_seed w' = Some seed
           /\ cudnn_deterministic w' = true
           /\ cudnn_benchmark w' = true
           /\ heap w' = heap w /\ fs w' = fs w
           /\ cuda_is_available w' = cuda_is_available w
           /\ calls w' = calls w
       end.
Proof. destruct seed; simpl; eexists; (split; [reflexivity|]); simpl; auto 10. Qed.

(** The claim of C5 fails on the auto-tuning: after seeding with 42 the
    [benchmark] flag, which turns cuDNN's kernel auto-tuner on, is [True]. *)
Lemma init_seed_turns_benchmark_on :
  let w' := (init_seed Toy.rt (VInt 42) (Toy.world0 ∅ true)).2 in
  cudnn_benchmark (Toy.world0 ∅ true) = false
  /\ cudnn_benchmark w' = true
  /\ cudnn_benchmark w' <> false.
Proof. split; [reflexivity|]. split; [reflexivity|discriminate]. Qed.

(** ** The configuration *)

(** C6, as the code has it.  The configuration object is written to once
    after it is loaded: the device check of [main] sets
    [cfg['device'] = 'cpu'] when a device other than ['cpu'] is configured
    and CUDA is not available.  Whatever else happens in [main] (seeding,
    loader creation, model, optimizer and scaler setup, the epoch runners,
    checkpoint saves, an exception), the object ends as the loaded mapping
    with at most that one key replaced. *)
Theorem main_writes_cfg_for_device_fallback_only (RT : Runtime) fuel config
    (w : World (Params RT) (OptState RT)) d :
  fs w !! config = Some (FYaml d) ->
  heap (main RT fuel config w).2 !! fresh (dom (heap w))
  = Some (device_fallback (cuda_is_available w) d)
  /\ (forall k, k <> "device" ->
        device_fallback (cuda_is_available w) d !! k = d !! k)
  /\ (cuda_is_available w = true -> device_fallback (cuda_is_available w) d = d)
  /\ (d !! "device" = Some (VStr "cpu") ->
      device_fallback (cuda_is_available w) d = d).
Proof.
  intros Hf. split; [by apply main_cfg_after|].
  unfold device_fallback. split; [|split].
  - intros k Hk. destruct (d !! "device"); [|done].
    destruct (_ && _); [|done]. by rewrite lookup_insert_ne.
  - intros ->. destruct (d !! "device"); [|done]. by rewrite andb_false_r.
  - intros ->. done.
Qed.

Lemma main_writes_cfg_for_device_fallback_only_witness :
  let w := Toy.world0 {["cfg.yaml" := FYaml (Toy.cfg_content "cpu" 1)]} false in
  heap (main Toy.rt 1 "cfg.yaml" w).2 !! fresh (dom (heap w))
  = Some (device_fallback (cuda_is_available w) (Toy.cfg_content "cpu" 1))
  /\ (forall k, k <> "device" ->
        device_fallback (cuda_is_available w) (Toy.cfg_content "cpu" 1) !! k
        = Toy.cfg_content "cpu" 1 !! k)
  /\ (cuda_is_available w = true ->
      device_fallback (cuda_is_available w) (Toy.cfg_content "cpu" 1)
      = Toy.cfg_content "cpu" 1)
  /\ (Toy.cfg_content "cpu" 1 !! "device" = Some (VStr "cpu") ->
      device_fallback (cuda_is_available w) (Toy.cfg_content "cpu" 1)
      = Toy.cfg_content "cpu" 1).
Proof.
  intros w.
  apply (main_writes_cfg_for_device_fallback_only Toy.rt 1 "cfg.yaml" w
           (Toy.cfg_content "cpu" 1)).
  reflexivity.
Defined.

(** The claim of C6 fails: with [device: cuda] configured and CUDA not
    available, the configuration object after [main] maps ['device'] to
    ['cpu'], not to the loaded ['cuda']. *)
Lemma main_rewrites_device :
  let d := Toy.cfg_content "cuda" 0 in
  let w := Toy.world0 {["cfg.yaml" := FYaml d]} false in
  d !! "device" = Some (VStr "cuda")
  /\ heap (main Toy.rt 0 "cfg.yaml" w).2 !! fresh (dom (heap w))
     = Some (<["device" := VStr "cpu"]> d)
  /\ <["device" := VStr "cpu"]> d <> d.
Proof.
  intros d w. split; [reflexivity|]. split.
  - rewrite (main_cfg_after Toy.rt 0 "cfg.yaml" w d eq_refl). reflexivity.
  - intros E. apply (f_equal (fun m => m !! "device")) in E.
    rewrite lookup_insert_eq in E. discriminate.
Qed.

(** ** The validation epoch runner *)

(** C7, evaluated on the code.  The runtime calls of a training batch,
    those of the gradient machinery left out, and the calls of a
    validation batch are not the same pipeline: training enters
    [autocast] for the configured device and computes the loss inside the
    block; validation enters [autocast] for ['cuda'], whatever device is
    configured, and computes the loss after the block has been left. *)
Theorem validate_pipeline_differs (RT : Runtime) cfg device b model optimizer
    scaler (w : World (Params RT) (OptState RT)) :
  let ua := use_amp_of cfg w in
  let ct := train_batch_calls device ua (negb (step_skipped device ua b model scaler)) in
  let cv := validate_batch_calls device ua in
  (train_batch RT cfg device b model optimizer scaler w).2
  = set_calls RT (calls w ++ ct) w
  /\ validate_batch RT cfg device b model w
     = (Ok (cross_entropy RT None
              (forward RT (m_training model)
                 (Some {| ac_device_type := VStr "cuda"; ac_enabled := ua |})
                 (m_params model) b.1) b.2,
            overall_accuracy
              (forward RT (m_training model)
                 (Some {| ac_device_type := VStr "cuda"; ac_enabled := ua |})
                 (m_params model) b.1) b.2),
        set_calls RT (calls w ++ cv) w)
  /\ List.filter (fun c => negb (gradient_call c)) ct
     = [CTensorTo device; CTensorTo device;
        CAutocastEnter {| ac_device_type := device; ac_enabled := ua |};
        CForward; CCrossEntropy; CAutocastExit; CArgmax]
  /\ cv
     = [CTensorTo device; CTensorTo device;
        CAutocastEnter {| ac_device_type := VStr "cuda"; ac_enabled := ua |};
        CForward; CAutocastExit; CCrossEntropy; CArgmax]
  /\ List.filter (fun c => negb (gradient_call c)) ct <> cv.
Proof.
  intros ua ct cv.
  split; [by rewrite train_batch_run|].
  split; [by rewrite validate_batch_run|].
  assert (Hct : List.filter (fun c => negb (gradient_call c)) ct
                = [CTensorTo device; CTensorTo device;
                   CAutocastEnter {| ac_device_type := device; ac_enabled := ua |};
                   CForward; CCrossEntropy; CAutocastExit; CArgmax]).
  { subst ct. unfold train_batch_calls. by destruct (negb _). }
  split; [done|]. split; [done|].
  rewrite Hct. subst cv. unfold validate_batch_calls. intros E.
  by simplify_eq.
Qed.

(** On a CPU run with mixed precision switched on, validation still asks
    for the CUDA autocast context, and computes the loss outside of it. *)
Example validate_autocast_on_cpu :
  let w := Toy.world1 (<["use_amp" := VBool true]> (Toy.cfg_content "cpu" 2)) ∅ false in
  calls (validate_batch Toy.rt Toy.cfg (VStr "cpu") Toy.batch_right Toy.model0 w).2
  = [CTensorTo (VStr "cpu"); CTensorTo (VStr "cpu");
     CAutocastEnter {| ac_device_type := VStr "cuda"; ac_enabled := VBool true |};
     CForward; CAutocastExit; CCrossEntropy; CArgmax]
  /\ List.filter (fun c => negb (gradient_call c))
       (calls (train_batch Toy.rt Toy.cfg (VStr "cpu") Toy.batch_right Toy.model0
                 Toy.optim0 Toy.scaler_off w).2)
     = [CTensorTo (VStr "cpu"); CTensorTo (VStr "cpu");
        CAutocastEnter {| ac_device_type := VStr "cpu"; ac_enabled := VBool true |};
        CForward; CCrossEntropy; CAutocastExit; CArgmax].
Proof. split; reflexivity. Qed.

(** C8. A validation epoch never changes the parameters of the model:
    whenever [validate] returns, the model it leaves has the parameters it
    was given, and validating once more on the same batches returns the
    same loss and the same accuracy.  It does return when a device is
    configured and there is a batch. *)
Theorem validate_keeps_parameters (RT : Runtime) cfg dl model
    (w : World (Params RT) (OptState RT)) :
  (forall loss oa model',
     (validate RT cfg dl model w).1 = Ok (loss, oa, model') ->
     m_params model' = m_params model
     /\ exists model'',
          (validate RT cfg dl model' (validate RT cfg dl model w).2).1
          = Ok (loss, oa, model'')
          /\ m_params model'' = m_params model)
  /\ (forall d dev,
        heap w !! cfg = Some d -> d !! "device" = Some dev -> dl <> [] ->
        exists loss oa model',
          (validate RT cfg dl model w).1 = Ok (loss, oa, model')).
Proof.
  split.
  - intros loss oa model' E.
    destruct (heap w !! cfg) as [d|] eqn:Hc;
      [destruct (d !! "device") as [dev|] eqn:Hd|].
    + destruct (validate_run RT cfg dl model w d dev Hc Hd) as (cs & E1).
      rewrite E1 in E |- *. simpl in E.
      destruct dl as [|b rest]; [done|]. injection E as <- <- <-.
      split; [done|].
      destruct (validate_run RT cfg (b :: rest) (model_in_mode false dev model)
                  (set_calls RT (calls w ++ cs) w) d dev Hc Hd) as (cs2 & E2).
      simpl. rewrite E2. by eexists.
    + unfold validate in E. rewrite bind_eq in E. unfold dict_getitem in E.
      rewrite Hc in E. simpl in E. by rewrite Hd in E.
    + unfold validate in E. rewrite bind_eq in E. unfold dict_getitem in E.
      by rewrite Hc in E.
  - intros d dev Hc Hd Hdl.
    destruct (validate_run RT cfg dl model w d dev Hc Hd) as (cs & E).
    rewrite E. destruct dl; [done|]. simpl. by do 3 eexists.
Qed.

Lemma validate_keeps_parameters_witness :
  let w := Toy.world1 (Toy.cfg_content "cpu" 2) ∅ false in
  exists loss oa model',
    (validate Toy.rt Toy.cfg Toy.four_batches Toy.model0 w).1
    = Ok (loss, oa, model')
    /\ m_params model' = m_params Toy.model0
    /\ exists model'',
         (validate Toy.rt Toy.cfg Toy.four_batches model'
            (validate Toy.rt Toy.cfg Toy.four_batches Toy.model0 w).2).1
         = Ok (loss, oa, model'')
         /\ m_params model'' = m_params Toy.model0.
Proof.
  intros w.
  destruct (validate_keeps_parameters Toy.rt Toy.cfg Toy.four_batches
              Toy.model0 w) as [H1 H2].
  destruct (H2 (Toy.cfg_content "cpu" 2) (VStr "cpu") eq_refl eq_refl
              ltac:(discriminate)) as (loss & oa & model' & E).
  exists loss, oa, model'. split; [exact E|]. exact (H1 loss oa model' E).
Defined.

(** ** Means *)

Lemma train_values_length (RT : Runtime) device ua dl :
  forall model optimizer scaler,
    length (train_values (RT:=RT) device ua dl model optimizer scaler) = length dl.
Proof.
  induction dl as [|b rest IH]; intros; simpl; [done|].
  destruct (train_batch_result _ _ _ _ _ _) as [[[[l a] m'] o'] s'].
  simpl. by rewrite IH.
Qed.

(** C9. On a non-empty batch sequence (and with a device configured)
    either runner returns the sums of the per-batch losses and of the
    per-batch accuracies, divided by the number of batches: the arithmetic
    means of the per-batch values. *)
Theorem epoch_means (RT : Runtime) cfg dl model optimizer scaler
    (w : World (Params RT) (OptState RT)) d dev :
  heap w !! cfg = Some d ->
  d !! "device" = Some dev ->
  dl <> [] ->
  let ua := use_amp_of cfg w in
  let n := inject_Z (Z.of_nat (length dl)) in
  let tv := train_values dev ua dl (model_in_mode true dev model) optimizer scaler in
  let vv := map (validate_batch_values ua (model_in_mode false dev model)) dl in
  (length tv = length dl
   /\ exists loss oa model' optimizer' scaler',
        (train RT cfg dl model optimizer scaler w).1
        = Ok (loss, oa, model', optimizer', scaler')
        /\ (loss == Qsum (map fst tv) / n)%Q
        /\ (oa == Qsum (map snd tv) / n)%Q)
  /\ (length vv = length dl
      /\ exists loss oa model',
           (validate RT cfg dl model w).1 = Ok (loss, oa, model')
           /\ (loss == Qsum (map fst vv) / n)%Q
           /\ (oa == Qsum (map snd vv) / n)%Q).
Proof.
  intros Hc Hd Hdl ua n tv vv. split.
  - split; [apply train_values_length|].
    destruct (train_run RT cfg dl model optimizer scaler w d dev Hc Hd) as (cs & E).
    rewrite E. destruct dl as [|b rest]; [done|]. cbn [fst].
    do 5 eexists. split; [reflexivity|].
    split; unfold Qdiv; (apply Qmult_comp; [|reflexivity]);
      (etransitivity; [apply fold_left_Qplus|apply Qplus_0_l]).
  - split; [apply length_map|].
    destruct (validate_run RT cfg dl model w d dev Hc Hd) as (cs & E).
    rewrite E. destruct dl as [|b rest]; [done|]. cbn [fst].
    do 3 eexists. split; [reflexivity|].
    split; unfold Qdiv; (apply Qmult_comp; [|reflexivity]);
      (etransitivity; [apply fold_left_Qplus|apply Qplus_0_l]).
Qed.

(** Four batches with accuracies 1.0, 0.5, 0.5 and 1.0 validate to the
    mean accuracy 0.75. *)
Lemma epoch_means_witness :
  let w := Toy.world1 (Toy.cfg_content "cpu" 2) ∅ false in
  let vv := map (validate_batch_values (use_amp_of Toy.cfg w)
                   (model_in_mode false (VStr "cpu") Toy.model0))
              Toy.four_batches in
  Forall2 Qeq (map snd vv) [1; 1 # 2; 1 # 2; 1]%Q
  /\ exists loss oa model',
       (validate Toy.rt Toy.cfg Toy.four_batches Toy.model0 w).1
       = Ok (loss, oa, model')
       /\ (oa == 3 # 4)%Q.
Proof.
  intros w vv. split.
  - repeat constructor.
  - destruct (epoch_means Toy.rt Toy.cfg Toy.four_batches Toy.model0 Toy.optim0
                Toy.scaler_off w (Toy.cfg_content "cpu" 2) (VStr "cpu")
                eq_refl eq_refl ltac:(discriminate))
      as [_ [_ (loss & oa & model' & E & _ & Ha)]].
    exists loss, oa, model'. split; [exact E|].
    eapply Qeq_trans; [exact Ha|]. reflexivity.
Defined.

(** ** Saving a checkpoint *)

(** C10. [save_model] writes to the dictionary object its caller hands
    it: after the call that object maps ['model'], ['optim'] and
    ['scaler'] to the three state dictionaries, next to every other entry
    it held; for the dictionary of [main] these are the four statistics. *)
Theorem save_model_mutates_stats (RT : Runtime) cfg epoch model optim scaler
    stats (w : World (Params RT) (OptState RT)) d0 :
  heap w !! stats = Some d0 ->
  let r := save_model RT cfg epoch model optim scaler stats w in
  let d1 := saved_stats model optim scaler d0 in
  r.1 = Ok tt
  /\ heap r.2 !! stats = Some d1
  /\ d1 !! "model" = Some (VModelState (m_params model))
  /\ d1 !! "optim"
     = Some (VOptimState (o_lr optim) (o_weight_decay optim) (o_state optim))
  /\ d1 !! "scaler" = Some (VScalerState (scaler_state_dict scaler))
  /\ (forall k, k <> "model" -> k <> "optim" -> k <> "scaler" -> d1 !! k = d0 !! k)
  /\ (forall loss_train loss_val oa_train oa_val,
        d0 = epoch_stats loss_train loss_val oa_train oa_val ->
        d1 !! "loss_train" = Some (VFloat loss_train)
        /\ d1 !! "loss_val" = Some (VFloat loss_val)
        /\ d1 !! "oa_train" = Some (VFloat oa_train)
        /\ d1 !! "oa_val" = Some (VFloat oa_val)
        /\ dom d1 = {[ "loss_train"; "loss_val"; "oa_train"; "oa_val";
                       "model"; "optim"; "scaler" ]}).
Proof.
  intros Hs r d1.
  destruct (save_model_effect RT cfg epoch model optim scaler stats w)
    as (w' & E & Hh & _).
  subst r. rewrite E. simpl. rewrite Hh, Hs. simpl.
  split; [done|]. split; [apply lookup_insert_eq|].
  subst d1. unfold saved_stats.
  split; [by simplify_map_eq|]. split; [by simplify_map_eq|].
  split; [by simplify_map_eq|].
  split; [intros k ? ? ?; by rewrite !lookup_insert_ne|].
  intros lt lv at_ av ->. unfold epoch_stats.
  repeat (split; [by simplify_map_eq|]).
  rewrite !dom_insert_L, dom_empty_L. set_solver.
Qed.

Lemma save_model_mutates_stats_witness :
  let d0 := epoch_stats (RT:=Toy.rt) (1 # 2) 0 (3 # 4) 1 in
  let w := Toy.world1 d0 ∅ false in
  let r := save_model Toy.rt 2%positive 1 Toy.model0 Toy.optim0 Toy.scaler_off
             Toy.cfg w in
  r.1 = Ok tt
  /\ heap r.2 !! Toy.cfg = Some (saved_stats Toy.model0 Toy.optim0 Toy.scaler_off d0).
Proof.
  intros d0 w r.
  destruct (save_model_mutates_stats Toy.rt 2%positive 1 Toy.model0 Toy.optim0
              Toy.scaler_off Toy.cfg w d0 eq_refl) as (H1 & H2 & _).
  split; [exact H1|exact H2].
Defined.

(** * Further properties of the code *)

(** ** The checkpoint store *)

Section Store.

Context (RT : Runtime).

Abbreviation val := (value (Params RT) (OptState RT)).
Abbreviation dict := (gmap string (value (Params RT) (OptState RT))).
Abbreviation world := (World (Params RT) (OptState RT)).
Abbreviation Py := (M (World (Params RT) (OptState RT))).
Abbreviation callT := (call (Params RT) (OptState RT)).
Abbreviation batch := (Data RT * list Z)%type.
Abbreviation files := (gmap string (file (Params RT) (OptState RT))).

Lemma checkpoint_path_inj e1 e2 :
  checkpoint_path e1 = checkpoint_path e2 -> e1 = e2.
Proof.
  intros E. pose proof (epoch_of_checkpoint_path e1) as H1.
  rewrite E, epoch_of_checkpoint_path in H1. by injection H1.
Qed.

Lemma elem_of_glob_of (f : files) p :
  p ∈ glob_of f <-> is_Some (f !! p) /\ matches_pattern p = true.
Proof.
  unfold glob_of. rewrite list_elem_of_In, List.filter_In, in_map_iff. split.
  - intros [([q x] & E & Hin) Hm]. simpl in E. subst q. split; [|done].
    apply list_elem_of_In, elem_of_map_to_list in Hin. eauto.
  - intros [[x Hx] Hm]. split; [|done]. exists (p, x). split; [done|].
    by apply list_elem_of_In, elem_of_map_to_list.
Qed.

(** A list of checkpoint paths is the list of the paths of its numbers. *)
Lemma checkpoint_paths_ids (l : list string) (P : Z -> Prop) :
  Forall (fun p => exists i, p = checkpoint_path i /\ P i) l ->
  exists ids, l = map checkpoint_path ids /\ Forall P ids.
Proof.
  induction 1 as [|p l (i & -> & Hi) _ (ids & -> & Hids)].
  - by exists [].
  - exists (i :: ids). split; [done|]. by constructor.
Qed.

Lemma latest_of_max ids e :
  e ∈ ids -> (forall x, x ∈ ids -> x <= e) -> latest_of ids = Some e.
Proof.
  intros He Hmax. destruct (latest_of ids) as [m|] eqn:E.
  - destruct (latest_of_spec ids m E) as [Hm Hle].
    f_equal. specialize (Hmax m Hm). specialize (Hle e He). lia.
  - destruct ids; [by apply elem_of_nil in He|done].
Qed.

(** What [save_model] leaves in the store. *)
Lemma save_model_fs cfg epoch model optim scaler stats (w : world) :
  let w' := (save_model RT cfg epoch model optim scaler stats w).2 in
  let f1 := <[checkpoint_path epoch :=
              FPickle (saved_stats model optim scaler (default ∅ (heap w !! stats)))]>
            (fs w) in
  fs w' = match fs w !! config_snapshot_path with
          | Some _ => f1
          | None => <[config_snapshot_path := FYaml (default ∅ (heap w' !! cfg))]> f1
          end.
Proof.
  unfold save_model, dict_setitem, torch_save, log, modify, dict_snapshot, gets.
  rewrite !bind_eq. simpl.
  rewrite lookup_insert_ne by (intros E; by apply (checkpoint_path_not_config epoch)).
  unfold config_snapshot_path.
  destruct (fs w !! "model_states/config.yaml") as [f|] eqn:Ef.
  - rewrite bool_decide_eq_true_2 by eauto. simpl.
    rewrite !lookup_insert_eq. simpl. by rewrite ?insert_insert_eq.
  - rewrite bool_decide_eq_false_2 by (by intros [? ?]). simpl.
    rewrite !lookup_insert_eq. simpl. by rewrite ?insert_insert_eq.
Qed.

Lemma save_model_seed_state cfg epoch model optim scaler stats (w : world) :
  seed_state (save_model RT cfg epoch model optim scaler stats w).2 = seed_state w.
Proof.
  unfold save_model, dict_setitem, torch_save, log, modify, dict_snapshot, gets.
  rewrite !bind_eq. simpl.
  by destruct (bool_decide _).
Qed.

(** *** Resuming, with the objects it returns *)

Lemma load_prefix cfg (w : world) c nc lr wd :
  heap w !! cfg = Some c ->
  c !! "num_classes" = Some nc ->
  c !! "learning_rate" = Some lr ->
  c !! "weight_decay" = Some wd ->
  load_model_optim_scaler RT cfg w
  = (if negb (length (glob_of (fs w)) =? 0)%nat then
       model_epochs ← model_epochs_of RT (glob_of (fs w));
       start_epoch ← py_max RT model_epochs;
       state ← torch_load RT (checkpoint_path start_epoch);
       sm ← state_getitem RT state "model";
       model_instance ← model_load_state_dict RT (fresh_model nc) sm;
       so ← state_getitem RT state "optim";
       optim ← optim_load_state_dict RT (fresh_optimizer lr wd) so;
       ss ← state_getitem RT state "scaler";
       scaler ← scaler_load_state_dict RT (fresh_scaler (amp_enabled cfg w)) ss;
       mret (model_instance, optim, scaler, start_epoch)
     else
       mret (fresh_model nc, fresh_optimizer lr wd,
             fresh_scaler (amp_enabled cfg w), 0)) w.
Proof.
  intros Hc Hnc Hlr Hwd.
  unfold load_model_optim_scaler. rewrite bind_eq.
  rewrite (dict_getitem_run _ _ _ _ _ _ Hc Hnc).
  rewrite bind_eq. unfold glob_model_states, gets.
  rewrite bind_eq. unfold setup_optimizer. rewrite bind_eq.
  rewrite (dict_getitem_run _ _ _ _ _ _ Hc Hlr), bind_eq.
  rewrite (dict_getitem_run _ _ _ _ _ _ Hc Hwd). simpl.
  rewrite bind_eq, dict_get_run.
  rewrite bind_eq. unfold GradScaler_init. rewrite bind_eq. simpl.
  reflexivity.
Qed.

Lemma load_fresh cfg (w : world) c nc lr wd :
  heap w !! cfg = Some c ->
  c !! "num_classes" = Some nc ->
  c !! "learning_rate" = Some lr ->
  c !! "weight_decay" = Some wd ->
  glob_of (fs w) = [] ->
  load_model_optim_scaler RT cfg w
  = (Ok (fresh_model nc, fresh_optimizer lr wd, fresh_scaler (amp_enabled cfg w), 0), w).
Proof.
  intros Hc Hnc Hlr Hwd Hg.
  rewrite (load_prefix _ _ _ _ _ _ Hc Hnc Hlr Hwd), Hg. reflexivity.
Qed.

Lemma load_state cfg (w : world) c nc lr wd ids e b p p' lr' wd' st sd :
  heap w !! cfg = Some c ->
  c !! "num_classes" = Some nc ->
  c !! "learning_rate" = Some lr ->
  c !! "weight_decay" = Some wd ->
  glob_of (fs w) = map checkpoint_path ids ->
  latest_of ids = Some e ->
  fs w !! checkpoint_path e = Some (FPickle b) ->
  b !! "model" = Some (VModelState p) ->
  load_params RT (new_model RT nc) p = Some p' ->
  b !! "optim" = Some (VOptimState lr' wd' st) ->
  b !! "scaler" = Some (VScalerState sd) ->
  (amp_enabled cfg w = true -> is_Some sd) ->
  load_model_optim_scaler RT cfg w
  = (Ok ({| m_params := p'; m_grad := None; m_training := true; m_device := None |},
         {| o_lr := lr'; o_weight_decay := wd'; o_state := st |},
         restored_scaler (amp_enabled cfg w) sd, e),
     set_calls RT (calls w ++ [CTorchLoad (checkpoint_path e)]) w).
Proof.
  intros Hc Hnc Hlr Hwd Hg He Hf Hm Hp Ho Hs Hsd.
  rewrite (load_prefix _ _ _ _ _ _ Hc Hnc Hlr Hwd), Hg.
  destruct ids as [|x r]; [done|].
  change ((length (map checkpoint_path (x :: r)) =? 0)%nat) with false.
  cbv [negb]. cbv beta iota.
  rewrite bind_eq, model_epochs_of_paths. rewrite bind_eq.
  simpl in He. injection He as He. simpl. rewrite He.
  rewrite bind_eq. unfold torch_load, log, modify, gets. rewrite !bind_eq. simpl.
  rewrite Hf. simpl.
  unfold state_getitem. rewrite Hm, Ho, Hs.
  rewrite bind_eq. simpl. rewrite Hp.
  rewrite !bind_eq. simpl.
  rewrite !bind_eq. simpl.
  unfold scaler_load_state_dict, restored_scaler. simpl.
  destruct (amp_enabled cfg w) eqn:En.
  - destruct (Hsd eq_refl) as [sd' ->]. reflexivity.
  - reflexivity.
Qed.






Lemma saved_stats_model model optim scaler (stats : dict) :
  saved_stats model optim scaler stats !! "model" = Some (VModelState (m_params model)).
Proof.
  unfold saved_stats. rewrite !lookup_insert_ne by done. apply lookup_insert_eq.
Qed.

Lemma saved_stats_optim model optim scaler (stats : dict) :
  saved_stats model optim scaler stats !! "optim"
  = Some (VOptimState (o_lr optim) (o_weight_decay optim) (o_state optim)).
Proof.
  unfold saved_stats. rewrite !lookup_insert_ne by done. apply lookup_insert_eq.
Qed.

Lemma saved_stats_scaler model optim scaler (stats : dict) :
  saved_stats model optim scaler stats !! "scaler"
  = Some (VScalerState (scaler_state_dict scaler)).
Proof. unfold saved_stats. apply lookup_insert_eq. Qed.

Lemma saved_stats_other model optim scaler (stats : dict) k :
  k <> "model" -> k <> "optim" -> k <> "scaler" ->
  saved_stats model optim scaler stats !! k = stats !! k.
Proof. intros. unfold saved_stats. by rewrite !lookup_insert_ne. Qed.

(** The scaler survives a round trip through its state dictionary. *)
Lemma restored_scaler_state_dict (scaler : GradScaler) :
  restored_scaler (gs_enabled scaler) (scaler_state_dict scaler)
  = if gs_enabled scaler then scaler else fresh_scaler false.
Proof. destruct scaler as [[] ? ? ? ? ?]; reflexivity. Qed.

Lemma amp_enabled_heap cfg (w w' : world) :
  heap w' !! cfg = heap w !! cfg ->
  cuda_is_available w' = cuda_is_available w ->
  amp_enabled cfg w' = amp_enabled cfg w.
Proof. unfold amp_enabled, use_amp_of. by intros -> ->. Qed.

(** The store after [save_model] holds the checkpoints it held and the one
    saved. *)
Lemma save_model_glob cfg epoch model optim scaler stats (w : world) p :
  p ∈ glob_of (fs (save_model RT cfg epoch model optim scaler stats w).2)
  <-> p = checkpoint_path epoch \/ p ∈ glob_of (fs w).
Proof.
  rewrite !elem_of_glob_of. pose proof (save_model_fs cfg epoch model optim scaler stats w) as E.
  simpl in E. rewrite E. clear E.
  assert (Hcf : matches_pattern config_snapshot_path = false) by reflexivity.
  destruct (decide (p = checkpoint_path epoch)) as [->|Hne].
  - split; [by left|]. intros _. split; [|apply checkpoint_path_matches].
    destruct (fs w !! config_snapshot_path).
    + rewrite lookup_insert_eq. eauto.
    + rewrite lookup_insert_ne by (intros H; by apply (checkpoint_path_not_config epoch)).
      rewrite lookup_insert_eq. eauto.
  - destruct (decide (p = config_snapshot_path)) as [->|Hnc].
    + rewrite Hcf. split; [by intros [_ ?]|]. intros [?|[_ ?]]; done.
    + destruct (fs w !! config_snapshot_path).
      * rewrite lookup_insert_ne by done. split; [by right|]. by intros [?|?].
      * rewrite !lookup_insert_ne by done. split; [by right|]. by intros [?|?].
Qed.

Lemma save_model_snapshot cfg epoch model optim scaler stats (w : world) :
  stats <> cfg ->
  fs (save_model RT cfg epoch model optim scaler stats w).2 !! config_snapshot_path
  = match fs w !! config_snapshot_path with
    | Some f => Some f
    | None => Some (FYaml (default ∅ (heap w !! cfg)))
    end.
Proof.
  intros Hne.
  pose proof (save_model_fs cfg epoch model optim scaler stats w) as E.
  simpl in E. rewrite E.
  destruct (save_model_effect RT cfg epoch model optim scaler stats w)
    as (w' & E' & Hh & _).
  rewrite E'. simpl. rewrite Hh.
  destruct (fs w !! config_snapshot_path) as [f|] eqn:Ef.
  - by rewrite lookup_insert_ne by apply checkpoint_path_not_config.
  - rewrite lookup_insert_eq. by rewrite lookup_insert_ne.
Qed.

Lemma save_model_other_files cfg epoch model optim scaler stats (w : world) p :
  p <> checkpoint_path epoch ->
  p <> config_snapshot_path ->
  fs (save_model RT cfg epoch model optim scaler stats w).2 !! p = fs w !! p.
Proof.
  intros H1 H2.
  pose proof (save_model_fs cfg epoch model optim scaler stats w) as E.
  simpl in E. rewrite E.
  destruct (fs w !! config_snapshot_path); by rewrite !lookup_insert_ne.
Qed.

End Store.

(** X1. Checkpoints of different epochs have different file names
    (lines 67 and 90): no epoch overwrites the checkpoint of another one,
    whatever the sign of the numbers. *)
Theorem checkpoint_names_distinct (e1 e2 : Z) :
  e1 <> e2 -> checkpoint_path e1 <> checkpoint_path e2.
Proof. intros Hne E. by apply Hne, (checkpoint_path_inj e1 e2). Qed.

Lemma checkpoint_names_distinct_witness :
  checkpoint_path 1 <> checkpoint_path 10.
Proof. apply (checkpoint_names_distinct 1 10). lia. Defined.

(** X2. After [save_model] the pattern of the resume logic
    (['model_states/*.pt'], line 50) finds the checkpoint just saved and
    every checkpoint it found before, nothing else; the configuration
    snapshot [save_model] leaves next to them is never taken for a
    checkpoint. *)
Theorem saved_checkpoint_found_by_glob (RT : Runtime) cfg epoch model optim scaler
    stats (w : World (Params RT) (OptState RT)) :
  let w' := (save_model RT cfg epoch model optim scaler stats w).2 in
  (forall p, p ∈ glob_of (fs w') <-> p = checkpoint_path epoch \/ p ∈ glob_of (fs w))
  /\ is_Some (fs w' !! config_snapshot_path)
  /\ config_snapshot_path ∉ glob_of (fs w').
Proof.
  intros w'. split; [intros p; apply save_model_glob|].
  pose proof (save_model_fs RT cfg epoch model optim scaler stats w) as E.
  simpl in E. fold w' in E. split.
  - rewrite E. destruct (fs w !! config_snapshot_path) as [f|] eqn:Ef.
    + rewrite lookup_insert_ne by apply checkpoint_path_not_config. eauto.
    + rewrite lookup_insert_eq. eauto.
  - rewrite elem_of_glob_of. by intros [_ ?].
Qed.

(** X3. [save_model] writes the configuration snapshot once (lines
    93-96): a snapshot that exists is left as it is, also when the
    configuration has changed since; without one the snapshot holds the
    configuration as it is at that moment. *)
Theorem save_model_config_snapshot_once (RT : Runtime) cfg epoch model optim scaler
    stats (w : World (Params RT) (OptState RT)) :
  stats <> cfg ->
  fs (save_model RT cfg epoch model optim scaler stats w).2 !! config_snapshot_path
  = match fs w !! config_snapshot_path with
    | Some f => Some f
    | None => Some (FYaml (default ∅ (heap w !! cfg)))
    end.
Proof. apply save_model_snapshot. Qed.

Lemma save_model_config_snapshot_once_witness :
  fs (save_model Toy.rt Toy.cfg 8 Toy.model0 Toy.optim0 Toy.scaler_off 2%positive
        (Toy.world1 (Toy.cfg_content "cuda" 20) Toy.store_3_7_5 false)).2
    !! config_snapshot_path
  = Some (FYaml (Toy.cfg_content "cpu" 10)).
Proof.
  apply (save_model_config_snapshot_once Toy.rt Toy.cfg 8 Toy.model0 Toy.optim0
           Toy.scaler_off 2%positive
           (Toy.world1 (Toy.cfg_content "cuda" 20) Toy.store_3_7_5 false)).
  discriminate.
Defined.

(** X4. [save_model] touches two files only, the checkpoint of its epoch
    and the configuration snapshot (lines 90 and 93-96): every other file,
    the checkpoints of the other epochs among them, is as it was. *)
Theorem save_model_leaves_other_files (RT : Runtime) cfg epoch model optim scaler
    stats (w : World (Params RT) (OptState RT)) p :
  p <> checkpoint_path epoch ->
  p <> config_snapshot_path ->
  fs (save_model RT cfg epoch model optim scaler stats w).2 !! p = fs w !! p.
Proof. apply save_model_other_files. Qed.

Lemma save_model_leaves_other_files_witness :
  fs (save_model Toy.rt Toy.cfg 8 Toy.model0 Toy.optim0 Toy.scaler_off 2%positive
        (Toy.world1 (Toy.cfg_content "cpu" 10) Toy.store_3_7_5 false)).2
    !! checkpoint_path 7
  = Some (FPickle (Toy.bundle 7)).
Proof.
  rewrite (save_model_leaves_other_files Toy.rt Toy.cfg 8 Toy.model0 Toy.optim0
             Toy.scaler_off 2%positive
             (Toy.world1 (Toy.cfg_content "cpu" 10) Toy.store_3_7_5 false)
             (checkpoint_path 7)).
  - reflexivity.
  - vm_compute. discriminate.
  - vm_compute. discriminate.
Defined.

(** X5. Saving and resuming round trip (lines 80-96 and 43-76): when the
    store holds no checkpoint later than the one [save_model] writes, the
    next [load_model_optim_scaler] resumes from it; it starts at the saved
    epoch, with the saved parameters loaded into a new network, with the
    saved optimizer (state and hyper-parameters) and, under mixed
    precision, the saved scaler. *)
Theorem save_load_round_trip (RT : Runtime) cfg stats epoch model optim scaler
    (w : World (Params RT) (OptState RT)) c nc lr wd p' :
  heap w !! cfg = Some c ->
  stats <> cfg ->
  c !! "num_classes" = Some nc ->
  c !! "learning_rate" = Some lr ->
  c !! "weight_decay" = Some wd ->
  Forall (fun p => exists i, p = checkpoint_path i /\ i <= epoch) (glob_of (fs w)) ->
  load_params RT (new_model RT nc) (m_params model) = Some p' ->
  gs_enabled scaler = amp_enabled cfg w ->
  let w1 := (save_model RT cfg epoch model optim scaler stats w).2 in
  load_model_optim_scaler RT cfg w1
  = (Ok ({| m_params := p'; m_grad := None; m_training := true; m_device := None |},
         {| o_lr := o_lr optim; o_weight_decay := o_weight_decay optim;
            o_state := o_state optim |},
         (if gs_enabled scaler then scaler else fresh_scaler false),
         epoch),
     set_calls RT (calls w1 ++ [CTorchLoad (checkpoint_path epoch)]) w1).
Proof.
  intros Hc Hne Hnc Hlr Hwd Hold Hp Hen w1.
  destruct (save_model_effect RT cfg epoch model optim scaler stats w)
    as (w' & E & Hh & _ & Hcuda).
  assert (Ew : w1 = w') by (subst w1; by rewrite E). clearbody w1. subst w'.
  assert (Hc1 : heap w1 !! cfg = Some c) by (rewrite Hh; by rewrite lookup_insert_ne).
  assert (Ha : amp_enabled cfg w1 = amp_enabled cfg w)
    by (apply amp_enabled_heap; [by rewrite Hc1|done]).
  assert (Hall : Forall (fun p => exists i, p = checkpoint_path i /\ i <= epoch)
                   (glob_of (fs w1))).
  { apply Forall_forall. intros p Hp1.
    replace w1 with ((save_model RT cfg epoch model optim scaler stats w).2) in Hp1
      by (by rewrite E).
    apply save_model_glob in Hp1 as [->|Hp1].
    - exists epoch. split; [done|lia].
    - by apply (proj1 (Forall_forall _ _) Hold). }
  destruct (checkpoint_paths_ids _ _ Hall) as (ids & Hids & Hle).
  assert (Hin : epoch ∈ ids).
  { assert (H : checkpoint_path epoch ∈ glob_of (fs w1)).
    { replace w1 with ((save_model RT cfg epoch model optim scaler stats w).2)
        by (by rewrite E).
      apply save_model_glob. by left. }
    rewrite Hids in H. apply list_elem_of_In, in_map_iff in H as (i & Hi & Hin).
    apply checkpoint_path_inj in Hi. subst i. by apply list_elem_of_In. }
  assert (Hlatest : latest_of ids = Some epoch).
  { apply latest_of_max; [done|]. intros x Hx.
    by apply (proj1 (Forall_forall _ _) Hle). }
  rewrite <- restored_scaler_state_dict, Hen, <- Ha.
  apply (load_state RT cfg w1 c nc lr wd ids epoch
           (saved_stats model optim scaler (default ∅ (heap w !! stats)))
           (m_params model)); try done.
  - replace w1 with ((save_model RT cfg epoch model optim scaler stats w).2)
      by (by rewrite E).
    apply save_model_file.
  - apply saved_stats_model.
  - apply saved_stats_optim.
  - apply saved_stats_scaler.
  - rewrite Ha, <- Hen. unfold scaler_state_dict. intros ->. eauto.
Qed.

Lemma save_load_round_trip_witness :
  let w := Toy.world1 (Toy.cfg_content "cpu" 10) Toy.store_3_7_5 false in
  let model := Build_Model Toy.rt (Some (5 # 2)%Q) None false None in
  let w1 := (save_model Toy.rt Toy.cfg 8 model Toy.optim0 Toy.scaler_off
               2%positive w).2 in
  load_model_optim_scaler Toy.rt Toy.cfg w1
  = (Ok (Build_Model Toy.rt (Some (5 # 2)%Q) None true None,
         Toy.optim0, fresh_scaler false, 8),
     set_calls Toy.rt (calls w1 ++ [CTorchLoad (checkpoint_path 8)]) w1).
Proof.
  intros w model.
  assert (Hg : glob_of (fs w) = map checkpoint_path [7; 3; 5]) by reflexivity.
  refine (save_load_round_trip Toy.rt Toy.cfg 2%positive 8 model
            Toy.optim0 Toy.scaler_off w
            (Toy.cfg_content "cpu" 10) (VInt 2) (VFloat (1 # 10)) (VFloat 0)
            (Some (5 # 2)%Q) _ _ _ _ _ _ _ _).
  - reflexivity.
  - discriminate.
  - reflexivity.
  - reflexivity.
  - reflexivity.
  - rewrite Hg. constructor; [exists 7; split; [reflexivity|lia]|].
    constructor; [exists 3; split; [reflexivity|lia]|].
    constructor; [exists 5; split; [reflexivity|lia]|].
    constructor.
  - reflexivity.
  - reflexivity.
Defined.

(** X6. With no checkpoint in the store, [load_model_optim_scaler]
    starts anew (lines 71-76): epoch 0, a new network in training mode
    without gradients, an optimizer with the learning rate and the weight
    decay of the configuration, a new scaler; it reads no file and leaves
    the process as it found it. *)
Theorem load_empty_store_starts_anew (RT : Runtime) cfg
    (w : World (Params RT) (OptState RT)) c nc lr wd :
  heap w !! cfg = Some c ->
  c !! "num_classes" = Some nc ->
  c !! "learning_rate" = Some lr ->
  c !! "weight_decay" = Some wd ->
  glob_of (fs w) = [] ->
  load_model_optim_scaler RT cfg w
  = (Ok ({| m_params := new_model RT nc; m_grad := None; m_training := true;
            m_device := None |},
         {| o_lr := lr; o_weight_decay := wd; o_state := new_optim_state RT |},
         fresh_scaler (amp_enabled cfg w), 0),
     w).
Proof. apply load_fresh. Qed.

Lemma load_empty_store_starts_anew_witness :
  let w := Toy.world1 (Toy.cfg_content "cpu" 10)
             {[ config_snapshot_path := FYaml (Toy.cfg_content "cpu" 10) ]} true in
  load_model_optim_scaler Toy.rt Toy.cfg w
  = (Ok (Build_Model Toy.rt (Some 0%Q) None true None, Toy.optim0, Toy.scaler_off, 0), w).
Proof.
  intros w.
  exact (load_empty_store_starts_anew Toy.rt Toy.cfg w (Toy.cfg_content "cpu" 10)
           (VInt 2) (VFloat (1 # 10)) (VFloat 0)
           eq_refl eq_refl eq_refl eq_refl eq_refl).
Defined.

(** X7. Resuming takes everything from the latest checkpoint (lines
    60-70): the parameters, loaded into a new network, and the optimizer
    with the learning rate and the weight decay that were saved, whatever
    the configuration says now; the scaler state is restored under mixed
    precision only.  The one thing the call does to the process is reading
    that one file. *)
Theorem load_restores_checkpoint_state (RT : Runtime) cfg
    (w : World (Params RT) (OptState RT)) c nc lr wd ids e b p p' lr' wd' st sd :
  heap w !! cfg = Some c ->
  c !! "num_classes" = Some nc ->
  c !! "learning_rate" = Some lr ->
  c !! "weight_decay" = Some wd ->
  glob_of (fs w) = map checkpoint_path ids ->
  latest_of ids = Some e ->
  fs w !! checkpoint_path e = Some (FPickle b) ->
  b !! "model" = Some (VModelState p) ->
  load_params RT (new_model RT nc) p = Some p' ->
  b !! "optim" = Some (VOptimState lr' wd' st) ->
  b !! "scaler" = Some (VScalerState sd) ->
  (amp_enabled cfg w = true -> is_Some sd) ->
  load_model_optim_scaler RT cfg w
  = (Ok ({| m_params := p'; m_grad := None; m_training := true; m_device := None |},
         {| o_lr := lr'; o_weight_decay := wd'; o_state := st |},
         restored_scaler (amp_enabled cfg w) sd, e),
     set_calls RT (calls w ++ [CTorchLoad (checkpoint_path e)]) w).
Proof. apply load_state. Qed.

Lemma load_restores_checkpoint_state_witness :
  let c := <["learning_rate" := VFloat 5]> (Toy.cfg_content "cpu" 10) in
  let w := Toy.world1 c Toy.store_3_7_5 false in
  load_model_optim_scaler Toy.rt Toy.cfg w
  = (Ok (Build_Model Toy.rt (Some 7%Q) None true None,
         Build_Optimizer Toy.rt (VFloat (1 # 10)) (VFloat 0) tt,
         Toy.scaler_off, 7),
     set_calls Toy.rt (calls w ++ [CTorchLoad (checkpoint_path 7)]) w).
Proof.
  intros c w.
  refine (load_restores_checkpoint_state Toy.rt Toy.cfg w c (VInt 2) (VFloat 5)
            (VFloat 0) [7; 3; 5] 7 (Toy.bundle 7) (Some 7%Q) (Some 7%Q)
            (VFloat (1 # 10)) (VFloat 0) tt None _ _ _ _ _ _ _ _ _ _ _ _);
    try reflexivity.
  vm_compute. discriminate.
Defined.



(** ** Accuracies *)

Lemma Qsum_bounds (l : list Q) :
  Forall (fun x => 0 <= x <= 1)%Q l ->
  (0 <= Qsum l <= inject_Z (Z.of_nat (length l)))%Q.
Proof.
  induction 1 as [|x l [Hx0 Hx1] _ [IH0 IH1]]; unfold Qsum in *.
  - split; apply Qle_refl.
  - cbn [fold_right length]. split.
    + replace 0%Q with (0 + 0)%Q by reflexivity. by apply Qplus_le_compat.
    + rewrite Nat2Z.inj_succ, <- Z.add_1_l, inject_Z_plus.
      by apply Qplus_le_compat.
Qed.

Lemma overall_accuracy_bounds prediction labels :
  (0 <= overall_accuracy prediction labels <= 1)%Q.
Proof.
  unfold overall_accuracy.
  set (hits := zip_with _ _ _).
  assert (Hle : (length (filter (fun h => h = true) hits) <= length hits)%nat)
    by apply length_filter.
  destruct (length hits) as [|m] eqn:Em.
  - assert (length (filter (fun h => h = true) hits) = 0%nat) as -> by lia.
    split; by vm_compute.
  - set (k := length _) in *.
    assert (H0 : (0 < inject_Z (Z.of_nat (S m)))%Q).
    { change 0%Q with (inject_Z 0). rewrite <- Zlt_Qlt. lia. }
    split.
    + apply Qle_shift_div_l; [done|]. rewrite Qmult_0_l.
      change 0%Q with (inject_Z 0). rewrite <- Zle_Qle. lia.
    + apply Qle_shift_div_r; [done|]. rewrite Qmult_1_l.
      rewrite <- Zle_Qle. lia.
Qed.

(** ** The epoch runners *)

Section Runners.

Context (RT : Runtime).

Abbreviation val := (value (Params RT) (OptState RT)).
Abbreviation dict := (gmap string (value (Params RT) (OptState RT))).
Abbreviation world := (World (Params RT) (OptState RT)).
Abbreviation Py := (M (World (Params RT) (OptState RT))).
Abbreviation callT := (call (Params RT) (OptState RT)).
Abbreviation batch := (Data RT * list Z)%type.

Lemma set_calls_eq (w : world) (c1 c2 : list callT) :
  c1 = c2 -> set_calls RT c1 w = set_calls RT c2 w.
Proof. by intros ->. Qed.

(** The log of the loop of [train]. *)
Lemma train_loop_log cfg device dl :
  forall model optimizer scaler l0 a0 (w : world),
    let ua := use_amp_of cfg w in
    let vs := train_values device ua dl model optimizer scaler in
    train_loop RT cfg device dl model optimizer scaler l0 a0 w
    = (Ok (fold_left Qplus (map fst vs) l0, fold_left Qplus (map snd vs) a0,
           (train_final device ua dl model optimizer scaler).1.1,
           (train_final device ua dl model optimizer scaler).1.2,
           (train_final device ua dl model optimizer scaler).2),
       set_calls RT
         (calls w ++ train_loop_calls device ua dl model optimizer scaler) w).
Proof.
  induction dl as [|b rest IH]; intros model optimizer scaler l0 a0 w; simpl.
  - by rewrite set_calls_nil.
  - rewrite bind_eq, train_batch_run.
    destruct (train_batch_result _ _ _ _ _ _) as [[[[l a] m'] o'] s'].
    rewrite IH, use_amp_of_set_calls, set_calls_app. reflexivity.
Qed.

(** The log of [train], whether it returns or raises on an empty loader. *)
Lemma train_log cfg dl model optimizer scaler (w : world) (d : dict) dev :
  heap w !! cfg = Some d -> d !! "device" = Some dev ->
  (train RT cfg dl model optimizer scaler w).2
  = set_calls RT
      (calls w ++ CModelTo dev :: CModelTrain
         :: train_loop_calls dev (use_amp_of cfg w) dl
              (model_in_mode true dev model) optimizer scaler) w.
Proof.
  intros Hc Hd. unfold train.
  rewrite bind_eq, (dict_getitem_run _ _ _ _ _ _ Hc Hd).
  unfold model_to, model_set_mode, log, modify.
  repeat (rewrite ?bind_eq; simpl).
  rewrite train_loop_log. simpl.
  repeat (rewrite ?bind_eq, ?truediv_run; simpl).
  destruct dl as [|b rest].
  - simpl. unfold set_calls; simpl. rewrite <- !app_assoc. reflexivity.
  - change (Z.of_nat (length (b :: rest)) =? 0) with false. cbv beta iota.
    repeat (rewrite ?bind_eq, ?ret_bind; simpl).
    unfold set_calls; simpl. rewrite <- !app_assoc. reflexivity.
Qed.

Lemma count_calls_app (p : callT -> bool) (c1 c2 : list callT) :
  count_calls p (c1 ++ c2) = (count_calls p c1 + count_calls p c2)%nat.
Proof. unfold count_calls. by rewrite List.filter_app, length_app. Qed.

Lemma count_train_batch_calls device ua stepped :
  count_calls is_forward (train_batch_calls (RT:=RT) device ua stepped) = 1%nat
  /\ count_calls is_backward (train_batch_calls (RT:=RT) device ua stepped) = 1%nat
  /\ count_calls is_scaler_step (train_batch_calls (RT:=RT) device ua stepped) = 1%nat
  /\ count_calls is_zero_grad (train_batch_calls (RT:=RT) device ua stepped) = 1%nat
  /\ count_calls is_optimizer_step (train_batch_calls (RT:=RT) device ua stepped)
     = (if stepped then 1 else 0)%nat.
Proof. by destruct stepped. Qed.

Lemma count_train_loop_calls device ua dl :
  forall model optimizer scaler,
    let cs := train_loop_calls (RT:=RT) device ua dl model optimizer scaler in
    count_calls is_forward cs = length dl
    /\ count_calls is_backward cs = length dl
    /\ count_calls is_scaler_step cs = length dl
    /\ count_calls is_zero_grad cs = length dl
    /\ count_calls is_optimizer_step cs
       = length (List.filter negb (train_skips device ua dl model optimizer scaler)).
Proof.
  induction dl as [|b rest IH]; intros model optimizer scaler; [done|].
  cbv zeta in *. cbn [train_loop_calls train_skips length].
  destruct (train_batch_result _ _ _ _ _ _) as [[[[l a] m'] o'] s'].
  destruct (IH m' o' s') as (H1 & H2 & H3 & H4 & H5).
  destruct (count_train_batch_calls device ua
              (negb (step_skipped device ua b model scaler)))
    as (B1 & B2 & B3 & B4 & B5).
  rewrite !count_calls_app, B1, B2, B3, B4, B5, H1, H2, H3, H4, H5.
  repeat split; try done.
  by destruct (step_skipped device ua b model scaler).
Qed.

(** What a training batch leaves of the objects it is given. *)
Lemma train_batch_result_keeps device ua b model (optimizer : Optimizer RT) scaler :
  let r := train_batch_result device ua b model optimizer scaler in
  r.1.1.1.2 = overall_accuracy
                (forward RT (m_training model)
                   (Some {| ac_device_type := device; ac_enabled := ua |})
                   (m_params model) b.1) b.2
  /\ m_grad r.1.1.2 = None
  /\ m_training r.1.1.2 = m_training model
  /\ m_device r.1.1.2 = m_device model
  /\ o_lr r.1.2 = o_lr optimizer
  /\ o_weight_decay r.1.2 = o_weight_decay optimizer
  /\ gs_enabled r.2 = gs_enabled scaler.
Proof.
  unfold train_batch_result.
  destruct (if step_skipped device ua b model scaler then _ else _) as [p st].
  simpl. repeat split.
  unfold scaler_updated. destruct (gs_enabled scaler) eqn:E; [|done].
  destruct (step_skipped _ _ _ _ _); [done|]. by destruct (_ =? _).
Qed.

Lemma train_final_keeps device ua dl :
  forall model (optimizer : Optimizer RT) scaler,
    let r := train_final device ua dl model optimizer scaler in
    (dl <> [] -> m_grad r.1.1 = None)
    /\ m_training r.1.1 = m_training model
    /\ m_device r.1.1 = m_device model
    /\ o_lr r.1.2 = o_lr optimizer
    /\ o_weight_decay r.1.2 = o_weight_decay optimizer
    /\ gs_enabled r.2 = gs_enabled scaler.
Proof.
  induction dl as [|b rest IH]; intros model optimizer scaler; [done|].
  simpl.
  pose proof (train_batch_result_keeps device ua b model optimizer scaler) as H.
  destruct (train_batch_result _ _ _ _ _ _) as [[[[l a] m'] o'] s'].
  simpl in H. destruct H as (_ & G & T & D & L & W & S).
  destruct (IH m' o' s') as (G' & T' & D' & L' & W' & S').
  rewrite T', D', L', W', S'. repeat split; try done.
  intros _. destruct rest as [|b' rest']; [done|]. by apply G'.
Qed.

Lemma train_values_accuracy device ua dl :
  forall model (optimizer : Optimizer RT) scaler,
    Forall (fun x => 0 <= x <= 1)%Q
      (map snd (train_values device ua dl model optimizer scaler)).
Proof.
  induction dl as [|b rest IH]; intros model optimizer scaler; [constructor|].
  simpl.
  pose proof (train_batch_result_keeps device ua b model optimizer scaler) as H.
  destruct (train_batch_result _ _ _ _ _ _) as [[[[l a] m'] o'] s'].
  simpl in H. destruct H as (-> & _). simpl.
  constructor; [apply overall_accuracy_bounds|apply IH].
Qed.

Lemma mean_bounds (l : list Q) :
  l <> [] ->
  Forall (fun x => 0 <= x <= 1)%Q l ->
  (0 <= fold_left Qplus l 0 / inject_Z (Z.of_nat (length l)) <= 1)%Q.
Proof.
  intros Hne Hl.
  assert (Hn : (0 < inject_Z (Z.of_nat (length l)))%Q).
  { change 0%Q with (inject_Z 0). rewrite <- Zlt_Qlt. destruct l; [done|simpl; lia]. }
  destruct (Qsum_bounds l Hl) as [H0 H1].
  assert (E : (fold_left Qplus l 0 == Qsum l)%Q).
  { etransitivity; [apply fold_left_Qplus|apply Qplus_0_l]. }
  split.
  - apply Qle_shift_div_l; [done|]. rewrite Qmult_0_l. by rewrite E.
  - apply Qle_shift_div_r; [done|]. rewrite Qmult_1_l. by rewrite E.
Qed.

Lemma train_skips_length device ua dl :
  forall model (optimizer : Optimizer RT) scaler,
    length (train_skips device ua dl model optimizer scaler) = length dl.
Proof.
  induction dl as [|b rest IH]; intros model optimizer scaler; [done|].
  cbn [train_skips length].
  destruct (train_batch_result _ _ _ _ _ _) as [[[[l a] m'] o'] s'].
  cbn [length]. by rewrite IH.
Qed.

(** Without mixed precision no step is skipped. *)
Lemma train_skips_disabled device ua dl :
  forall model (optimizer : Optimizer RT) scaler,
    gs_enabled scaler = false ->
    List.filter negb (train_skips device ua dl model optimizer scaler)
    = train_skips device ua dl model optimizer scaler.
Proof.
  induction dl as [|b rest IH]; intros model optimizer scaler Hs; [done|].
  cbn [train_skips].
  pose proof (train_batch_result_keeps device ua b model optimizer scaler) as H.
  destruct (train_batch_result _ _ _ _ _ _) as [[[[l a] m'] o'] s'].
  simpl in H. destruct H as (_ & _ & _ & _ & _ & _ & S).
  unfold step_skipped at 1 2. rewrite Hs. simpl.
  f_equal. apply IH. by rewrite S.
Qed.

(** The log of [validate], whether it returns or raises on an empty
    loader. *)
Lemma validate_loop_log cfg device dl model :
  forall l0 a0 (w : world),
    let vs := map (validate_batch_values (use_amp_of cfg w) model) dl in
    validate_loop RT cfg device dl model l0 a0 w
    = (Ok (fold_left Qplus (map fst vs) l0, fold_left Qplus (map snd vs) a0),
       set_calls RT
         (calls w
          ++ concat (map (fun _ => validate_batch_calls device (use_amp_of cfg w)) dl))
         w).
Proof.
  induction dl as [|b rest IH]; intros l0 a0 w; cbn [validate_loop map concat].
  - simpl. by rewrite set_calls_nil.
  - rewrite bind_eq, validate_batch_run.
    destruct (validate_batch_values _ _ _) as [l a].
    cbv zeta in IH. rewrite IH, use_amp_of_set_calls, set_calls_app.
    reflexivity.
Qed.

Lemma validate_log cfg dl model (w : world) (d : dict) dev :
  heap w !! cfg = Some d -> d !! "device" = Some dev ->
  (validate RT cfg dl model w).2
  = set_calls RT
      (calls w ++ [CModelTo dev; CModelEval; CNoGradEnter]
         ++ concat (map (fun _ => validate_batch_calls dev (use_amp_of cfg w)) dl)
         ++ [CNoGradExit]) w.
Proof.
  intros Hc Hd. unfold validate.
  rewrite bind_eq, (dict_getitem_run _ _ _ _ _ _ Hc Hd).
  unfold model_to, model_set_mode, log, modify.
  repeat (rewrite ?bind_eq; simpl).
  rewrite validate_loop_log. simpl.
  repeat (rewrite ?bind_eq, ?truediv_run; simpl).
  destruct dl as [|b rest].
  - simpl. unfold set_calls; simpl. rewrite <- !app_assoc. reflexivity.
  - change (Z.of_nat (length (b :: rest)) =? 0) with false. cbv beta iota.
    repeat (rewrite ?bind_eq, ?ret_bind; simpl).
    unfold set_calls; simpl. rewrite <- !app_assoc. reflexivity.
Qed.

Lemma validate_batches_quiet device ua (dl : list batch) :
  let cs := concat (map (fun _ => validate_batch_calls (RT:=RT) device ua) dl) in
  Forall (fun c => gradient_call c = false) cs
  /\ count_calls is_forward cs = length dl.
Proof.
  induction dl as [|b rest [IH1 IH2]]; [by split|].
  cbv zeta in *. cbn [map concat length]. split.
  - apply Forall_app. split; [|done]. by repeat constructor.
  - rewrite count_calls_app, IH2. reflexivity.
Qed.

End Runners.

(** X9. Both epoch runners read [cfg['device']] first (lines 117 and
    222): on a configuration without that key they raise [KeyError] before
    they touch the model or the loader. *)
Theorem runners_need_device (RT : Runtime) cfg dl model optimizer scaler
    (w : World (Params RT) (OptState RT)) d :
  heap w !! cfg = Some d ->
  d !! "device" = None ->
  train RT cfg dl model optimizer scaler w = (Raise (KeyError "device"), w)
  /\ validate RT cfg dl model w = (Raise (KeyError "device"), w).
Proof.
  intros Hc Hd. unfold train, validate. rewrite !bind_eq.
  unfold dict_getitem. rewrite Hc. simpl. by rewrite Hd.
Qed.

Lemma runners_need_device_witness :
  let w := Toy.world1 (delete "device" (Toy.cfg_content "cpu" 2)) ∅ false in
  train Toy.rt Toy.cfg Toy.four_batches Toy.model0 Toy.optim0 Toy.scaler_off w
  = (Raise (KeyError "device"), w)
  /\ validate Toy.rt Toy.cfg Toy.four_batches Toy.model0 w
     = (Raise (KeyError "device"), w).
Proof.
  intros w.
  exact (runners_need_device Toy.rt Toy.cfg Toy.four_batches Toy.model0 Toy.optim0
           Toy.scaler_off w (delete "device" (Toy.cfg_content "cpu" 2))
           eq_refl eq_refl).
Defined.

(** X10. The epoch runners work on the objects they are handed and on
    nothing else: whether they return or raise, [train] and [validate]
    leave every dictionary (the configuration among them) and every file
    as they were, seed no generator and set no cuDNN switch; all they do
    to the process is calling the runtime. *)
Theorem runners_touch_only_the_runtime (RT : Runtime) cfg dl model optimizer scaler
    (w : World (Params RT) (OptState RT)) :
  let w1 := (train RT cfg dl model optimizer scaler w).2 in
  let w2 := (validate RT cfg dl model w).2 in
  (heap w1 = heap w /\ fs w1 = fs w /\ seed_state w1 = seed_state w
   /\ exists cs, calls w1 = calls w ++ cs)
  /\ (heap w2 = heap w /\ fs w2 = fs w /\ seed_state w2 = seed_state w
      /\ exists cs, calls w2 = calls w ++ cs).
Proof.
  intros w1 w2.
  destruct (only_logs_train RT cfg dl model optimizer scaler w) as [c1 E1].
  destruct (only_logs_validate RT cfg dl model w) as [c2 E2].
  subst w1 w2. rewrite E1, E2. split; (repeat split; eauto).
Qed.

(** X11. What a training epoch leaves of its objects (lines 120, 125 and
    176): the model is on the configured device, in training mode, and its
    gradients are zeroed; the learning rate and the weight decay of the
    optimizer are the ones it came with, and mixed precision is neither
    switched on nor off. *)
Theorem train_leaves_objects (RT : Runtime) cfg dl model optimizer scaler
    (w : World (Params RT) (OptState RT)) d dev :
  heap w !! cfg = Some d ->
  d !! "device" = Some dev ->
  dl <> [] ->
  exists loss oa model' optimizer' scaler' w',
    train RT cfg dl model optimizer scaler w
    = (Ok (loss, oa, model', optimizer', scaler'), w')
    /\ m_device model' = Some dev
    /\ m_training model' = true
    /\ m_grad model' = None
    /\ o_lr optimizer' = o_lr optimizer
    /\ o_weight_decay optimizer' = o_weight_decay optimizer
    /\ gs_enabled scaler' = gs_enabled scaler.
Proof.
  intros Hc Hd Hne.
  destruct (train_run RT cfg dl model optimizer scaler w d dev Hc Hd) as (cs & E).
  destruct dl as [|b rest]; [done|].
  destruct (train_final_keeps RT dev (use_amp_of cfg w) (b :: rest)
              (model_in_mode true dev model) optimizer scaler)
    as (G & T & D & L & W & S).
  do 6 eexists. split; [exact E|].
  repeat split; try done. by apply G.
Qed.

Lemma train_leaves_objects_witness :
  exists loss oa model' optimizer' scaler' w',
    train Toy.rt Toy.cfg Toy.four_batches
      (Build_Model Toy.rt (Some 0%Q) (Some (Some 1%Q)) false None)
      Toy.optim0 Toy.scaler_off
      (Toy.world1 (Toy.cfg_content "cpu" 2) ∅ false)
    = (Ok (loss, oa, model', optimizer', scaler'), w')
    /\ m_device model' = Some (VStr "cpu")
    /\ m_training model' = true
    /\ m_grad model' = None
    /\ o_lr optimizer' = VFloat (1 # 10)
    /\ o_weight_decay optimizer' = VFloat 0
    /\ gs_enabled scaler' = false.
Proof.
  apply (train_leaves_objects Toy.rt Toy.cfg Toy.four_batches
           (Build_Model Toy.rt (Some 0%Q) (Some (Some 1%Q)) false None)
           Toy.optim0 Toy.scaler_off
           (Toy.world1 (Toy.cfg_content "cpu" 2) ∅ false)
           (Toy.cfg_content "cpu" 2) (VStr "cpu")).
  - reflexivity.
  - reflexivity.
  - discriminate.
Defined.

(** X12. The runtime calls of a training epoch, counted (lines 145-176),
    also when the epoch ends in an error: one forward pass, one backward
    pass, one [scaler.step] and one [zero_grad] for every batch of the
    loader; [optimizer.step] runs once for every batch whose step the
    scaler does not skip, which without mixed precision is every batch. *)
Theorem train_call_counts (RT : Runtime) cfg dl model optimizer scaler
    (w : World (Params RT) (OptState RT)) d dev :
  heap w !! cfg = Some d ->
  d !! "device" = Some dev ->
  exists cs,
    calls (train RT cfg dl model optimizer scaler w).2 = calls w ++ cs
    /\ count_calls is_forward cs = length dl
    /\ count_calls is_backward cs = length dl
    /\ count_calls is_scaler_step cs = length dl
    /\ count_calls is_zero_grad cs = length dl
    /\ count_calls is_optimizer_step cs
       = length (List.filter negb
           (train_skips dev (use_amp_of cfg w) dl (model_in_mode true dev model)
              optimizer scaler))
    /\ (gs_enabled scaler = false -> count_calls is_optimizer_step cs = length dl).
Proof.
  intros Hc Hd.
  rewrite (train_log RT cfg dl model optimizer scaler w d dev Hc Hd).
  eexists. split; [reflexivity|].
  destruct (count_train_loop_calls RT dev (use_amp_of cfg w) dl
              (model_in_mode true dev model) optimizer scaler)
    as (H1 & H2 & H3 & H4 & H5).
  change (CModelTo dev :: CModelTrain :: ?l) with ([CModelTo dev; CModelTrain] ++ l).
  rewrite !(count_calls_app RT), H1, H2, H3, H4, H5.
  repeat split; try done.
  intros Hs. cbn [count_calls List.filter is_optimizer_step length Nat.add].
  by rewrite train_skips_disabled, train_skips_length.
Qed.

Lemma train_call_counts_witness :
  exists cs,
    calls (train Toy.rt Toy.cfg [Toy.batch_right; Toy.batch_inf; Toy.batch_half]
             Toy.model0 Toy.optim0 Toy.scaler_on
             (Toy.world1 (Toy.cfg_content "cuda" 2) ∅ true)).2
    = [] ++ cs
    /\ count_calls is_forward cs = 3%nat
    /\ count_calls is_backward cs = 3%nat
    /\ count_calls is_scaler_step cs = 3%nat
    /\ count_calls is_zero_grad cs = 3%nat
    /\ count_calls is_optimizer_step cs = 2%nat.
Proof.
  destruct (train_call_counts Toy.rt Toy.cfg
              [Toy.batch_right; Toy.batch_inf; Toy.batch_half]
              Toy.model0 Toy.optim0 Toy.scaler_on
              (Toy.world1 (Toy.cfg_content "cuda" 2) ∅ true)
              (Toy.cfg_content "cuda" 2) (VStr "cuda") eq_refl eq_refl)
    as (cs & E & H1 & H2 & H3 & H4 & H5 & _).
  exists cs. repeat split; assumption.
Defined.

(** X13. The accuracies of an epoch lie between 0 and 1: the accuracy of
    a batch (which is never empty) is the share of its samples whose
    predicted label is right (lines 186-187 and 272-273), and the value a
    runner returns is the mean of these over a loader that is not empty. *)
Theorem epoch_accuracy_bounds (RT : Runtime) cfg dl model optimizer scaler
    (w : World (Params RT) (OptState RT)) d dev :
  heap w !! cfg = Some d ->
  d !! "device" = Some dev ->
  dl <> [] ->
  (exists loss oa model' optimizer' scaler' w',
     train RT cfg dl model optimizer scaler w
     = (Ok (loss, oa, model', optimizer', scaler'), w')
     /\ (0 <= oa <= 1)%Q)
  /\ (exists loss oa model' w',
        validate RT cfg dl model w = (Ok (loss, oa, model'), w')
        /\ (0 <= oa <= 1)%Q).
Proof.
  intros Hc Hd Hne. split.
  - destruct (train_run RT cfg dl model optimizer scaler w d dev Hc Hd) as (cs & E).
    destruct dl as [|b rest] eqn:Edl; [done|]. rewrite <- Edl in *.
    do 6 eexists. split; [exact E|].
    set (vs := train_values _ _ _ _ _ _).
    replace (length dl) with (length (map snd vs))
      by (unfold vs; by rewrite length_map, train_values_length).
    apply mean_bounds; [|apply train_values_accuracy].
    unfold vs. rewrite Edl. simpl.
    by destruct (train_batch_result _ _ _ _ _ _) as [[[[? ?] ?] ?] ?].
  - destruct (validate_run RT cfg dl model w d dev Hc Hd) as (cs & E).
    destruct dl as [|b rest] eqn:Edl; [done|]. rewrite <- Edl in *.
    do 4 eexists. split; [exact E|].
    set (vs := map _ dl).
    replace (length dl) with (length (map snd vs))
      by (unfold vs; by rewrite !length_map).
    apply mean_bounds.
    + unfold vs. by rewrite Edl.
    + unfold vs. apply Forall_forall. intros x Hx.
      apply list_elem_of_In, in_map_iff in Hx as ([l a] & <- & Hx).
      apply in_map_iff in Hx as (b' & Hb & _).
      unfold validate_batch_values in Hb. injection Hb as _ <-.
      apply overall_accuracy_bounds.
Qed.

Lemma epoch_accuracy_bounds_witness :
  (exists loss oa model' optimizer' scaler' w',
     train Toy.rt Toy.cfg Toy.four_batches Toy.model0 Toy.optim0 Toy.scaler_off
       (Toy.world1 (Toy.cfg_content "cpu" 2) ∅ false)
     = (Ok (loss, oa, model', optimizer', scaler'), w')
     /\ (0 <= oa <= 1)%Q)
  /\ (exists loss oa model' w',
        validate Toy.rt Toy.cfg Toy.four_batches Toy.model0
          (Toy.world1 (Toy.cfg_content "cpu" 2) ∅ false)
        = (Ok (loss, oa, model'), w')
        /\ (0 <= oa <= 1)%Q).
Proof.
  apply (epoch_accuracy_bounds Toy.rt Toy.cfg Toy.four_batches Toy.model0 Toy.optim0
           Toy.scaler_off (Toy.world1 (Toy.cfg_content "cpu" 2) ∅ false)
           (Toy.cfg_content "cpu" 2) (VStr "cpu")).
  - reflexivity.
  - reflexivity.
  - discriminate.
Defined.

(** X21. A validation epoch computes no gradient (lines 222-287): after
    [model.to] and [model.eval()] every batch is run inside the one
    [torch.no_grad()] block, one forward pass for each batch and none of
    the calls of the gradient machinery, also when the epoch ends in an
    error; the model it returns is in evaluation mode on the configured
    device, with the gradient slots it came with. *)
Theorem validate_runs_without_gradients (RT : Runtime) cfg dl model
    (w : World (Params RT) (OptState RT)) d dev :
  heap w !! cfg = Some d ->
  d !! "device" = Some dev ->
  (exists cs,
     calls (validate RT cfg dl model w).2
     = calls w ++ [CModelTo dev; CModelEval; CNoGradEnter] ++ cs ++ [CNoGradExit]
     /\ Forall (fun c => gradient_call c = false) cs
     /\ count_calls is_forward cs = length dl)
  /\ (dl <> [] ->
      exists loss oa model',
        (validate RT cfg dl model w).1 = Ok (loss, oa, model')
        /\ m_training model' = false
        /\ m_device model' = Some dev
        /\ m_grad model' = m_grad model).
Proof.
  intros Hc Hd. split.
  - rewrite (validate_log RT cfg dl model w d dev Hc Hd).
    eexists. split; [reflexivity|].
    apply validate_batches_quiet.
  - intros Hne.
    destruct (validate_run RT cfg dl model w d dev Hc Hd) as (cs & E).
    rewrite E. destruct dl as [|b rest]; [done|].
    do 3 eexists. split; [reflexivity|]. by repeat split.
Qed.

Lemma validate_runs_without_gradients_witness :
  let w := Toy.world1 (Toy.cfg_content "cuda" 2) ∅ true in
  let model := Build_Model Toy.rt (Some 0%Q) (Some (Some 1%Q)) true None in
  exists loss oa model',
    (validate Toy.rt Toy.cfg Toy.four_batches model w).1 = Ok (loss, oa, model')
    /\ m_training model' = false
    /\ m_device model' = Some (VStr "cuda")
    /\ m_grad model' = Some (Some 1%Q).
Proof.
  intros w model.
  exact (proj2 (validate_runs_without_gradients Toy.rt Toy.cfg Toy.four_batches
                  model w (Toy.cfg_content "cuda" 2) (VStr "cuda") eq_refl eq_refl)
           ltac:(discriminate)).
Defined.

(** ** The epoch loop and the store *)

Section Loop.

Context (RT : Runtime).

Abbreviation val := (value (Params RT) (OptState RT)).
Abbreviation dict := (gmap string (value (Params RT) (OptState RT))).
Abbreviation world := (World (Params RT) (OptState RT)).
Abbreviation Py := (M (World (Params RT) (OptState RT))).
Abbreviation callT := (call (Params RT) (OptState RT)).
Abbreviation batch := (Data RT * list Z)%type.

Lemma keeps_store_refl s (w : world) : keeps_store s w w.
Proof. by repeat split. Qed.

Lemma keeps_store_trans s s' (w w1 w2 : world) :
  s <= s' -> keeps_store s w w1 -> keeps_store s' w1 w2 -> keeps_store s w w2.
Proof.
  intros Hs (F1 & C1 & R1 & U1) (F2 & C2 & R2 & U2). repeat split.
  - intros p Hp He. rewrite F2, F1; try done.
    intros e ?. apply He. lia.
  - intros f Hf. by apply C2, C1.
  - by rewrite R2.
  - by rewrite U2.
Qed.

Lemma keeps_store_only_logs {A} s (m : Py A) (w : world) :
  only_logs m -> keeps_store s w (m w).2.
Proof. intros H. destruct (H w) as [cs ->]. by repeat split. Qed.

Lemma keeps_store_save_model s cfg model optim scaler stats (w : world) :
  keeps_store s w (save_model RT cfg (s + 1) model optim scaler stats w).2.
Proof.
  repeat split.
  - intros p Hp He. apply save_model_other_files; [|done]. apply He. lia.
  - intros f Hf.
    pose proof (save_model_fs RT cfg (s + 1) model optim scaler stats w) as E.
    simpl in E. rewrite E, Hf.
    by rewrite lookup_insert_ne by apply checkpoint_path_not_config.
  - apply save_model_seed_state.
  - destruct (save_model_effect RT cfg (s + 1) model optim scaler stats w)
      as (w' & E & _ & _ & Hc). by rewrite E.
Qed.

(** Whatever the loop does, it keeps the store outside the checkpoints of
    the epochs it runs. *)
Lemma epoch_loop_keeps_store cfg dl_train dl_val numEpochs :
  forall fuel model optim scaler s (w : world),
    keeps_store s w
      (epoch_loop RT fuel cfg dl_train dl_val numEpochs model optim scaler s w).2.
Proof.
  induction fuel as [|fuel IH]; intros model optim scaler s w.
  - simpl. rewrite bind_eq.
    destruct (int_lt_cases RT s numEpochs w) as [[c ->]| ->];
      [|apply keeps_store_refl].
    destruct c; apply keeps_store_refl.
  - simpl. rewrite bind_eq.
    destruct (int_lt_cases RT s numEpochs w) as [[c ->]| ->];
      [|apply keeps_store_refl].
    destruct c; [|apply keeps_store_refl].
    rewrite bind_eq.
    pose proof (keeps_store_only_logs s _ w
                  (only_logs_train RT cfg dl_train model optim scaler)) as H1.
    destruct (train RT cfg dl_train model optim scaler w)
      as [[[[[[lt at_] m1] o1] s1]|e|] w1]; simpl in H1; [|done|done].
    rewrite bind_eq.
    pose proof (keeps_store_only_logs s _ w1
                  (only_logs_validate RT cfg dl_val m1)) as H2.
    destruct (validate RT cfg dl_val m1 w1) as [[[[lv av] m2]|e|] w2]; simpl in H2;
      [|by apply (keeps_store_trans s s w w1 w2)
       |by apply (keeps_store_trans s s w w1 w2)].
    rewrite bind_eq, new_dict_effect, bind_eq.
    match goal with
    | |- context [save_model RT cfg (s + 1) m2 o1 s1 ?st ?w3] =>
        pose proof (keeps_store_save_model s cfg m2 o1 s1 st w3) as H3;
        destruct (save_model_effect RT cfg (s + 1) m2 o1 s1 st w3) as (w4 & E4 & _)
    end.
    rewrite E4 in *. simpl in H3.
    apply (keeps_store_trans s (s + 1) w w4); [lia| |apply IH].
    apply (keeps_store_trans s s w w2 w4); [lia| |].
    + by apply (keeps_store_trans s s w w1 w2).
    + destruct H3 as (F & C & R & U). by repeat split.
Qed.

(** With a device configured and non-empty loaders the loop leaves one
    checkpoint for each epoch it runs, the last of them holding the
    objects it returns, and a configuration snapshot. *)
Lemma epoch_loop_store cfg dl_train dl_val (d : dict) dev n :
  d !! "device" = Some dev -> dl_train <> [] -> dl_val <> [] ->
  forall j k s model optim scaler (w : world),
    j = Z.to_nat (n - s) ->
    heap w !! cfg = Some d ->
    exists model' optim' scaler' w',
      epoch_loop RT (j + k) cfg dl_train dl_val (VInt n) model optim scaler s w
      = (Ok (model', optim', scaler', Z.max s n), w')
      /\ heap w' !! cfg = Some d
      /\ gs_enabled scaler' = gs_enabled scaler
      /\ (forall e, s < e <= n ->
            exists lt lv at_ av m o sc,
              fs w' !! checkpoint_path e
              = Some (FPickle (saved_stats m o sc (epoch_stats lt lv at_ av)))
              /\ (e = n -> m = model' /\ o = optim' /\ sc = scaler'))
      /\ (s < n ->
          fs w' !! config_snapshot_path
          = Some (default (FYaml d) (fs w !! config_snapshot_path))).
Proof.
  intros Hd Ht Hv. induction j as [|j IH]; intros k s model optim scaler w Hj Hc.
  - assert (n <= s) by lia.
    exists model, optim, scaler, w.
    replace (Z.max s n) with s by lia.
    split; [by apply epoch_loop_done|].
    split; [done|]. split; [done|]. split; [intros; lia|intros; lia].
  - assert (Hlt : s < n) by lia.
    pose proof (epoch_loop_keeps_store cfg dl_train dl_val (VInt n) (j + k)) as Hkeep.
    simpl. rewrite bind_eq. simpl.
    replace (s <? n) with true by (symmetry; apply Z.ltb_lt; lia).
    rewrite bind_eq.
    destruct (train_run RT cfg dl_train model optim scaler w d dev Hc Hd) as (c1 & E1).
    destruct (train_final_keeps RT dev (use_amp_of cfg w) dl_train
                (model_in_mode true dev model) optim scaler) as (_ & _ & _ & _ & _ & Hen).
    destruct dl_train as [|b1 r1] eqn:Edl; [done|]. rewrite <- Edl in *.
    rewrite E1. clear E1.
    set (m1 := (train_final dev _ dl_train _ optim scaler).1.1).
    set (o1 := (train_final dev _ dl_train _ optim scaler).1.2).
    set (s1 := (train_final dev _ dl_train _ optim scaler).2) in *.
    rewrite bind_eq.
    set (w1 := set_calls RT (calls w ++ c1) w).
    destruct (validate_runs RT cfg dl_val m1 w1 d dev Hc Hd Hv)
      as ([[lv av] m2] & c2 & E2 & _).
    rewrite E2. rewrite bind_eq.
    set (w2 := set_calls RT (calls w1 ++ c2) w1).
    rewrite new_dict_effect. rewrite bind_eq.
    set (stats := fresh (dom (heap w2))).
    set (w3 := set_heap RT _ w2).
    assert (Hne : stats <> cfg) by (by apply (fresh_not_allocated RT w2 cfg d)).
    pose proof (save_model_file RT cfg (s + 1) m2 o1 s1 stats w3) as Hfile.
    pose proof (save_model_snapshot RT cfg (s + 1) m2 o1 s1 stats w3 Hne) as Hsnap.
    destruct (save_model_effect RT cfg (s + 1) m2 o1 s1 stats w3)
      as (w4 & E4 & H4 & _).
    rewrite E4 in *. simpl in Hfile, Hsnap.
    rewrite lookup_insert_eq in Hfile. simpl in Hfile.
    rewrite lookup_insert_ne in Hsnap by done. rewrite Hc in Hsnap. simpl in Hsnap.
    assert (Hc4 : heap w4 !! cfg = Some d).
    { rewrite H4. rewrite lookup_insert_ne by done.
      subst w3. simpl. by rewrite lookup_insert_ne. }
    specialize (Hkeep m2 o1 s1 (s + 1) w4).
    destruct (IH k (s + 1) m2 o1 s1 w4 ltac:(lia) Hc4)
      as (m' & o' & s' & w' & E & Hc' & Hen' & Hck & Hcf).
    rewrite E in Hkeep. simpl in Hkeep. destruct Hkeep as (Hother & Hkeepcf & _).
    exists m', o', s', w'. rewrite E.
    replace (Z.max (s + 1) n) with (Z.max s n) by lia.
    split; [done|]. split; [done|]. split; [by rewrite Hen'|]. split.
    + intros e He. destruct (decide (e = s + 1)) as [->|Hne1].
      * do 7 eexists. split.
        { rewrite Hother; [exact Hfile|apply checkpoint_path_not_config|].
          intros e' He' Heq. apply checkpoint_path_inj in Heq. lia. }
        intros <-. rewrite epoch_loop_done in E by lia. by injection E as <- <- <- _.
      * apply Hck. lia.
    + intros _. apply Hkeepcf. rewrite Hsnap.
      by destruct (fs w !! config_snapshot_path).
Qed.

(** *** What [main] does before the loop *)

Lemma only_logs_gets {A} (f : world -> A) : only_logs (RT:=RT) (gets f).
Proof. intros w. exists []. simpl. by rewrite set_calls_nil. Qed.

Lemma only_logs_log c : only_logs (log RT c).
Proof. intros w. by exists [c]. Qed.

Lemma only_logs_dict_get d k dflt : only_logs (dict_get RT d k dflt).
Proof. eapply emits_only_logs, emits_dict_get. Qed.

Ltac logs_step :=
  first
    [ apply only_logs_ret
    | apply only_logs_raise
    | apply only_logs_gets
    | apply only_logs_log
    | apply only_logs_dict_get
    | apply only_logs_dict_getitem
    | apply only_logs_bind; [| intros ]
    | match goal with
      | |- only_logs (match ?x with _ => _ end) => destruct x
      | |- only_logs (let '(_, _) := ?x in _) => destruct x
      end ].

Lemma only_logs_create_dataloader cfg split :
  only_logs (create_dataloader RT cfg split).
Proof. unfold create_dataloader, dict_snapshot. repeat logs_step. Qed.

Lemma only_logs_model_epochs_of l : only_logs (model_epochs_of RT l).
Proof. induction l as [|m rest IH]; simpl; repeat logs_step. apply IH. Qed.

(** Resuming reads the store and calls the runtime, nothing else. *)
Lemma only_logs_load cfg : only_logs (load_model_optim_scaler RT cfg).
Proof.
  unfold load_model_optim_scaler, glob_model_states, setup_optimizer,
    GradScaler_init.
  do 5 (apply only_logs_bind; [repeat logs_step|intros]).
  destruct (negb _); [|apply only_logs_ret].
  apply only_logs_bind; [apply only_logs_model_epochs_of|intros].
  unfold py_max, torch_load, state_getitem, model_load_state_dict,
    optim_load_state_dict, scaler_load_state_dict.
  repeat logs_step.
Qed.

Lemma device_fallback_other cuda (d : dict) k :
  k <> "device" -> device_fallback cuda d !! k = d !! k.
Proof.
  intros Hk. unfold device_fallback.
  destruct (d !! "device") as [dev|]; [|done].
  destruct (_ && _); [|done]. by rewrite lookup_insert_ne.
Qed.

Lemma device_fallback_device cuda (d : dict) dev :
  d !! "device" = Some dev ->
  device_fallback cuda d !! "device"
  = Some (if ne_str RT dev "cpu" && negb cuda then VStr "cpu" else dev).
Proof.
  intros Hd. unfold device_fallback. rewrite Hd.
  destruct (_ && _); [apply lookup_insert_eq|done].
Qed.

(** [main] up to the device check: the configuration is a new dictionary
    holding the file's content after the device fallback, the seed is
    set, and nothing else has happened. *)
Lemma main_head fuel config (w : world) (d : dict) dev :
  fs w !! config = Some (FYaml d) ->
  d !! "device" = Some dev ->
  let cfg := fresh (dom (heap w)) in
  exists w1,
    main RT fuel config w
    = (dl_train ← create_dataloader RT cfg "train";
       dl_val ← create_dataloader RT cfg "val";
       resume_and_loop fuel cfg dl_train dl_val) w1
    /\ heap w1 = <[cfg := device_fallback (cuda_is_available w) d]> (heap w)
    /\ fs w1 = fs w
    /\ calls w1 = calls w
    /\ cuda_is_available w1 = cuda_is_available w
    /\ seed_state w1 = seed_state (init_seed RT (default VNone (d !! "seed")) w).2.
Proof.
  intros Hf Hd cfg. unfold main. rewrite bind_eq.
  unfold yaml_safe_load. rewrite bind_eq. simpl. rewrite Hf.
  rewrite new_dict_effect. fold cfg.
  set (w1 := set_heap RT _ w).
  assert (H1 : heap w1 !! cfg = Some d) by (subst w1; simpl; apply lookup_insert_eq).
  rewrite bind_eq.
  rewrite (dict_get_run RT cfg "seed"). rewrite H1. simpl.
  set (seed := default VNone (d !! "seed")).
  rewrite bind_eq.
  assert (Hseed : exists w2, init_seed RT seed w1 = (Ok tt, w2)
            /\ heap w2 = heap w1 /\ fs w2 = fs w /\ calls w2 = calls w
            /\ cuda_is_available w2 = cuda_is_available w
            /\ seed_state w2 = seed_state (init_seed RT seed w).2).
  { destruct seed; simpl; eexists; (split; [reflexivity|]); by repeat split. }
  destruct Hseed as (w2 & -> & H2 & F2 & L2 & C2 & R2).
  rewrite bind_eq. unfold dict_getitem at 1. rewrite H2, H1. simpl. rewrite Hd.
  rewrite bind_eq. simpl. rewrite C2.
  rewrite bind_eq.
  unfold device_fallback. rewrite Hd.
  destruct (ne_str RT dev "cpu" && negb (cuda_is_available w)).
  - unfold dict_setitem, modify.
    eexists. split; [reflexivity|]. simpl. rewrite H2, H1. simpl.
    subst w1. simpl. rewrite insert_insert_eq. by repeat split.
  - eexists. split; [reflexivity|]. rewrite H2. by repeat split.
Qed.

Lemma dict_getitem_miss d k (w : world) (c : dict) :
  heap w !! d = Some c -> c !! k = None ->
  dict_getitem RT d k w = (Raise (KeyError k), w).
Proof. intros Hd Hk. unfold dict_getitem. rewrite Hd. simpl. by rewrite Hk. Qed.

Lemma create_dataloader_run cfg split (w : world) (c : dict) bs nw :
  heap w !! cfg = Some c ->
  c !! "batch_size" = Some bs ->
  c !! "num_workers" = Some nw ->
  create_dataloader RT cfg split w = (Ok (make_loader RT c split bs nw), w).
Proof.
  intros Hc Hb Hn. unfold create_dataloader, dict_snapshot, gets.
  rewrite bind_eq. rewrite bind_eq, (dict_getitem_run RT _ _ _ _ _ Hc Hb).
  rewrite bind_eq, (dict_getitem_run RT _ _ _ _ _ Hc Hn). simpl. by rewrite Hc.
Qed.

(** The first required key the configuration object lacks is the key of
    the [KeyError] that ends the set-up; nothing has been read or written
    by then. *)
Lemma setup_missing_key fuel cfg (w : world) (c : dict) k :
  heap w !! cfg = Some c ->
  is_Some (c !! "device") ->
  first_missing c = Some k ->
  (dl_train ← create_dataloader RT cfg "train";
   dl_val ← create_dataloader RT cfg "val";
   resume_and_loop fuel cfg dl_train dl_val) w
  = (Raise (KeyError k), w).
Proof.
  intros Hc [dev Hdev] Hk. unfold first_missing, required_keys in Hk.
  cbn [List.find] in Hk. rewrite Hdev in Hk. cbn in Hk.
  rewrite bind_eq.
  destruct (c !! "batch_size") as [bs|] eqn:Hbs; cbn in Hk.
  2:{ injection Hk as <-. unfold create_dataloader, dict_snapshot, gets.
      rewrite !bind_eq. by rewrite (dict_getitem_miss _ _ _ _ Hc Hbs). }
  destruct (c !! "num_workers") as [nw|] eqn:Hnw; cbn in Hk.
  2:{ injection Hk as <-. unfold create_dataloader, dict_snapshot, gets.
      rewrite !bind_eq. rewrite (dict_getitem_run RT _ _ _ _ _ Hc Hbs).
      rewrite bind_eq. by rewrite (dict_getitem_miss _ _ _ _ Hc Hnw). }
  rewrite (create_dataloader_run _ _ _ _ _ _ Hc Hbs Hnw).
  rewrite bind_eq, (create_dataloader_run _ _ _ _ _ _ Hc Hbs Hnw).
  unfold resume_and_loop. rewrite bind_eq.
  unfold load_model_optim_scaler. rewrite bind_eq.
  destruct (c !! "num_classes") as [nc|] eqn:Hnc; cbn in Hk.
  2:{ injection Hk as <-. by rewrite (dict_getitem_miss _ _ _ _ Hc Hnc). }
  rewrite (dict_getitem_run RT _ _ _ _ _ Hc Hnc).
  rewrite bind_eq. unfold glob_model_states, gets.
  rewrite bind_eq. unfold setup_optimizer. rewrite bind_eq.
  destruct (c !! "learning_rate") as [lr|] eqn:Hlr; cbn in Hk.
  2:{ injection Hk as <-. by rewrite (dict_getitem_miss _ _ _ _ Hc Hlr). }
  rewrite (dict_getitem_run RT _ _ _ _ _ Hc Hlr), bind_eq.
  destruct (c !! "weight_decay") as [wd|] eqn:Hwd; cbn in Hk; [done|].
  injection Hk as <-. by rewrite (dict_getitem_miss _ _ _ _ Hc Hwd).
Qed.

Lemma first_missing_fallback cuda (d : dict) :
  first_missing (device_fallback cuda d) = first_missing d.
Proof.
  unfold first_missing, required_keys. cbn [List.find].
  rewrite (device_fallback_other cuda d "batch_size"),
    (device_fallback_other cuda d "num_workers"),
    (device_fallback_other cuda d "num_classes"),
    (device_fallback_other cuda d "learning_rate"),
    (device_fallback_other cuda d "weight_decay") by done.
  destruct (d !! "device") as [dev|] eqn:Hd.
  - rewrite (device_fallback_device _ _ _ Hd), ?Hd. reflexivity.
  - unfold device_fallback. rewrite !Hd. reflexivity.
Qed.

Lemma main_no_device fuel config (w : world) (d : dict) :
  fs w !! config = Some (FYaml d) ->
  d !! "device" = None ->
  exists w1,
    main RT fuel config w = (Raise (KeyError "device"), w1)
    /\ fs w1 = fs w
    /\ calls w1 = calls w
    /\ cuda_is_available w1 = cuda_is_available w
    /\ seed_state w1 = seed_state (init_seed RT (default VNone (d !! "seed")) w).2.
Proof.
  intros Hf Hd. unfold main. rewrite bind_eq.
  unfold yaml_safe_load. rewrite bind_eq. simpl. rewrite Hf.
  rewrite new_dict_effect.
  set (cfg := fresh (dom (heap w))). set (w1 := set_heap RT _ w).
  assert (H1 : heap w1 !! cfg = Some d) by (subst w1; simpl; apply lookup_insert_eq).
  rewrite bind_eq.
  rewrite (dict_get_run RT cfg "seed"). rewrite H1. simpl.
  set (seed := default VNone (d !! "seed")).
  rewrite bind_eq.
  assert (Hseed : exists w2, init_seed RT seed w1 = (Ok tt, w2)
            /\ heap w2 = heap w1 /\ fs w2 = fs w /\ calls w2 = calls w
            /\ cuda_is_available w2 = cuda_is_available w
            /\ seed_state w2 = seed_state (init_seed RT seed w).2).
  { destruct seed; simpl; eexists; (split; [reflexivity|]); by repeat split. }
  destruct Hseed as (w2 & -> & H2 & F2 & L2 & C2 & R2).
  rewrite bind_eq. rewrite (dict_getitem_miss cfg "device" w2 d) by (by rewrite ?H2).
  by exists w2.
Qed.

(** *** The seeds after the set-up *)

Lemma keeps_seeds_only_logs {A} (m : Py A) : only_logs m -> keeps_seeds m.
Proof. intros H w. by destruct (H w) as [cs ->]. Qed.

Lemma keeps_seeds_bind {A B} (m : Py A) (k : A -> Py B) :
  keeps_seeds m -> (forall a, keeps_seeds (k a)) -> keeps_seeds (m ≫= k).
Proof.
  intros Hm Hk w. rewrite bind_eq. destruct (Hm w) as [R C].
  destruct (m w) as [[a|e|] w1]; simpl in *; [|done|done].
  destruct (Hk a w1) as [R' C']. by rewrite R', C'.
Qed.

Lemma keeps_seeds_epoch_loop fuel cfg dl_train dl_val numEpochs model optim scaler s :
  keeps_seeds (epoch_loop RT fuel cfg dl_train dl_val numEpochs model optim scaler s).
Proof.
  intros w.
  by destruct (epoch_loop_keeps_store cfg dl_train dl_val numEpochs fuel model optim
                 scaler s w) as (_ & _ & R & C).
Qed.

Lemma keeps_seeds_setup fuel cfg :
  keeps_seeds
    (dl_train ← create_dataloader RT cfg "train";
     dl_val ← create_dataloader RT cfg "val";
     resume_and_loop fuel cfg dl_train dl_val).
Proof.
  apply keeps_seeds_bind;
    [apply keeps_seeds_only_logs, only_logs_create_dataloader|intros dl_train].
  apply keeps_seeds_bind;
    [apply keeps_seeds_only_logs, only_logs_create_dataloader|intros dl_val].
  unfold resume_and_loop.
  apply keeps_seeds_bind;
    [apply keeps_seeds_only_logs, only_logs_load|intros [[[model optim] scaler] e]].
  apply keeps_seeds_bind;
    [apply keeps_seeds_only_logs, only_logs_dict_getitem|intros numEpochs].
  apply keeps_seeds_bind; [apply keeps_seeds_epoch_loop|intros r].
  apply keeps_seeds_only_logs, only_logs_ret.
Qed.

Lemma main_seed_state fuel config (w : world) (d : dict) :
  fs w !! config = Some (FYaml d) ->
  seed_state (main RT fuel config w).2
  = seed_state (init_seed RT (default VNone (d !! "seed")) w).2
  /\ cuda_is_available (main RT fuel config w).2 = cuda_is_available w.
Proof.
  intros Hf. destruct (d !! "device") as [dev|] eqn:Hd.
  - destruct (main_head fuel config w d dev Hf Hd) as (w1 & -> & _ & _ & _ & C & R).
    destruct (keeps_seeds_setup fuel (fresh (dom (heap w))) w1) as [R' C'].
    by rewrite R', C'.
  - destruct (main_no_device fuel config w d Hf Hd) as (w1 & -> & _ & _ & C & R).
    done.
Qed.

End Loop.

(** X14. The loop of [main] (lines 333-347) never rewrites what it did
    not produce: whatever the number of epochs asked for, and whether the
    loop ends, raises or is cut short, the checkpoints of the epochs up to
    the one it starts from are as they were, as are a configuration
    snapshot that existed and every file that is no checkpoint. *)
Theorem epoch_loop_keeps_earlier_checkpoints (RT : Runtime) fuel cfg dl_train dl_val
    numEpochs model optim scaler s (w : World (Params RT) (OptState RT)) i :
  i <= s ->
  let w' := (epoch_loop RT fuel cfg dl_train dl_val numEpochs model optim scaler
               s w).2 in
  fs w' !! checkpoint_path i = fs w !! checkpoint_path i
  /\ (forall f, fs w !! config_snapshot_path = Some f ->
                fs w' !! config_snapshot_path = Some f)
  /\ (forall p, p <> config_snapshot_path -> (forall e, p <> checkpoint_path e) ->
                fs w' !! p = fs w !! p).
Proof.
  intros Hi w'.
  destruct (epoch_loop_keeps_store RT cfg dl_train dl_val numEpochs fuel model optim
              scaler s w) as (F & C & _).
  fold w' in F, C. split; [|split; [exact C|]].
  - apply F; [apply checkpoint_path_not_config|].
    intros e He Heq. apply checkpoint_path_inj in Heq. lia.
  - intros p Hp He. apply F; [done|]. intros e _. apply He.
Qed.

Lemma epoch_loop_keeps_earlier_checkpoints_witness :
  fs (epoch_loop Toy.rt 3 Toy.cfg Toy.four_batches [Toy.batch_right] (VInt 9)
        Toy.model0 Toy.optim0 Toy.scaler_off 7
        (Toy.world1 (Toy.cfg_content "cpu" 9) Toy.store_3_7_5 false)).2
    !! checkpoint_path 5
  = Some (FPickle (Toy.bundle 5)).
Proof.
  refine (eq_trans
            (proj1 (epoch_loop_keeps_earlier_checkpoints Toy.rt 3 Toy.cfg
                      Toy.four_batches [Toy.batch_right] (VInt 9) Toy.model0
                      Toy.optim0 Toy.scaler_off 7
                      (Toy.world1 (Toy.cfg_content "cpu" 9) Toy.store_3_7_5 false)
                      5 _)) _).
  - lia.
  - reflexivity.
Defined.



(** X16. A configuration file that lacks one of the keys [main] reads
    for the set-up (lines 319, 35, 37, 47 and 106-107) ends the run with
    the [KeyError] of the first of them in the order [device],
    [batch_size], [num_workers], [num_classes], [learning_rate],
    [weight_decay], the data set and the network taking the configuration
    as it is; no file has been written and no checkpoint has been read by
    then. *)
Theorem main_missing_key (RT : Runtime) fuel config
    (w : World (Params RT) (OptState RT)) d k :
  fs w !! config = Some (FYaml d) ->
  first_missing d = Some k ->
  exists w',
    main RT fuel config w = (Raise (KeyError k), w')
    /\ fs w' = fs w
    /\ calls w' = calls w.
Proof.
  intros Hf Hk. destruct (d !! "device") as [dev|] eqn:Hd.
  - destruct (main_head RT fuel config w d dev Hf Hd) as (w1 & -> & H1 & F1 & C1 & _).
    exists w1. split; [|done].
    apply (setup_missing_key RT fuel _ w1 (device_fallback (cuda_is_available w) d)).
    + rewrite H1. apply lookup_insert_eq.
    + rewrite (device_fallback_device RT _ _ _ Hd). eauto.
    + by rewrite first_missing_fallback.
  - destruct (main_no_device RT fuel config w d Hf Hd) as (w1 & E & F1 & C1 & _).
    unfold first_missing, required_keys in Hk. cbn [List.find] in Hk.
    rewrite Hd in Hk. cbn in Hk. injection Hk as <-.
    by exists w1.
Qed.

Lemma main_missing_key_witness :
  let d := delete "learning_rate" (Toy.cfg_content "cuda" 2) in
  let w := Toy.world0 {[ "config.yaml" := FYaml d ]} false in
  exists w',
    main Toy.rt 5 "config.yaml" w = (Raise (KeyError "learning_rate"), w')
    /\ fs w' = fs w
    /\ calls w' = calls w.
Proof.
  intros d w.
  exact (main_missing_key Toy.rt 5 "config.yaml" w d "learning_rate"
           eq_refl eq_refl).
Defined.

(** X17. A first run from beginning to end (lines 302-347): on a store
    without checkpoints and a configuration that holds the keys of the
    set-up, with loaders that are not empty, [main] trains from epoch 0 up
    to [num_epochs] and returns; it leaves one checkpoint for each of the
    epochs 1 to [num_epochs], the last one holding the objects it ends
    with, and a snapshot of the configuration as it is after the device
    fallback; no other file is touched. *)
Theorem main_fresh_run (RT : Runtime) config (w : World (Params RT) (OptState RT))
    d dev bs nw nc lr wd n k :
  fs w !! config = Some (FYaml d) ->
  d !! "device" = Some dev ->
  d !! "batch_size" = Some bs ->
  d !! "num_workers" = Some nw ->
  d !! "num_classes" = Some nc ->
  d !! "learning_rate" = Some lr ->
  d !! "weight_decay" = Some wd ->
  d !! "num_epochs" = Some (VInt n) ->
  glob_of (fs w) = [] ->
  make_loader RT (device_fallback (cuda_is_available w) d) "train" bs nw <> [] ->
  make_loader RT (device_fallback (cuda_is_available w) d) "val" bs nw <> [] ->
  exists model optim scaler w',
    main RT (Z.to_nat n + k) config w
    = (Ok (fresh (dom (heap w)), (model, optim, scaler, Z.max 0 n)), w')
    /\ (forall e, 0 < e <= n ->
          exists loss_train loss_val oa_train oa_val m o sc,
            fs w' !! checkpoint_path e
            = Some (FPickle (saved_stats m o sc
                               (epoch_stats loss_train loss_val oa_train oa_val)))
            /\ (e = n -> m = model /\ o = optim /\ sc = scaler))
    /\ (0 < n ->
        fs w' !! config_snapshot_path
        = Some (default (FYaml (device_fallback (cuda_is_available w) d))
                  (fs w !! config_snapshot_path)))
    /\ (forall p, p <> config_snapshot_path -> (forall e, p <> checkpoint_path e) ->
                  fs w' !! p = fs w !! p).
Proof.
  intros Hf Hd Hbs Hnw Hnc Hlr Hwd Hn Hg Ht Hv.
  destruct (main_head RT (Z.to_nat n + k) config w d dev Hf Hd)
    as (w1 & E & H1 & F1 & _ & U1 & _).
  set (cfg := fresh (dom (heap w))) in *.
  set (d' := device_fallback (cuda_is_available w) d) in *.
  assert (Hc1 : heap w1 !! cfg = Some d') by (rewrite H1; apply lookup_insert_eq).
  assert (Hother : forall key, key <> "device" -> d' !! key = d !! key)
    by (intros; by apply device_fallback_other).
  rewrite E. clear E.
  rewrite bind_eq, (create_dataloader_run RT cfg "train" w1 d' bs nw)
    by (by rewrite ?Hother).
  rewrite bind_eq, (create_dataloader_run RT cfg "val" w1 d' bs nw)
    by (by rewrite ?Hother).
  unfold resume_and_loop. rewrite bind_eq.
  rewrite (load_fresh RT cfg w1 d' nc lr wd) by (by rewrite ?Hother, ?F1).
  rewrite bind_eq, (dict_getitem_run RT cfg "num_epochs" w1 d' (VInt n))
    by (by rewrite ?Hother).
  rewrite bind_eq.
  pose proof (epoch_loop_keeps_store RT cfg
                (make_loader RT d' "train" bs nw) (make_loader RT d' "val" bs nw)
                (VInt n) (Z.to_nat n + k) (fresh_model nc) (fresh_optimizer lr wd)
                (fresh_scaler (amp_enabled cfg w1)) 0 w1) as Hkeep.
  destruct (epoch_loop_store RT cfg
              (make_loader RT d' "train" bs nw) (make_loader RT d' "val" bs nw)
              d' _ n (device_fallback_device RT _ d dev Hd) Ht Hv
              (Z.to_nat n) k 0 (fresh_model nc) (fresh_optimizer lr wd)
              (fresh_scaler (amp_enabled cfg w1)) w1 ltac:(f_equal; lia) Hc1)
    as (m' & o' & s' & w' & E & _ & _ & Hck & Hcf).
  rewrite E in *. simpl in Hkeep. destruct Hkeep as (Hkeep & _).
  exists m', o', s', w'. split; [done|]. split; [exact Hck|].
  split; [by rewrite <- F1|].
  intros p Hp He. rewrite <- F1. apply Hkeep; [done|]. intros e _. apply He.
Qed.

Lemma main_fresh_run_witness :
  let d := Toy.cfg_content "cuda" 2 in
  let w := Toy.world0 {[ "config.yaml" := FYaml d ]} false in
  exists model optim scaler w',
    main Toy.rt (Z.to_nat 2 + 0) "config.yaml" w
    = (Ok (fresh (dom (heap w)), (model, optim, scaler, Z.max 0 2)), w')
    /\ (forall e, 0 < e <= 2 ->
          exists loss_train loss_val oa_train oa_val m o sc,
            fs w' !! checkpoint_path e
            = Some (FPickle (saved_stats m o sc
                               (epoch_stats loss_train loss_val oa_train oa_val)))
            /\ (e = 2 -> m = model /\ o = optim /\ sc = scaler))
    /\ (0 < 2 ->
        fs w' !! config_snapshot_path
        = Some (default (FYaml (device_fallback (cuda_is_available w) d))
                  (fs w !! config_snapshot_path)))
    /\ (forall p, p <> config_snapshot_path -> (forall e, p <> checkpoint_path e) ->
                  fs w' !! p = fs w !! p).
Proof.
  intros d w.
  refine (main_fresh_run Toy.rt "config.yaml" w d (VStr "cuda") (VInt 2) (VInt 0)
            (VInt 2) (VFloat (1 # 10)) (VFloat 0) 2 0%nat
            eq_refl eq_refl eq_refl eq_refl eq_refl eq_refl eq_refl eq_refl eq_refl
            _ _); discriminate.
Defined.

(** X18. A run that is already complete is not trained again (lines
    329-333): when the latest checkpoint of the store is of an epoch at or
    past [num_epochs], [main] loads that checkpoint and returns with its
    epoch number, whatever the fuel; it reads that one checkpoint, runs no
    batch and writes no file. *)
Theorem main_finished_run (RT : Runtime) fuel config
    (w : World (Params RT) (OptState RT))
    d dev bs nw nc lr wd n ids e b p p' lr' wd' st sd :
  fs w !! config = Some (FYaml d) ->
  d !! "device" = Some dev ->
  d !! "batch_size" = Some bs ->
  d !! "num_workers" = Some nw ->
  d !! "num_classes" = Some nc ->
  d !! "learning_rate" = Some lr ->
  d !! "weight_decay" = Some wd ->
  d !! "num_epochs" = Some (VInt n) ->
  glob_of (fs w) = map checkpoint_path ids ->
  latest_of ids = Some e ->
  n <= e ->
  fs w !! checkpoint_path e = Some (FPickle b) ->
  b !! "model" = Some (VModelState p) ->
  load_params RT (new_model RT nc) p = Some p' ->
  b !! "optim" = Some (VOptimState lr' wd' st) ->
  b !! "scaler" = Some (VScalerState sd) ->
  (truthy RT (default (VBool false) (d !! "use_amp")) && cuda_is_available w = true ->
   is_Some sd) ->
  exists scaler w',
    main RT fuel config w
    = (Ok (fresh (dom (heap w)),
           ({| m_params := p'; m_grad := None; m_training := true; m_device := None |},
            {| o_lr := lr'; o_weight_decay := wd'; o_state := st |},
            scaler, e)),
       w')
    /\ fs w' = fs w
    /\ calls w' = calls w ++ [CTorchLoad (checkpoint_path e)].
Proof.
  intros Hf Hd Hbs Hnw Hnc Hlr Hwd Hn Hg Hlatest Hle Hfile Hm Hp Ho Hs Hsd.
  destruct (main_head RT fuel config w d dev Hf Hd)
    as (w1 & E & H1 & F1 & C1 & U1 & _).
  set (cfg := fresh (dom (heap w))) in *.
  set (d' := device_fallback (cuda_is_available w) d) in *.
  assert (Hc1 : heap w1 !! cfg = Some d') by (rewrite H1; apply lookup_insert_eq).
  assert (Hother : forall key, key <> "device" -> d' !! key = d !! key)
    by (intros; by apply device_fallback_other).
  assert (Ha : amp_enabled cfg w1
               = truthy RT (default (VBool false) (d !! "use_amp"))
                 && cuda_is_available w).
  { unfold amp_enabled, use_amp_of. rewrite Hc1, U1. simpl. by rewrite Hother. }
  rewrite E. clear E.
  rewrite bind_eq, (create_dataloader_run RT cfg "train" w1 d' bs nw)
    by (by rewrite ?Hother).
  rewrite bind_eq, (create_dataloader_run RT cfg "val" w1 d' bs nw)
    by (by rewrite ?Hother).
  unfold resume_and_loop. rewrite bind_eq.
  rewrite (load_state RT cfg w1 d' nc lr wd ids e b p p' lr' wd' st sd)
    by (rewrite ?Hother, ?F1, ?Ha; done).
  rewrite bind_eq.
  rewrite (dict_getitem_run RT cfg "num_epochs" _ d' (VInt n))
    by (by rewrite ?Hother).
  rewrite bind_eq, epoch_loop_done by done.
  eexists _, _. split; [reflexivity|]. simpl. by rewrite F1, C1.
Qed.

Lemma main_finished_run_witness :
  let d := Toy.cfg_content "cpu" 5 in
  let w := Toy.world0 (<["config.yaml" := FYaml d]> Toy.store_3_7_5) false in
  exists scaler w',
    main Toy.rt 0 "config.yaml" w
    = (Ok (fresh (dom (heap w)),
           (Build_Model Toy.rt (Some 7%Q) None true None,
            Build_Optimizer Toy.rt (VFloat (1 # 10)) (VFloat 0) tt,
            scaler, 7)),
       w')
    /\ fs w' = fs w
    /\ calls w' = calls w ++ [CTorchLoad (checkpoint_path 7)].
Proof.
  intros d w.
  refine (main_finished_run Toy.rt 0 "config.yaml" w d (VStr "cpu") (VInt 2) (VInt 0)
            (VInt 2) (VFloat (1 # 10)) (VFloat 0) 5 [7; 3; 5] 7 (Toy.bundle 7)
            (Some 7%Q) (Some 7%Q) (VFloat (1 # 10)) (VFloat 0) tt None
            eq_refl eq_refl eq_refl eq_refl eq_refl eq_refl eq_refl eq_refl eq_refl
            eq_refl _ eq_refl eq_refl eq_refl eq_refl eq_refl _).
  - lia.
  - vm_compute. discriminate.
Defined.

(** X19. The seed of a run is the [seed] entry of its configuration file
    and is set once, at the start (line 316): whether [main] returns,
    raises or is cut short, the seeds and the cuDNN switches it leaves are
    the ones [init_seed] set from that entry, and the ones it found when
    the entry is missing or null. *)
Theorem main_seeds_once (RT : Runtime) fuel config
    (w : World (Params RT) (OptState RT)) d :
  fs w !! config = Some (FYaml d) ->
  let w' := (main RT fuel config w).2 in
  match d !! "seed" with
  | None | Some VNone => seed_state w' = seed_state w
  | Some seed => seed_state w' = (Some seed, Some seed, Some seed, true, true)
  end.
Proof.
  intros Hf w'. destruct (main_seed_state RT fuel config w d Hf) as [R _].
  fold w' in R. rewrite R.
  destruct (d !! "seed") as [[]|]; reflexivity.
Qed.

Lemma main_seeds_once_witness :
  seed_state
    (main Toy.rt 0 "config.yaml"
       (Toy.world0
          {[ "config.yaml" := FYaml (<["seed" := VInt 42]> (Toy.cfg_content "cpu" 2)) ]}
          false)).2
  = (Some (VInt 42), Some (VInt 42), Some (VInt 42), true, true).
Proof.
  exact (main_seeds_once Toy.rt 0 "config.yaml"
           (Toy.world0
              {[ "config.yaml" := FYaml (<["seed" := VInt 42]> (Toy.cfg_content "cpu" 2)) ]}
              false)
           (<["seed" := VInt 42]> (Toy.cfg_content "cpu" 2)) eq_refl).
Defined.

(** X20. A run that was cut short goes on where it stopped (lines
    329-347): from a store whose latest checkpoint is of epoch [e], [main]
    loads that checkpoint, trains the epochs after [e] up to [num_epochs]
    and leaves a checkpoint for each of them; the checkpoints up to [e]
    are as they were, and so is every file that is no checkpoint, the
    configuration snapshot of the earlier run among them. *)
Theorem main_resumed_run (RT : Runtime) config
    (w : World (Params RT) (OptState RT))
    d dev bs nw nc lr wd n k ids e b p p' lr' wd' st sd :
  fs w !! config = Some (FYaml d) ->
  d !! "device" = Some dev ->
  d !! "batch_size" = Some bs ->
  d !! "num_workers" = Some nw ->
  d !! "num_classes" = Some nc ->
  d !! "learning_rate" = Some lr ->
  d !! "weight_decay" = Some wd ->
  d !! "num_epochs" = Some (VInt n) ->
  glob_of (fs w) = map checkpoint_path ids ->
  latest_of ids = Some e ->
  fs w !! checkpoint_path e = Some (FPickle b) ->
  b !! "model" = Some (VModelState p) ->
  load_params RT (new_model RT nc) p = Some p' ->
  b !! "optim" = Some (VOptimState lr' wd' st) ->
  b !! "scaler" = Some (VScalerState sd) ->
  (truthy RT (default (VBool false) (d !! "use_amp")) && cuda_is_available w = true ->
   is_Some sd) ->
  make_loader RT (device_fallback (cuda_is_available w) d) "train" bs nw <> [] ->
  make_loader RT (device_fallback (cuda_is_available w) d) "val" bs nw <> [] ->
  exists model optim scaler w',
    main RT (Z.to_nat (n - e) + k) config w
    = (Ok (fresh (dom (heap w)), (model, optim, scaler, Z.max e n)), w')
    /\ (forall i, e < i <= n ->
          exists loss_train loss_val oa_train oa_val m o sc,
            fs w' !! checkpoint_path i
            = Some (FPickle (saved_stats m o sc
                               (epoch_stats loss_train loss_val oa_train oa_val)))
            /\ (i = n -> m = model /\ o = optim /\ sc = scaler))
    /\ (forall i, i <= e -> fs w' !! checkpoint_path i = fs w !! checkpoint_path i)
    /\ (forall f, fs w !! config_snapshot_path = Some f ->
                  fs w' !! config_snapshot_path = Some f)
    /\ (forall q, q <> config_snapshot_path -> (forall i, q <> checkpoint_path i) ->
                  fs w' !! q = fs w !! q).
Proof.
  intros Hf Hd Hbs Hnw Hnc Hlr Hwd Hn Hg Hlatest Hfile Hm Hp Ho Hs Hsd Ht Hv.
  destruct (main_head RT (Z.to_nat (n - e) + k) config w d dev Hf Hd)
    as (w1 & E & H1 & F1 & _ & U1 & _).
  set (cfg := fresh (dom (heap w))) in *.
  set (d' := device_fallback (cuda_is_available w) d) in *.
  assert (Hc1 : heap w1 !! cfg = Some d') by (rewrite H1; apply lookup_insert_eq).
  assert (Hother : forall key, key <> "device" -> d' !! key = d !! key)
    by (intros; by apply device_fallback_other).
  assert (Ha : amp_enabled cfg w1
               = truthy RT (default (VBool false) (d !! "use_amp"))
                 && cuda_is_available w).
  { unfold amp_enabled, use_amp_of. rewrite Hc1, U1. simpl. by rewrite Hother. }
  rewrite E. clear E.
  rewrite bind_eq, (create_dataloader_run RT cfg "train" w1 d' bs nw)
    by (by rewrite ?Hother).
  rewrite bind_eq, (create_dataloader_run RT cfg "val" w1 d' bs nw)
    by (by rewrite ?Hother).
  unfold resume_and_loop. rewrite bind_eq.
  rewrite (load_state RT cfg w1 d' nc lr wd ids e b p p' lr' wd' st sd)
    by (rewrite ?Hother, ?F1, ?Ha; done).
  set (w2 := set_calls RT _ w1).
  rewrite bind_eq.
  rewrite (dict_getitem_run RT cfg "num_epochs" w2 d' (VInt n))
    by (by rewrite ?Hother).
  rewrite bind_eq.
  set (model0 := {| m_params := p'; m_grad := None; m_training := true;
                    m_device := None |}).
  set (optim0 := {| o_lr := lr'; o_weight_decay := wd'; o_state := st |}).
  set (scaler0 := restored_scaler _ sd).
  pose proof (epoch_loop_keeps_store RT cfg
                (make_loader RT d' "train" bs nw) (make_loader RT d' "val" bs nw)
                (VInt n) (Z.to_nat (n - e) + k) model0 optim0 scaler0 e w2) as Hkeep.
  destruct (epoch_loop_store RT cfg
              (make_loader RT d' "train" bs nw) (make_loader RT d' "val" bs nw)
              d' _ n (device_fallback_device RT _ d dev Hd) Ht Hv
              (Z.to_nat (n - e)) k e model0 optim0 scaler0 w2 eq_refl Hc1)
    as (m' & o' & s' & w' & E & _ & _ & Hck & _).
  rewrite E in *. simpl in Hkeep. destruct Hkeep as (Hkeep & Hcf & _).
  change (fs w2) with (fs w1) in *. rewrite F1 in *.
  exists m', o', s', w'. split; [done|]. split; [exact Hck|].
  split; [|split; [exact Hcf|]].
  - intros i Hi. apply Hkeep; [apply checkpoint_path_not_config|].
    intros j Hj Heq. apply checkpoint_path_inj in Heq. lia.
  - intros q Hq Hi. apply Hkeep; [done|]. intros j _. apply Hi.
Qed.

Lemma main_resumed_run_witness :
  let d := Toy.cfg_content "cpu" 9 in
  let w := Toy.world0 (<["config.yaml" := FYaml d]> Toy.store_3_7_5) false in
  exists model optim scaler w',
    main Toy.rt (Z.to_nat (9 - 7) + 0) "config.yaml" w
    = (Ok (fresh (dom (heap w)), (model, optim, scaler, Z.max 7 9)), w')
    /\ (forall i, 7 < i <= 9 ->
          exists loss_train loss_val oa_train oa_val m o sc,
            fs w' !! checkpoint_path i
            = Some (FPickle (saved_stats m o sc
                               (epoch_stats loss_train loss_val oa_train oa_val)))
            /\ (i = 9 -> m = model /\ o = optim /\ sc = scaler))
    /\ (forall i, i <= 7 -> fs w' !! checkpoint_path i = fs w !! checkpoint_path i)
    /\ (forall f, fs w !! config_snapshot_path = Some f ->
                  fs w' !! config_snapshot_path = Some f)
    /\ (forall q, q <> config_snapshot_path -> (forall i, q <> checkpoint_path i) ->
                  fs w' !! q = fs w !! q).
Proof.
  intros d w.
  refine (main_resumed_run Toy.rt "config.yaml" w d (VStr "cpu") (VInt 2) (VInt 0)
            (VInt 2) (VFloat (1 # 10)) (VFloat 0) 9 0%nat [7; 3; 5] 7 (Toy.bundle 7)
            (Some 7%Q) (Some 7%Q) (VFloat (1 # 10)) (VFloat 0) tt None
            eq_refl eq_refl eq_refl eq_refl eq_refl eq_refl eq_refl eq_refl eq_refl
            eq_refl eq_refl eq_refl eq_refl eq_refl eq_refl _ _ _).
  - vm_compute. discriminate.
  - discriminate.
  - discriminate.
Defined.
